(** * Polymarket copy-trading bot: the order pipeline and the RPC fallback

    A shallow embedding of [TradeOrderBuilder] (createSimulateAndPost,
    copyTrade, placeMarketBuy, placeMarketSell), of [simulateTx]
    (src/utils/simulateOrder.ts) and of the provider selection, the
    post-buy approval and the allowance set-up of
    src/security/allowance.ts.

    JavaScript numbers are IEEE-754 binary64 values, i.e. Rocq's primitive
    [float]; strings are byte strings; asynchronous calls to collaborators
    (the CLOB client, the chain RPC, fetch, the balance helpers) are
    answered by an oracle over an abstract world, may throw, and are
    recorded in a chronological trace. *)

From Stdlib Require Import Floats Ascii String DecimalString.
From stdpp Require Import gmap strings list.

Local Open Scope string_scope.

(** ** JavaScript values *)

Module Js.

(** [x] is falsy as a number exactly when it is [0], [-0] or [NaN]. *)
Definition is_nan (x : float) : bool := negb (PrimFloat.eqb x x).

Definition truthy_num (x : float) : bool :=
  negb (PrimFloat.eqb x 0 || is_nan x).

(** A string is falsy exactly when it is empty. *)
Definition truthy_str (s : string) : bool :=
  match s with EmptyString => false | String _ _ => true end.

(** An optional string field ([undefined] when absent). *)
Definition truthy_opt (o : option string) : bool :=
  match o with Some s => truthy_str s | None => false end.

(** [a || b] on strings. *)
Definition or_str (a b : string) : string := if truthy_str a then a else b.

(** [hay.includes(needle)]. *)
Fixpoint includes (hay needle : string) : bool :=
  String.prefix needle hay
  || match hay with
     | EmptyString => false
     | String _ rest => includes rest needle
     end.

Definition upper_ascii (c : ascii) : ascii :=
  let n := nat_of_ascii c in
  if (97 <=? n)%nat && (n <=? 122)%nat then ascii_of_nat (n - 32) else c.

(** [s.toUpperCase()] on the ASCII range; bytes outside it are kept, so
    this is JavaScript's result for ASCII strings (a trade's side is "BUY"
    or "SELL" in any letter case). *)
Fixpoint toUpperCase (s : string) : string :=
  match s with
  | EmptyString => EmptyString
  | String c rest => String (upper_ascii c) (toUpperCase rest)
  end.

(** [s.replace(/\/$/, "")]: drop one trailing slash. *)
Fixpoint dropTrailingSlash (s : string) : string :=
  match s with
  | EmptyString => EmptyString
  | String c EmptyString => if Ascii.eqb c "/" then EmptyString else s
  | String c rest => String c (dropTrailingSlash rest)
  end.

(** [arr.join(sep)]. *)
Fixpoint join (sep : string) (l : list string) : string :=
  match l with
  | [] => ""
  | [x] => x
  | x :: rest => x +:+ sep +:+ join sep rest
  end.

(** [[...new Set(l)]]: first occurrences, in insertion order. *)
Fixpoint uniqFrom (seen l : list string) : list string :=
  match l with
  | [] => []
  | x :: rest =>
      if bool_decide (x ∈ seen) then uniqFrom seen rest
      else x :: uniqFrom (x :: seen) rest
  end.

Definition uniq (l : list string) : list string := uniqFrom [] l.

(** A property of a thrown value, as the code can tell: a string, or a
    value of another kind (a number, a boolean, [undefined], [null], a
    plain object), of which the code sees the truthiness (in [||]) and the
    text [String(v)] (in a template literal), and on which [includes] is
    not a method.  Nothing forces [e.message], [e.code] or [e.data.error]
    to be strings: ethers reports numeric codes, and a message can be
    assigned anything. *)
Inductive Val :=
| Str (s : string)
| NotStr (truthy : bool) (shown : string).

(** An absent property. *)
Definition undefined : Val := NotStr false "undefined".

Definition truthy (v : Val) : bool :=
  match v with Str s => truthy_str s | NotStr b _ => b end.

(** [String(v)], also what [`${v}`] prints. *)
Definition show (v : Val) : string :=
  match v with Str s => s | NotStr _ shown => shown end.

(** [a || b]. *)
Definition or_val (a b : Val) : Val := if truthy a then a else b.

(** A thrown value, seen through the properties the code reads:
    [e instanceof Error], [e.code], [e.message], [e.data.error] and
    [String(e)]. *)
Record Exn := mkExn {
  isError : bool;
  code : Val;
  message : Val;
  data_error : Val;
  toStr : string
}.

(** [new Error(msg)]. *)
Definition newError (msg : string) : Exn :=
  {| isError := true; code := undefined; message := Str msg; data_error := undefined;
     toStr := if truthy_str msg then "Error: " +:+ msg else "Error" |}.

(** [new TypeError(msg)], as the engine throws it. *)
Definition typeError (msg : string) : Exn :=
  {| isError := true; code := undefined; message := Str msg; data_error := undefined;
     toStr := "TypeError: " +:+ msg |}.

(** [e instanceof Error ? e.message : String(e)], the value. *)
Definition errValue (e : Exn) : Val :=
  if isError e then message e else Str (toStr e).

(** [`${e instanceof Error ? e.message : String(e)}`]: the text of that
    value, as a log line prints it and as a result's [error] field shows
    it. *)
Definition errText (e : Exn) : string := show (errValue e).

(** The TypeError of [name.includes(...)] when [name] holds [v], which is
    not a string (V8's wording). *)
Definition notIncludable (name : string) (v : Val) : Exn :=
  if String.eqb (show v) "undefined" || String.eqb (show v) "null" then
    typeError ("Cannot read properties of " +:+ show v +:+ " (reading 'includes')")
  else
    typeError (name +:+ ".includes is not a function").

End Js.

(** ** Data model *)

Inductive Side := BUY | SELL.
Inductive OrderType := FOK | FAK.

Definition sideName (s : Side) : string :=
  match s with BUY => "BUY" | SELL => "SELL" end.
Definition orderTypeName (t : OrderType) : string :=
  match t with FOK => "FOK" | FAK => "FAK" end.

(** The observed trade (the fields of the payload that copyTrade reads). *)
Record Trade := mkTrade {
  conditionId : string;
  asset : string;
  side : string;
  price : float;
  size : float
}.

Record CopyTradeOptions := mkOptions {
  trade : Trade;
  tickSize : option string;
  negRisk : option bool;
  orderType : option OrderType
}.

Record UserMarketOrder := mkOrder {
  tokenID : string;
  order_side : Side;
  amount : float;
  order_type : option OrderType;
  order_price : option float
}.

Record CreateOrderOptions := mkOrderOptions {
  opt_tickSize : string;
  opt_negRisk : bool
}.

(** Opaque signed order handed back by the CLOB client; it remembers the
    order it signs. *)
Record SignedOrder := mkSigned {
  signed_of : UserMarketOrder;
  signature : string
}.

(** [response.status] is a string on venue responses and a number on HTTP
    error envelopes. *)
Inductive StatusVal :=
| StatusStr (s : string)
| StatusNum (n : float).

(** What [postOrder] resolves to; every field is optional. *)
Record OrderResponse := mkResponse {
  orderID : option string;
  status : option StatusVal;
  makingAmount : option string;
  takingAmount : option string;
  transactionsHashes : option (list string)
}.

Record CopyTradeResult := mkResult {
  success : bool;
  res_orderID : option string;
  res_transactionHashes : option (list string);
  res_marketOrder : option UserMarketOrder;
  error : option string
}.

Definition failure (msg : string) : CopyTradeResult :=
  {| success := false; res_orderID := None; res_transactionHashes := None;
     res_marketOrder := None; error := Some msg |}.

Definition filled (r : OrderResponse) (o : UserMarketOrder) : CopyTradeResult :=
  {| success := true; res_orderID := orderID r;
     res_transactionHashes := transactionsHashes r;
     res_marketOrder := Some o; error := None |}.

(** The report of [validateBuyOrderBalance]. *)
Record BalanceCheck := mkBalance {
  valid : bool;
  available : float;
  required : float
}.

Record HttpResponse := mkHttp { ok : bool; http_status : float }.

Record SimulateKey := mkKey { address : string; signer : string }.

Record WalletInfo := mkWallet { wallet_address : string; privateKey : string }.

Record ContractConfig := mkContracts {
  exchange : string;
  negRiskExchange : string;
  conditionalTokens : string
}.

Record GasOptions := mkGas { gasPrice : N; gasLimit : N }.

(** How a pending [provider.getNetwork()] behaves: it settles after some
    milliseconds (resolving or rejecting), or never does. *)
Inductive Settle :=
| Resolves (ms : N)
| Rejects (ms : N) (e : Js.Exn)
| Hangs.

(** The part of [process.env] that the code reads. *)
Record Env := mkEnv {
  CLOB_SIMULATE_URL : option string;
  PRIVATE_KEY : option string;
  RPC_URL : option string;
  RPC_TOKEN : option string;
  CHAIN_ID : option string;
  NEG_RISK : option string
}.

(** ** Collaborator calls *)

(** What the code awaits from outside: the CLOB client (createMarketOrder,
    postOrder, updateBalanceAllowance), utils/balance (displayWalletBalance,
    validateBuyOrderBalance), the wallet constructor and fetch of the
    simulation step, the durable write behind a ledger mutation, and the
    chain side of the approval: getContractConfig, the network probe of a
    provider, [new Wallet(privateKey, provider)] with getAddress, the gas
    price, and the two ConditionalTokens calls with the wait for the
    transaction. *)
Inductive Call : Type -> Type :=
| CreateMarketOrder (o : UserMarketOrder) (opts : CreateOrderOptions) : Call SignedOrder
| PostOrder (so : SignedOrder) (ty : OrderType) : Call (option OrderResponse)
| UpdateBalanceAllowance : Call unit
| DisplayWalletBalance : Call unit
| ValidateBuyOrderBalance (amt : float) : Call BalanceCheck
| NewWallet (pk : option string) : Call WalletInfo
| Fetch (url : string) (key : SimulateKey) (tx : SignedOrder) : Call HttpResponse
| LedgerWrite : Call unit
| GetContractConfig (chainId : float) : Call ContractConfig
| GetNetwork (rpcUrl : string) : Call Settle
| GetAddress (pk rpcUrl : string) : Call string
| GetGasPrice (rpcUrl : string) : Call N
| IsApprovedForAll (ctf owner operator : string) : Call bool
| SetApprovalForAll (ctf operator : string) (approved : bool) (gas : GasOptions) : Call string
| TxWait (hash : string) : Call unit.

Inductive Result (A : Type) :=
| Ok (a : A)
| Throw (e : Js.Exn).
Arguments Ok {A} a.
Arguments Throw {A} e.

Inductive LogLevel := Info | Warn | Error | Success.

Inductive Event :=
| EvCall {A : Type} (c : Call A) (r : Result A)
| EvLog (lvl : LogLevel) (msg : string).

(** ** The holdings ledger *)

(** Modelled from the spec: utils/holdings is not among the sources.  The
    ledger is the durable mapping (market, outcome-token) -> quantity of
    section 4.1: [get] reads the quantity (0 when there is no entry), [add]
    creates or increments the entry, [remove] decrements it, clamps at 0 and
    drops the entry once nothing is left. *)
Module Ledger.

Definition get (m t : string) (l : gmap (string * string) float) : float :=
  default 0%float (l !! (m, t)).

Definition add (m t : string) (q : float) (l : gmap (string * string) float)
  : gmap (string * string) float :=
  <[(m, t) := PrimFloat.add (get m t l) q]> l.

Definition remove (m t : string) (q : float) (l : gmap (string * string) float)
  : gmap (string * string) float :=
  let rest := PrimFloat.sub (get m t l) q in
  if PrimFloat.ltb 0 rest then <[(m, t) := rest]> l else delete (m, t) l.

End Ledger.

(** ** The runtime: environment, built-ins and collaborators *)

(** [parseFloat], [parseInt] and number-to-string conversion are JavaScript
    built-ins; [tradeToMarketOrder] is the sizing helper of ./helpers, which
    is not among the sources; [ext] answers every collaborator call from
    the current world. *)
Record Runtime (W : Type) := mkRuntime {
  env : Env;
  parseFloat : string -> float;
  parseInt : string -> float;
  numToString : float -> string;
  tradeToMarketOrder : CopyTradeOptions -> Result UserMarketOrder;
  ext : forall A, Call A -> W -> Result A * W
}.
Arguments env {W} _.
Arguments parseFloat {W} _ _.
Arguments parseInt {W} _ _.
Arguments numToString {W} _ _.
Arguments tradeToMarketOrder {W} _ _.
Arguments ext {W} _ {A} _ _.

(** The state the code acts on: the ledger file, the builder's
    [simulateTxDone] field, what happened so far, and the world. *)
Record State (W : Type) := mkState {
  ledger : gmap (string * string) float;
  simulateTxDone : bool;
  trace : list Event;
  world : W
}.
Arguments mkState {W} _ _ _ _.
Arguments ledger {W} _.
Arguments simulateTxDone {W} _.
Arguments trace {W} _.
Arguments world {W} _.

(** A new [TradeOrderBuilder] next to a given ledger and world. *)
Definition freshBuilder {W : Type} (l : gmap (string * string) float) (w : W) : State W :=
  mkState l false [] w.

(** ** State and exceptions *)

(** An asynchronous computation: it runs from a state and either returns
    or throws, in a new state. *)
Definition M (W A : Type) : Type := State W -> Result A * State W.

Section Monad.
Context {W : Type}.

Definition ret {A} (a : A) : M W A := fun s => (Ok a, s).

Definition throw {A} (e : Js.Exn) : M W A := fun s => (Throw e, s).

Definition bind {A B} (m : M W A) (k : A -> M W B) : M W B :=
  fun s =>
    match m s with
    | (Ok a, s') => k a s'
    | (Throw e, s') => (Throw e, s')
    end.

(** [try { m } catch (e) { h e }]. *)
Definition tryCatch {A} (m : M W A) (h : Js.Exn -> M W A) : M W A :=
  fun s =>
    match m s with
    | (Ok a, s') => (Ok a, s')
    | (Throw e, s') => h e s'
    end.

Definition record (e : Event) (s : State W) : State W :=
  mkState (ledger s) (simulateTxDone s) (trace s ++ [e])%list (world s).

Definition emit (e : Event) : M W unit := fun s => (Ok tt, record e s).

Definition log (lvl : LogLevel) (msg : string) : M W unit := emit (EvLog lvl msg).

Definition setLedger (l : gmap (string * string) float) (s : State W) : State W :=
  mkState l (simulateTxDone s) (trace s) (world s).

Definition modifyLedger (f : gmap (string * string) float -> gmap (string * string) float)
  : M W unit :=
  fun s => (Ok tt, setLedger (f (ledger s)) s).

Definition setSimulateTxDone (b : bool) : M W unit :=
  fun s => (Ok tt, mkState (ledger s) b (trace s) (world s)).

Definition getSimulateTxDone : M W bool := fun s => (Ok (simulateTxDone s), s).

(** A synchronous step that returns or throws. *)
Definition liftResult {A} (r : Result A) : M W A := fun s => (r, s).

End Monad.

(** [name.includes(needle)], where the variable [name] holds [v]: a
    TypeError unless [v] is a string. *)
Definition includesOn (name : string) (v : Js.Val) (needle : string) : Result bool :=
  match v with
  | Js.Str hay => Ok (Js.includes hay needle)
  | Js.NotStr _ _ => Throw (Js.notIncludable name v)
  end.

(** [name.includes(a) || name.includes(b)]. *)
Definition includesEither (name : string) (v : Js.Val) (a b : string) : Result bool :=
  match includesOn name v a with
  | Ok true => Ok true
  | Ok false => includesOn name v b
  | Throw e => Throw e
  end.

Declare Scope bot_scope.
Delimit Scope bot_scope with bot.
Notation "'let*' x := m 'in' k" := (bind m (fun x => k))
  (at level 10, x binder, m at level 100, k at level 200) : bot_scope.
Notation "m >> k" := (bind m (fun _ => k))
  (at level 100, k at level 200, right associativity) : bot_scope.
Local Open Scope bot_scope.

Definition nl : string := String (ascii_of_nat 10) EmptyString.

(** ** The code *)

Section Bot.
Context {W : Type} (rt : Runtime W).

(** An awaited collaborator call: answered by the world, recorded with
    its outcome. *)
Definition call {A} (c : Call A) : M W A :=
  fun s =>
    let '(r, w') := ext rt c (world s) in
    (r, mkState (ledger s) (simulateTxDone s) (trace s ++ [EvCall c r])%list w').

(** *** utils/holdings *)

(** Modelled from the spec: the three ledger operations of section 4.1
    over [Ledger].  Reading is a pure lookup; every mutation is written
    through to the durable store before the call returns, and that write
    is an external effect that can raise (then nothing changes);
    [removeHoldings] raises a warning when more is removed than is held. *)
Definition getHoldings (m t : string) : M W float :=
  fun s => (Ok (Ledger.get m t (ledger s)), s).

Definition addHoldings (m t : string) (q : float) : M W unit :=
  call LedgerWrite >>
  modifyLedger (Ledger.add m t q).

Definition removeHoldings (m t : string) (q : float) : M W unit :=
  let* held := getHoldings m t in
  (if PrimFloat.ltb held q
   then log Warn "Removal exceeds held quantity; clamping at 0"
   else ret tt) >>
  call LedgerWrite >>
  modifyLedger (Ledger.remove m t q).

(** Modelled from the spec: [getDefaultOrderOptions] of ./helpers passes
    tick size and negative-risk flag through, with the documented
    defaults (0.01, false). *)
Definition getDefaultOrderOptions (tick : option string) (neg : option bool)
  : CreateOrderOptions :=
  mkOrderOptions (default "0.01" tick) (default false neg).

(** *** utils/simulateOrder.ts *)

Definition simulateTx (key : SimulateKey) (tx : SignedOrder) (baseUrl : string) : M W bool :=
  let url := Js.dropTrailingSlash baseUrl in
  tryCatch
    (let* res := call (Fetch (url +:+ "/api/simulate")
                    (mkKey (address key) (signer key)) tx) in
     if ok res then
       log Info "Tx simulate OK" >> ret true
     else
       log Warn ("Tx simulate non-OK (status " +:+ numToString rt (http_status res) +:+ ")") >>
       ret false)
    (fun e =>
       log Warn ("Tx simulate failed: " +:+ Js.errText e) >>
       ret false).

(** *** TradeOrderBuilder *)

Definition statusString (st : option StatusVal) : string :=
  match st with
  | None => "undefined"
  | Some (StatusStr s) => s
  | Some (StatusNum n) => numToString rt n
  end.

Definition statusTruthy (st : option StatusVal) : bool :=
  match st with
  | None => false
  | Some (StatusStr s) => Js.truthy_str s
  | Some (StatusNum n) => Js.truthy_num n
  end.

(** [status !== lit] for a string literal. *)
Definition statusIsNot (st : option StatusVal) (lit : string) : bool :=
  match st with
  | Some (StatusStr s) => negb (String.eqb s lit)
  | _ => true
  end.

Definition describeOrderFailure (st : option StatusVal) : string :=
  let s := statusString st in
  if String.eqb s "403" then
    "Incorrect region — Polymarket blocks trading from this server's location. " +:+
    "Use a server in an allowed region or route traffic through a VPN/proxy."
  else if String.eqb s "401" then "Authentication failed — check your API credentials."
  else if String.eqb s "429" then "Rate limited — too many requests, slow down."
  else "Order failed (status: " +:+
       (if statusTruthy st then statusString st else "unknown") +:+ ")".

(** createSimulateAndPost.  While postOrder runs the code also filters the
    client's own "request error" lines out of console.error; that touches
    console output only and is left out. *)
Definition createSimulateAndPost (marketOrder : UserMarketOrder)
    (orderOptions : CreateOrderOptions) (orderType : OrderType)
  : M W (option OrderResponse) :=
  let simulateUrl :=
    if Js.truthy_opt (CLOB_SIMULATE_URL (env rt))
    then default "" (CLOB_SIMULATE_URL (env rt))
    else "https://polymarket.clob.health" in
  let* signedOrder := call (CreateMarketOrder marketOrder orderOptions) in
  let* done := getSimulateTxDone in
  (if negb done then
     setSimulateTxDone true >>
     tryCatch
       (let* wallet := call (NewWallet (PRIVATE_KEY (env rt))) in
        let key := mkKey (wallet_address wallet) (privateKey wallet) in
        simulateTx key signedOrder simulateUrl >> ret tt)
       (fun simErr =>
          log Warn ("Tx simulate failed (continuing to post): " +:+ Js.errText simErr))
   else ret tt) >>
  tryCatch
    (call (PostOrder signedOrder orderType))
    (fun err =>
       let msg := Js.or_val (Js.data_error err)
                    (Js.or_val (Js.message err) (Js.Str (Js.toStr err))) in
       let* restricted := liftResult (includesEither "msg" msg "Trading restricted" "geoblock") in
       if restricted then
         throw (Js.newError
           "Order rejected: trading is restricted in your region. Use a VPN or check https://docs.polymarket.com/developers/CLOB/geoblock")
       else throw err).

(** [!response || !response.orderID ||
     (status && status !== "FILLED" && status !== "PARTIALLY_FILLED"
             && status !== "MATCHED")], as a truth value. *)
Definition orderFailed (response : option OrderResponse) : bool :=
  match response with
  | None => true
  | Some r =>
      negb (Js.truthy_opt (orderID r))
      || (statusTruthy (status r)
          && statusIsNot (status r) "FILLED"
          && statusIsNot (status r) "PARTIALLY_FILLED"
          && statusIsNot (status r) "MATCHED")
  end.

(** [response?.status]. *)
Definition statusOf (response : option OrderResponse) : option StatusVal :=
  match response with Some r => status r | None => None end.

Definition orText (o : option string) (alt : string) : string :=
  if Js.truthy_opt o then default "" o else alt.

(** [if (tokensSold > 0) { removeHoldings ... } else { warn }]. *)
Definition recordSold (marketId tokenId : string) (tokensSold : float) : M W unit :=
  if PrimFloat.ltb 0 tokensSold then
    removeHoldings marketId tokenId tokensSold >>
    log Info ("✅ Removed " +:+ numToString rt tokensSold +:+
              " tokens from holdings: " +:+ marketId +:+ " -> " +:+ tokenId)
  else
    log Warn "No tokens were sold - not removing from holdings".

(** copyTrade, SELL branch, from the venue response on. *)
Definition settleSell (marketId tokenId : string) (sellAmount : float)
    (marketOrder : UserMarketOrder) (response : option OrderResponse)
  : M W CopyTradeResult :=
  let sellStatus := statusOf response in
  match response with
  | Some r =>
      if orderFailed response then ret (failure (describeOrderFailure sellStatus))
      else
        let tokensSold :=
          if Js.truthy_opt (makingAmount r)
          then parseFloat rt (default "" (makingAmount r))
          else sellAmount in
        recordSold marketId tokenId tokensSold >>
        log Success
          ("SELL order executed! " +:+
           "OrderID: " +:+ orText (orderID r) "N/A" +:+ ", " +:+
           "Tokens sold: " +:+ numToString rt tokensSold +:+ ", " +:+
           "Status: " +:+ (if statusTruthy (status r) then statusString (status r) else "N/A")) >>
        ret (filled r marketOrder)
  | None => ret (failure (describeOrderFailure sellStatus))
  end.

Definition isSell (options : CopyTradeOptions) : bool :=
  String.eqb (Js.toUpperCase (side (trade options))) "SELL".

(** The destructuring defaults [tickSize = "0.01"], [negRisk = false],
    [orderType = OrderType.FAK], and the order options built from them. *)
Definition orderTypeOf (options : CopyTradeOptions) : OrderType :=
  default FAK (orderType options).

Definition orderOptionsOf (options : CopyTradeOptions) : CreateOrderOptions :=
  getDefaultOrderOptions (Some (default "0.01" (tickSize options)))
                         (Some (default false (negRisk options))).

(** [{ tokenID: tokenId, side: Side.SELL, amount: sellAmount, orderType }]. *)
Definition sellMarketOrder (options : CopyTradeOptions) (sellAmount : float)
  : UserMarketOrder :=
  mkOrder (asset (trade options)) SELL sellAmount (Some (orderTypeOf options)) None.

Definition placingSell (options : CopyTradeOptions) (sellAmount : float) : Event :=
  EvLog Info ("Placing SELL market order: " +:+ numToString rt sellAmount +:+
              " shares (type: " +:+ orderTypeName (orderTypeOf options) +:+ ")").

Definition skippingSell (options : CopyTradeOptions) : Event :=
  EvLog Warn ("No holdings found for token " +:+ asset (trade options) +:+
              " in market " +:+ conditionId (trade options) +:+ ". " +:+
              "Skipping SELL order.").

(** copyTrade, the SELL branch. *)
Definition copyTradeSell (options : CopyTradeOptions) : M W CopyTradeResult :=
  let marketId := conditionId (trade options) in
  let tokenId := asset (trade options) in
  let* holdingsAmount := getHoldings marketId tokenId in
  if PrimFloat.leb holdingsAmount 0 then
    emit (skippingSell options) >>
    ret (failure "No holdings available to sell")
  else
    let sellAmount := holdingsAmount in
    let marketOrder := sellMarketOrder options sellAmount in
    let orderOptions := orderOptionsOf options in
    emit (placingSell options sellAmount) >>
    let* response := createSimulateAndPost marketOrder orderOptions (orderTypeOf options) in
    settleSell marketId tokenId sellAmount marketOrder response.

(** *** security/allowance.ts *)

Definition getRpcCandidates (chainId : float) : Result (list string) :=
  let out := if Js.truthy_opt (RPC_URL (env rt)) then [default "" (RPC_URL (env rt))] else [] in
  let rpcToken := RPC_TOKEN (env rt) in
  if PrimFloat.eqb chainId 137 then
    let out := if Js.truthy_opt rpcToken
               then (out ++ ["https://polygon-mainnet.g.alchemy.com/v2/" +:+ default "" rpcToken])%list
               else out in
    let out := (out ++ ["https://polygon-rpc.com";
                        "https://rpc.ankr.com/polygon";
                        "https://polygon.llamarpc.com";
                        "https://rpc-mainnet.matic.quiknode.pro"])%list in
    Ok (Js.uniq out)
  else if PrimFloat.eqb chainId 80002 then
    let out := if Js.truthy_opt rpcToken
               then (out ++ ["https://polygon-amoy.g.alchemy.com/v2/" +:+ default "" rpcToken])%list
               else out in
    let out := (out ++ ["https://rpc-amoy.polygon.technology"])%list in
    Ok (Js.uniq out)
  else
    Throw (Js.newError ("Unsupported chain ID: " +:+ numToString rt chainId +:+
                        ". Supported: 137 (Polygon), 80002 (Amoy)")).

(** [Promise.race([provider.getNetwork(), <reject "timeout" after ms>])]:
    the probe wins only if it settles before the timer. *)
Definition raceTimeout (ms : N) (p : Settle) : Result unit :=
  match p with
  | Resolves t => if (t <? ms)%N then Ok tt else Throw (Js.newError "timeout")
  | Rejects t e => if (t <? ms)%N then Throw e else Throw (Js.newError "timeout")
  | Hangs => Throw (Js.newError "timeout")
  end.

Definition probe (rpcUrl : string) : M W unit :=
  let* p := call (GetNetwork rpcUrl) in
  liftResult (raceTimeout 7000 p).

Definition allFailed (chainId : float) (errors : list string) : Js.Exn :=
  Js.newError ("Could not connect to any RPC endpoint for chainId=" +:+
               numToString rt chainId +:+ ". " +:+
               "Set RPC_URL in .env. Attempts:" +:+ nl +:+ "- " +:+
               Js.join (nl +:+ "- ") errors).

(** The [for (const rpcUrl of candidates)] loop of getWorkingProvider,
    with the [errors] collected so far; the provider it returns is
    identified by its URL. *)
Fixpoint tryCandidates (chainId : float) (candidates errors : list string) : M W string :=
  match candidates with
  | [] => throw (allFailed chainId errors)
  | rpcUrl :: rest =>
      let* attempt :=
        tryCatch (probe rpcUrl >> ret (inl rpcUrl))
                 (fun e => ret (inr (rpcUrl +:+ " -> " +:+ Js.errText e))) in
      match attempt with
      | inl url => ret url
      | inr line => tryCandidates chainId rest (errors ++ [line])%list
      end
  end.

Definition getWorkingProvider (chainId : float) : M W string :=
  let* candidates := liftResult (getRpcCandidates chainId) in
  tryCandidates chainId candidates [].

Definition approveTokensAfterBuy : M W unit :=
  if negb (Js.truthy_opt (PRIVATE_KEY (env rt))) then
    throw (Js.newError "PRIVATE_KEY not found in environment")
  else
    let privateKey := default "" (PRIVATE_KEY (env rt)) in
    let chainId := parseInt rt (orText (CHAIN_ID (env rt)) "137") in
    let* contractConfig := call (GetContractConfig chainId) in
    let* rpcUrl := getWorkingProvider chainId in
    let* address := call (GetAddress privateKey rpcUrl) in
    let ctf := conditionalTokens contractConfig in
    let* gasOptions :=
      tryCatch (let* gasPrice := call (GetGasPrice rpcUrl) in
                ret (mkGas (gasPrice * 120 / 100) 200000))
               (fun _ => ret (mkGas (100 * 1000000000) 200000)) in
    tryCatch
      (let* isApproved := call (IsApprovedForAll ctf address (exchange contractConfig)) in
       (if negb isApproved then
          log Info "Approving ConditionalTokens for Exchange (after buy)..." >>
          let* tx := call (SetApprovalForAll ctf (exchange contractConfig) true gasOptions) in
          log Info ("Transaction hash: " +:+ tx) >>
          call (TxWait tx) >>
          log Success "✅ ConditionalTokens approved for Exchange"
        else ret tt) >>
       if bool_decide (NEG_RISK (env rt) = Some "true") then
         let* isNegRiskApproved :=
           call (IsApprovedForAll ctf address (negRiskExchange contractConfig)) in
         if negb isNegRiskApproved then
           log Info "Approving ConditionalTokens for NegRiskExchange (after buy)..." >>
           let* tx := call (SetApprovalForAll ctf (negRiskExchange contractConfig) true gasOptions) in
           log Info ("Transaction hash: " +:+ tx) >>
           call (TxWait tx) >>
           log Success "✅ ConditionalTokens approved for NegRiskExchange"
         else ret tt
       else ret tt)
      (fun error =>
         let msg := Js.or_val (Js.code error)
                      (Js.or_val (Js.message error) (Js.Str (Js.toStr error))) in
         let* funds :=
           liftResult (includesEither "msg" msg "INSUFFICIENT_FUNDS" "insufficient funds") in
         if funds then
           throw (Js.newError
             ("Insufficient POL (MATIC) for gas fees on wallet " +:+ address +:+ ". " +:+
              "Deposit POL on Polygon network to approve tokens."))
         else throw error).

(** *** TradeOrderBuilder.copyTrade, BUY branch *)

(** From "Building order to copy trade" to the balance check. *)
Definition checkBuyBalance (options : CopyTradeOptions) : M W (UserMarketOrder * BalanceCheck) :=
  let t := trade options in
  log Info ("Building order to copy trade: " +:+ side t +:+ " " +:+ numToString rt (size t) +:+
            " @ " +:+ numToString rt (price t) +:+ " " +:+
            "for token " +:+ String.substring 0 20 (asset t) +:+ "...") >>
  let* marketOrder := liftResult (tradeToMarketOrder rt options) in
  tryCatch (call UpdateBalanceAllowance)
    (fun error => log Warn ("Failed to update balance allowance: " +:+ Js.errText error)) >>
  call DisplayWalletBalance >>
  let* balanceCheck := call (ValidateBuyOrderBalance (amount marketOrder)) in
  ret (marketOrder, balanceCheck).

Definition withAmount (o : UserMarketOrder) (a : float) : UserMarketOrder :=
  mkOrder (tokenID o) (order_side o) a (order_type o) (order_price o).

Definition insufficientBalance (balanceCheck : BalanceCheck) : Event :=
  EvLog Warn ("Insufficient USDC balance for BUY order. " +:+
              "Required: " +:+ numToString rt (required balanceCheck) +:+
              ", Available: " +:+ numToString rt (available balanceCheck) +:+ ". " +:+
              "Adjusting order amount to available balance.").

Definition adjustedAmount (marketOrder : UserMarketOrder) : Event :=
  EvLog Info ("Adjusted order amount to available balance: " +:+
              numToString rt (amount marketOrder)).

Definition insufficientResult (balanceCheck : BalanceCheck) : CopyTradeResult :=
  failure ("Insufficient USDC balance. Available: " +:+
           numToString rt (available balanceCheck)).

(** [if (!balanceCheck.valid) { ... }]: an early result, or the order to
    submit. *)
Definition adjustToBalance (marketOrder : UserMarketOrder) (balanceCheck : BalanceCheck)
  : M W (CopyTradeResult + UserMarketOrder) :=
  if negb (valid balanceCheck) then
    emit (insufficientBalance balanceCheck) >>
    if PrimFloat.leb (available balanceCheck) 0 then
      ret (inl (insufficientResult balanceCheck))
    else
      let marketOrder := withAmount marketOrder (available balanceCheck) in
      emit (adjustedAmount marketOrder) >>
      ret (inr marketOrder)
  else ret (inr marketOrder).

(** [if (tokensReceived > 0) { addHoldings ... } else { estimate ... }]. *)
Definition recordBought (options : CopyTradeOptions) (marketOrder : UserMarketOrder)
    (tokensReceived : float) : M W unit :=
  let marketId := conditionId (trade options) in
  let tokenId := asset (trade options) in
  if PrimFloat.ltb 0 tokensReceived then
    addHoldings marketId tokenId tokensReceived >>
    log Info ("✅ Added " +:+ numToString rt tokensReceived +:+
              " tokens to holdings: " +:+ marketId +:+ " -> " +:+ tokenId)
  else
    let estimatedTokens :=
      PrimFloat.div (amount marketOrder)
        (if Js.truthy_num (price (trade options)) then price (trade options) else 1%float) in
    if PrimFloat.ltb 0 estimatedTokens then
      addHoldings marketId tokenId estimatedTokens >>
      log Warn ("Using estimated token amount: " +:+ numToString rt estimatedTokens +:+
                " (actual amount not in response)")
    else
      log Warn "No tokens received and cannot estimate - not adding to holdings".

Definition approvalFailed (error : Js.Exn) : Event :=
  EvLog Warn ("Failed to approve tokens after buy: " +:+ Js.errText error).

(** From the venue response on. *)
Definition settleBuy (options : CopyTradeOptions) (marketOrder : UserMarketOrder)
    (response : option OrderResponse) : M W CopyTradeResult :=
  let buyStatus := statusOf response in
  match response with
  | Some r =>
      if orderFailed response then ret (failure (describeOrderFailure buyStatus))
      else
        let tokensReceived :=
          if Js.truthy_opt (takingAmount r)
          then parseFloat rt (default "" (takingAmount r))
          else 0%float in
        recordBought options marketOrder tokensReceived >>
        tryCatch approveTokensAfterBuy (fun error => emit (approvalFailed error)) >>
        log Success
          ("BUY order executed! " +:+
           "OrderID: " +:+ orText (orderID r) "N/A" +:+ ", " +:+
           "Tokens received: " +:+
           (if Js.truthy_num tokensReceived then numToString rt tokensReceived else "estimated") +:+
           ", " +:+
           "Status: " +:+ (if statusTruthy (status r) then statusString (status r) else "N/A")) >>
        ret (filled r marketOrder)
  | None => ret (failure (describeOrderFailure buyStatus))
  end.

Definition placingBuy (options : CopyTradeOptions) (marketOrder : UserMarketOrder) : Event :=
  EvLog Info ("Placing " +:+ sideName (order_side marketOrder) +:+ " market order: " +:+
              numToString rt (amount marketOrder) +:+
              " (type: " +:+ orderTypeName (orderTypeOf options) +:+ ")").

(** From "Get order options" on: place the order and settle. *)
Definition submitBuy (options : CopyTradeOptions) (marketOrder : UserMarketOrder)
  : M W CopyTradeResult :=
  let orderOptions := orderOptionsOf options in
  emit (placingBuy options marketOrder) >>
  let* response := createSimulateAndPost marketOrder orderOptions (orderTypeOf options) in
  settleBuy options marketOrder response.

Definition copyTradeBuy (options : CopyTradeOptions) : M W CopyTradeResult :=
  let* checked := checkBuyBalance options in
  let* adjusted := adjustToBalance (fst checked) (snd checked) in
  match adjusted with
  | inl result => ret result
  | inr marketOrder => submitBuy options marketOrder
  end.

(** The [catch (error)] block of copyTrade.  [errorMessage.includes] is
    not inside any [try]: when [errorMessage] is not a string the block
    throws, and so does copyTrade. *)
Definition copyTradeCatch (error : Js.Exn) : M W CopyTradeResult :=
  let errorMessage := Js.errValue error in
  let* balanceOrAllowance :=
    liftResult (includesEither "errorMessage" errorMessage "not enough balance" "allowance") in
  (if balanceOrAllowance then
     log Error "═══════════════════════════════════════" >>
     log Error "❌ ORDER FAILED: Balance/Allowance Error" >>
     log Error "═══════════════════════════════════════" >>
     tryCatch
       (call DisplayWalletBalance >>
        log Info "Attempting to update balance allowance..." >>
        call UpdateBalanceAllowance)
       (fun balanceError => log Error ("Failed to get balance: " +:+ Js.errText balanceError)) >>
     log Error "═══════════════════════════════════════"
   else ret tt) >>
  log Error ("Failed to copy trade: " +:+ Js.show errorMessage) >>
  ret (failure (Js.show errorMessage)).

Definition copyTrade (options : CopyTradeOptions) : M W CopyTradeResult :=
  tryCatch
    (if isSell options then copyTradeSell options else copyTradeBuy options)
    copyTradeCatch.

(** The optional last argument of placeMarketBuy / placeMarketSell. *)
Record PlaceOptions := mkPlace {
  place_tickSize : option string;
  place_negRisk : option bool;
  place_orderType : option OrderType;
  place_price : option float
}.

(** Reading a property of an absent response is a TypeError (the wording
    of its message depends on the engine). *)
Definition readOfUndefined (property : string) : Js.Exn :=
  Js.newError ("Cannot read properties of undefined (reading '" +:+ property +:+ "')").

(** placeMarketBuy and placeMarketSell differ in the side only. *)
Definition placeMarket (sd : Side) (tokenID : string) (amount : float)
    (options : option PlaceOptions) : M W CopyTradeResult :=
  let marketOrder :=
    mkOrder tokenID sd amount
      (Some (default FAK (options ≫= place_orderType)))
      (options ≫= place_price) in
  let orderOptions :=
    getDefaultOrderOptions (options ≫= place_tickSize) (options ≫= place_negRisk) in
  tryCatch
    (let* response := createSimulateAndPost marketOrder orderOptions
                        (default FAK (order_type marketOrder)) in
     match response with
     | Some r =>
         ret {| success := true;
                res_orderID := orderID r;
                res_transactionHashes := transactionsHashes r;
                res_marketOrder := Some marketOrder;
                error := None |}
     | None => throw (readOfUndefined "orderID")
     end)
    (fun error => ret (failure (Js.errText error))).

Definition placeMarketBuy := placeMarket BUY.
Definition placeMarketSell := placeMarket SELL.

(** One method call on a builder, and a sequence of them run one after
    the other on the same instance. *)
Inductive BuilderCall :=
| DoCopyTrade (options : CopyTradeOptions)
| DoPlaceMarketBuy (tokenID : string) (amount : float) (options : option PlaceOptions)
| DoPlaceMarketSell (tokenID : string) (amount : float) (options : option PlaceOptions).

Definition runCall (c : BuilderCall) : M W CopyTradeResult :=
  match c with
  | DoCopyTrade o => copyTrade o
  | DoPlaceMarketBuy t a o => placeMarketBuy t a o
  | DoPlaceMarketSell t a o => placeMarketSell t a o
  end.

Fixpoint runCalls (cs : list BuilderCall) (s : State W) : State W :=
  match cs with
  | [] => s
  | c :: rest => runCalls rest (snd (runCall c s))
  end.

End Bot.


(** ** Reaching the venue *)

(** [submits rt options s order s1]: run from [s], copyTrade gets as far as
    handing [order] to createSimulateAndPost, in state [s1].  On the SELL
    side that needs positive holdings; on the BUY side the sizing helper,
    the balance display and the balance check must return and leave an
    order to place. *)
Inductive submits {W : Type} (rt : Runtime W) (options : CopyTradeOptions) (s : State W)
  : UserMarketOrder -> State W -> Prop :=
| submits_sell :
    isSell options = true ->
    PrimFloat.leb
      (Ledger.get (conditionId (trade options)) (asset (trade options)) (ledger s)) 0 = false ->
    let held := Ledger.get (conditionId (trade options)) (asset (trade options)) (ledger s) in
    submits rt options s (sellMarketOrder options held)
            (record (placingSell rt options held) s)
| submits_buy (sized : UserMarketOrder) (report : BalanceCheck) (order : UserMarketOrder)
      (s1 s2 : State W) :
    isSell options = false ->
    checkBuyBalance rt options s = (Ok (sized, report), s1) ->
    adjustToBalance rt sized report s1 = (Ok (inr order), s2) ->
    submits rt options s order (record (placingBuy rt options order) s2).

(** [allFail rt urls s lines s']: probed one after the other from [s], every
    endpoint of [urls] fails; [lines] are the error lines this adds and [s']
    is the state reached. *)
Inductive allFail {W : Type} (rt : Runtime W)
  : list string -> State W -> list string -> State W -> Prop :=
| allFail_nil (s : State W) : allFail rt [] s [] s
| allFail_cons (url : string) (rest : list string) (s s1 s2 : State W)
      (e : Js.Exn) (lines : list string) :
    probe rt url s = (Throw e, s1) ->
    allFail rt rest s1 lines s2 ->
    allFail rt (url :: rest) s ((url +:+ " -> " +:+ Js.errText e) :: lines) s2.

(** A result is well formed when a success carries an order id and a
    failure carries an error message. *)
Definition wellFormed (res : CopyTradeResult) : bool :=
  if success res then Js.truthy_opt (res_orderID res)
  else match error res with Some _ => true | None => false end.

Definition shaped (res : CopyTradeResult) : Prop := wellFormed res = true.

(** Whenever [m] returns, what it returns satisfies [P]. *)
Definition returnsOnly {W A : Type} (P : A -> Prop) (m : M W A) : Prop :=
  forall s a s', m s = (Ok a, s') -> P a.

(** Whenever [m] throws, what it throws satisfies [P]. *)
Definition throwsOnly {W A : Type} (P : Js.Exn -> Prop) (m : M W A) : Prop :=
  forall s e s', m s = (Throw e, s') -> P e.

(** A thrown value whose message, as a catch block reads it, is a string:
    anything that is not an Error, and an Error whose [message] is a
    string, as the type of Error declares. *)
Definition stringly (e : Js.Exn) : Prop := exists msg, Js.errValue e = Js.Str msg.

(** Whatever the collaborators and the sizing helper throw is [stringly]. *)
Definition stringErrors {W : Type} (rt : Runtime W) : Prop :=
  (forall A (c : Call A) w e, fst (ext rt c w) = Throw e -> stringly e)
  /\ (forall options e, tradeToMarketOrder rt options = Throw e -> stringly e).

(** The try block of copyTrade. *)
Definition copyTradeTry {W : Type} (rt : Runtime W) (options : CopyTradeOptions)
  : M W CopyTradeResult :=
  if isSell options then copyTradeSell rt options else copyTradeBuy rt options.

(** The code that runs on the venue response, by side. *)
Definition settle {W : Type} (rt : Runtime W) (options : CopyTradeOptions)
    (order : UserMarketOrder) (response : option OrderResponse) : M W CopyTradeResult :=
  if isSell options
  then settleSell rt (conditionId (trade options)) (asset (trade options))
                  (amount order) order response
  else settleBuy rt options order response.

(** The durable store accepts every write. *)
Definition storeReliable {W : Type} (rt : Runtime W) : Prop :=
  forall w, fst (ext rt LedgerWrite w) = Ok tt.

(** Modelled from the spec: validateBuyOrderBalance of utils/balance is not
    among the sources.  Section 4.2: the balance guard answers
    {valid, available, required}, and an order is to be shrunk when
    available < required; so its report is valid unless the available
    balance is below the required amount.  copyTrade reads the [valid]
    flag. *)
Definition guardReport (report : BalanceCheck) : Prop :=
  valid report = negb (PrimFloat.ltb (available report) (required report)).

(** The balance check reports available < required. *)
Definition reportsShortfall (report : BalanceCheck) : Prop :=
  PrimFloat.ltb (available report) (required report) = true.

(** The success criterion in the spec's words: a response is present, its
    order id is not empty and its status is FILLED, PARTIALLY_FILLED or
    MATCHED. *)
Definition specFillOk (response : option OrderResponse) : bool :=
  match response with
  | Some r =>
      Js.truthy_opt (orderID r)
      && match status r with
         | Some (StatusStr st) =>
             String.eqb st "FILLED" || String.eqb st "PARTIALLY_FILLED" || String.eqb st "MATCHED"
         | _ => false
         end
  | None => false
  end.

(** The executed quantity of a SELL: [makingAmount] when the response
    carries one, else the amount offered. *)
Definition tokensSoldOf {W : Type} (rt : Runtime W) (r : OrderResponse) (sellAmount : float)
  : float :=
  if Js.truthy_opt (makingAmount r)
  then parseFloat rt (default "" (makingAmount r))
  else sellAmount.

(** The executed quantity of a BUY as the response reports it, and the
    estimate used when it reports none. *)
Definition tokensReceivedOf {W : Type} (rt : Runtime W) (r : OrderResponse) : float :=
  if Js.truthy_opt (takingAmount r)
  then parseFloat rt (default "" (takingAmount r))
  else 0%float.

Definition estimatedTokensOf (options : CopyTradeOptions) (order : UserMarketOrder) : float :=
  PrimFloat.div (amount order)
    (if Js.truthy_num (price (trade options)) then price (trade options) else 1%float).

(** ** Reading traces *)

Definition isNewWallet (e : Event) : bool :=
  match e with EvCall (NewWallet _) _ => true | _ => false end.

Definition isFetch (e : Event) : bool :=
  match e with EvCall (Fetch _ _ _) _ => true | _ => false end.

Definition isCreateOrder (e : Event) : bool :=
  match e with EvCall (CreateMarketOrder _ _) _ => true | _ => false end.

Definition isPostOrder (e : Event) : bool :=
  match e with EvCall (PostOrder _ _) _ => true | _ => false end.

Definition isLedgerWrite (e : Event) : bool :=
  match e with EvCall LedgerWrite _ => true | _ => false end.

(** The RPC endpoints probed, in order. *)
Definition probedUrl (e : Event) : option string :=
  match e with EvCall (GetNetwork url) _ => Some url | _ => None end.

Definition probed (evs : list Event) : list string := omap probedUrl evs.

(** A monitor for the one-time simulation: it remembers whether the wallet
    was built, whether the simulate request went out and whether an order
    was posted, and trips when the simulation is entered a second time or
    after an order was posted. *)
Record SimPhase := mkPhase {
  walletSeen : bool;
  fetchSeen : bool;
  postSeen : bool;
  tripped : bool
}.

Definition phase0 : SimPhase := mkPhase false false false false.

Definition phaseStep (p : SimPhase) (e : Event) : SimPhase :=
  if isNewWallet e then
    mkPhase true (fetchSeen p) (postSeen p) (tripped p || walletSeen p || postSeen p)
  else if isFetch e then
    mkPhase (walletSeen p) true (postSeen p) (tripped p || fetchSeen p || postSeen p)
  else if isPostOrder e then
    mkPhase (walletSeen p) (fetchSeen p) true (tripped p)
  else p.

Definition phaseOf (evs : list Event) : SimPhase := fold_left phaseStep evs phase0.
Arguments phaseOf : simpl never.

(** ** security/allowance.ts: the allowances set before trading *)

(** [MaxUint256] of @ethersproject/constants. *)
Definition MaxUint256 : N := (2 ^ 256 - 1)%N.

(** [BigNumber.toString()]: the decimal digits. *)
Definition bigToString (n : N) : string := NilZero.string_of_uint (N.to_uint n).

(** What getContractConfig returns, with the two addresses that only
    approveUSDCAllowance reads. *)
Record FullContractConfig := mkFullContracts {
  contracts : ContractConfig;
  collateral : string;
  negRiskAdapter : string
}.

(** The calls approveUSDCAllowance makes beyond those of [Call]:
    getContractConfig with all its fields, and [allowance] and [approve]
    of the USDC contract; [approve] answers with the transaction's hash. *)
Inductive UsdcCall : Type -> Type :=
| GetFullContractConfig (chainId : float) : UsdcCall FullContractConfig
| Allowance (usdc owner spender : string) : UsdcCall N
| Approve (usdc spender : string) (amount : N) (gas : GasOptions) : UsdcCall string.

Inductive UsdcEvent :=
| UsdcEv {A : Type} (c : UsdcCall A) (r : Result A).

(** The world approveUSDCAllowance runs in: the world of the other calls,
    and the calls made on the USDC contract so far, in order. *)
Record Chain (W : Type) := mkChain { outside : W; usdcLog : list UsdcEvent }.
Arguments mkChain {W} _ _.
Arguments outside {W} _.
Arguments usdcLog {W} _.

Section Allowances.
Context {W : Type} (rt : Runtime W).
Context (usdc : forall A, UsdcCall A -> W -> Result A * W).

(** The collaborators of [rt], answering in the wider world. *)
Definition onChain : Runtime (Chain W) :=
  mkRuntime (Chain W) (env rt) (parseFloat rt) (parseInt rt) (numToString rt)
            (tradeToMarketOrder rt)
            (fun A c w =>
               let '(r, w') := ext rt c (outside w) in (r, mkChain w' (usdcLog w))).

(** An awaited call on the USDC contract (or getContractConfig). *)
Definition usdcCall {A} (c : UsdcCall A) : M (Chain W) A :=
  fun s =>
    let '(r, w') := usdc A c (outside (world s)) in
    (r, mkState (ledger s) (simulateTxDone s) (trace s)
                (mkChain w' (usdcLog (world s) ++ [UsdcEv c r])%list)).

(** [const a = await usdcContract.allowance(address, spender);
     if (!a.eq(MaxUint256)) { ...approve, wait... } else { ...already... }];
    the source writes this block four times, the last two without the
    [else]. *)
Definition approveUsdcFor (usdcAddress address spender : string) (gasOptions : GasOptions)
    (name approved : string) (already : option string) : M (Chain W) unit :=
  let* current := usdcCall (Allowance usdcAddress address spender) in
  if negb (current =? MaxUint256)%N then
    log Info ("Current " +:+ name +:+ " allowance: " +:+ bigToString current +:+
              ", setting to MaxUint256...") >>
    let* tx := usdcCall (Approve usdcAddress spender MaxUint256 gasOptions) in
    log Info ("Transaction hash: " +:+ tx) >>
    call onChain (TxWait tx) >>
    log Success approved
  else
    match already with
    | Some msg => log Info msg
    | None => ret tt
    end.

(** [const ok = await ctfContract.isApprovedForAll(address, operator);
     if (!ok) { ...setApprovalForAll, wait... } else { ...already... }];
    written three times, the last two without the [else]. *)
Definition approveCtfFor (ctf address operator : string) (gasOptions : GasOptions)
    (approving approved : string) (already : option string) : M (Chain W) unit :=
  let* isApproved := call onChain (IsApprovedForAll ctf address operator) in
  if negb isApproved then
    log Info approving >>
    let* tx := call onChain (SetApprovalForAll ctf operator true gasOptions) in
    log Info ("Transaction hash: " +:+ tx) >>
    call onChain (TxWait tx) >>
    log Success approved
  else
    match already with
    | Some msg => log Info msg
    | None => ret tt
    end.

(** The [try] block from the point where [address] is assigned. *)
Definition approveAll (chainId : float) (contractConfig : FullContractConfig)
    (rpcUrl address : string) : M (Chain W) unit :=
  let cfg := contracts contractConfig in
  log Info ("Approving USDC allowances for address: " +:+ address +:+
            ", chainId: " +:+ numToString rt chainId) >>
  log Info ("USDC Contract: " +:+ collateral contractConfig) >>
  log Info ("ConditionalTokens Contract: " +:+ conditionalTokens cfg) >>
  log Info ("Exchange Contract: " +:+ exchange cfg) >>
  let usdcAddress := collateral contractConfig in
  let* gasOptions :=
    tryCatch (let* gasPrice := call onChain (GetGasPrice rpcUrl) in
              ret (mkGas (gasPrice * 120 / 100) 200000))
             (fun _ =>
                log Warn "Could not fetch gas price, using fallback" >>
                ret (mkGas (100 * 1000000000) 200000)) in
  approveUsdcFor usdcAddress address (conditionalTokens cfg) gasOptions
    "CTF" "✅ USDC approved for ConditionalTokens contract"
    (Some "✅ USDC already approved for ConditionalTokens contract (MaxUint256)") >>
  approveUsdcFor usdcAddress address (exchange cfg) gasOptions
    "Exchange" "✅ USDC approved for Exchange contract"
    (Some "✅ USDC already approved for Exchange contract (MaxUint256)") >>
  let ctf := conditionalTokens cfg in
  approveCtfFor ctf address (exchange cfg) gasOptions
    "Approving ConditionalTokens for Exchange contract..."
    "✅ ConditionalTokens approved for Exchange contract"
    (Some "✅ ConditionalTokens already approved for Exchange contract") >>
  (if bool_decide (NEG_RISK (env rt) = Some "true") then
     approveUsdcFor usdcAddress address (negRiskAdapter contractConfig) gasOptions
       "NegRiskAdapter" "✅ USDC approved for NegRiskAdapter" None >>
     approveUsdcFor usdcAddress address (negRiskExchange cfg) gasOptions
       "NegRiskExchange" "✅ USDC approved for NegRiskExchange" None >>
     approveCtfFor ctf address (negRiskExchange cfg) gasOptions
       "Approving ConditionalTokens for NegRiskExchange..."
       "✅ ConditionalTokens approved for NegRiskExchange" None >>
     approveCtfFor ctf address (negRiskAdapter contractConfig) gasOptions
       "Approving ConditionalTokens for NegRiskAdapter..."
       "✅ ConditionalTokens approved for NegRiskAdapter" None
   else ret tt) >>
  log Success "All allowances approved successfully!".

(** What the [catch (error: any)] block throws, with the [address] assigned
    so far: the funds error, [error] itself, or the TypeError of
    [msg.includes] when [msg] is not a string. *)
Definition allowanceError (address : string) (error : Js.Exn) : Js.Exn :=
  let msg := Js.or_val (Js.code error)
               (Js.or_val (Js.message error) (Js.Str (Js.toStr error))) in
  match includesEither "msg" msg "INSUFFICIENT_FUNDS" "insufficient funds" with
  | Ok true =>
      Js.newError
        ("Insufficient POL (MATIC) for gas fees on wallet " +:+
         Js.or_str address "unknown" +:+ ". " +:+
         "Deposit POL and USDC.e on Polygon network to this address before running the bot.")
  | Ok false => error
  | Throw typeError => typeError
  end.

(** approveUSDCAllowance.  The one [try] block is run in two stretches,
    before and after [address] is assigned, each handing a thrown error to
    the [catch] block together with the address at that point. *)
Definition approveUSDCAllowance : M (Chain W) unit :=
  if negb (Js.truthy_opt (PRIVATE_KEY (env rt))) then
    throw (Js.newError "PRIVATE_KEY not found in environment")
  else
    let privateKey := default "" (PRIVATE_KEY (env rt)) in
    let chainId := parseInt rt (orText (CHAIN_ID (env rt)) "137") in
    let* contractConfig := usdcCall (GetFullContractConfig chainId) in
    let* caught :=
      tryCatch
        (let* rpcUrl := getWorkingProvider onChain chainId in
         log Info ("Connected to RPC: " +:+ rpcUrl) >>
         let* address := call onChain (GetAddress privateKey rpcUrl) in
         tryCatch (approveAll chainId contractConfig rpcUrl address >> ret None)
                  (fun error => ret (Some (address, error))))
        (fun error => ret (Some ("", error))) in
    match caught with
    | None => ret tt
    | Some (address, error) => throw (allowanceError address error)
    end.

(** updateClobBalanceAllowance. *)
Definition updateClobBalanceAllowance : M W unit :=
  tryCatch
    (log Info "Updating CLOB API balance allowance for USDC..." >>
     call rt UpdateBalanceAllowance >>
     log Success "✅ CLOB API balance allowance updated for USDC")
    (fun error =>
       log Error ("Failed to update CLOB balance allowance: " +:+ Js.errText error) >>
       throw error).

End Allowances.

(** ** Test fixtures *)

Module Fixture.

(** JavaScript's parseFloat, parseInt and number printing on the few
    literals the examples use; elsewhere the tables answer NaN. *)
Definition parseFloatTable (s : string) : float :=
  if String.eqb s "0" then 0%float
  else if String.eqb s "3.5" then 3.5%float
  else if String.eqb s "12.5" then 12.5%float
  else nan.

Definition parseIntTable (s : string) : float :=
  if String.eqb s "137" then 137%float
  else if String.eqb s "80002" then 80002%float
  else nan.

Definition numToStringTable (x : float) : string :=
  if PrimFloat.eqb x 0 then "0"
  else if PrimFloat.eqb x 0.5 then "0.5"
  else if PrimFloat.eqb x 3.5 then "3.5"
  else if PrimFloat.eqb x 5 then "5"
  else if PrimFloat.eqb x 8 then "8"
  else if PrimFloat.eqb x 10 then "10"
  else if PrimFloat.eqb x 12.5 then "12.5"
  else if PrimFloat.eqb x 40 then "40"
  else if PrimFloat.eqb x 137 then "137"
  else if PrimFloat.eqb x 403 then "403"
  else "NaN".

(** Modelled from the spec: the BUY sizing of section 4.3, standing in for
    [tradeToMarketOrder] of ./helpers: size * price * multiplier, capped
    at the maximum order amount when one is configured; by section 3 the
    amount of an order is > 0, or construction fails (the spec gives the
    failure no wording). *)
Definition sizeOrder (multiplier : float) (maxOrderAmount : option float)
    (options : CopyTradeOptions) : Result UserMarketOrder :=
  let t := trade options in
  let raw := PrimFloat.mul (PrimFloat.mul (size t) (price t)) multiplier in
  let amt := match maxOrderAmount with
             | Some cap => if PrimFloat.ltb cap raw then cap else raw
             | None => raw
             end in
  if PrimFloat.ltb 0 amt
  then Ok (mkOrder (asset t) BUY amt (Some (orderTypeOf options)) None)
  else Throw (Js.newError "Order amount must be greater than 0").

(** What each collaborator answers; the world counts the calls made. *)
Record Script := mkScript {
  onCreateOrder : Result string;
  onPostOrder : Result (option OrderResponse);
  onUpdateAllowance : Result unit;
  onDisplayBalance : Result unit;
  onBalance : float -> Result BalanceCheck;
  onWallet : Result WalletInfo;
  onFetch : Result HttpResponse;
  onLedgerWrite : Result unit;
  onNetwork : string -> Result Settle;
  onChain : Result unit
}.

Definition mapResult {A B} (f : A -> B) (r : Result A) : Result B :=
  match r with Ok a => Ok (f a) | Throw e => Throw e end.

Definition answer (sc : Script) (A : Type) (c : Call A) (w : nat) : Result A * nat :=
  (match c in Call T return Result T with
   | CreateMarketOrder o _ => mapResult (mkSigned o) (onCreateOrder sc)
   | PostOrder _ _ => onPostOrder sc
   | UpdateBalanceAllowance => onUpdateAllowance sc
   | DisplayWalletBalance => onDisplayBalance sc
   | ValidateBuyOrderBalance amt => onBalance sc amt
   | NewWallet _ => onWallet sc
   | Fetch _ _ _ => onFetch sc
   | LedgerWrite => onLedgerWrite sc
   | GetContractConfig _ =>
       mapResult (fun _ => mkContracts "0xExchange" "0xNegRiskExchange" "0xCTF") (onChain sc)
   | GetNetwork url => onNetwork sc url
   | GetAddress _ _ => mapResult (fun _ => "0xMe") (onChain sc)
   | GetGasPrice _ => mapResult (fun _ => 30000000000%N) (onChain sc)
   | IsApprovedForAll _ _ _ => mapResult (fun _ => true) (onChain sc)
   | SetApprovalForAll _ _ _ _ => mapResult (fun _ => "0xTx") (onChain sc)
   | TxWait _ => onChain sc
   end, S w).

Definition matched (taking making : option string) : OrderResponse :=
  mkResponse (Some "0xorder") (Some (StatusStr "MATCHED")) making taking (Some ["0xhash"]).

(** Everything works: the venue matches the order and reports 12.5 tokens
    either way, the balance covers the order, the first RPC endpoint
    answers at once. *)
Definition calm : Script :=
  {| onCreateOrder := Ok "0xsig";
     onPostOrder := Ok (Some (matched (Some "12.5") (Some "12.5")));
     onUpdateAllowance := Ok tt;
     onDisplayBalance := Ok tt;
     onBalance := fun amt => Ok (mkBalance true 100 amt);
     onWallet := Ok (mkWallet "0xMe" "0xkey");
     onFetch := Ok (mkHttp true 200);
     onLedgerWrite := Ok tt;
     onNetwork := fun _ => Ok (Resolves 40);
     onChain := Ok tt |}.

Definition withCreateOrder (sc : Script) (r : Result string) : Script :=
  mkScript r (onPostOrder sc) (onUpdateAllowance sc) (onDisplayBalance sc) (onBalance sc)
           (onWallet sc) (onFetch sc) (onLedgerWrite sc) (onNetwork sc) (onChain sc).

Definition withPost (sc : Script) (r : Result (option OrderResponse)) : Script :=
  mkScript (onCreateOrder sc) r (onUpdateAllowance sc) (onDisplayBalance sc) (onBalance sc)
           (onWallet sc) (onFetch sc) (onLedgerWrite sc) (onNetwork sc) (onChain sc).

Definition withBalance (sc : Script) (b : float -> Result BalanceCheck) : Script :=
  mkScript (onCreateOrder sc) (onPostOrder sc) (onUpdateAllowance sc) (onDisplayBalance sc) b
           (onWallet sc) (onFetch sc) (onLedgerWrite sc) (onNetwork sc) (onChain sc).

Definition withFetch (sc : Script) (r : Result HttpResponse) : Script :=
  mkScript (onCreateOrder sc) (onPostOrder sc) (onUpdateAllowance sc) (onDisplayBalance sc)
           (onBalance sc) (onWallet sc) r (onLedgerWrite sc) (onNetwork sc) (onChain sc).

Definition withNetwork (sc : Script) (n : string -> Result Settle) : Script :=
  mkScript (onCreateOrder sc) (onPostOrder sc) (onUpdateAllowance sc) (onDisplayBalance sc)
           (onBalance sc) (onWallet sc) (onFetch sc) (onLedgerWrite sc) n (onChain sc).

Definition withChain (sc : Script) (r : Result unit) : Script :=
  mkScript (onCreateOrder sc) (onPostOrder sc) (onUpdateAllowance sc) (onDisplayBalance sc)
           (onBalance sc) (onWallet sc) (onFetch sc) (onLedgerWrite sc) (onNetwork sc) r.

Definition env0 : Env :=
  {| CLOB_SIMULATE_URL := None; PRIVATE_KEY := Some "0xkey"; RPC_URL := None;
     RPC_TOKEN := None; CHAIN_ID := None; NEG_RISK := None |}.

(** SIZE_MULTIPLIER=0.5, MAX_ORDER_AMOUNT=5. *)
Definition runtime (e : Env) (sc : Script) : Runtime nat :=
  mkRuntime nat e parseFloatTable parseIntTable numToStringTable
            (sizeOrder 0.5 (Some 5%float)) (answer sc).

Definition buyTrade (p : float) : CopyTradeOptions :=
  mkOptions (mkTrade "market-1" "token-1" "BUY" p 40) None None None.

Definition sellTrade : CopyTradeOptions :=
  mkOptions (mkTrade "market-1" "token-1" "sell" 0.5 40) None None None.

Definition holding (q : float) : gmap (string * string) float :=
  <[("market-1", "token-1") := q]> ∅.

(** A venue response with an order id and nothing else. *)
Definition noStatus : OrderResponse :=
  mkResponse (Some "0xorder") None None None None.

Definition rejected : OrderResponse :=
  mkResponse None (Some (StatusStr "REJECTED")) None None None.

Definition start (l : gmap (string * string) float) : State nat := freshBuilder l 0%nat.

End Fixture.
(** Events that are neither part of placing an order (creating it, the
    simulation, posting it) nor a ledger write. *)
Definition quiet (e : Event) : bool :=
  negb (isCreateOrder e || isNewWallet e || isFetch e || isPostOrder e || isLedgerWrite e).

(** Events outside the simulation and the posting of an order. *)
Definition offVenue (e : Event) : bool :=
  negb (isNewWallet e || isFetch e || isPostOrder e).

Definition anyEvent (e : Event) : bool := true.

(** The quantity a filled BUY records: what the venue reports, else the
    estimate, when either is positive. *)
Definition boughtQuantity {W : Type} (rt : Runtime W) (options : CopyTradeOptions)
    (order : UserMarketOrder) (r : OrderResponse) : option float :=
  if PrimFloat.ltb 0 (tokensReceivedOf rt r) then Some (tokensReceivedOf rt r)
  else if PrimFloat.ltb 0 (estimatedTokensOf options order)
       then Some (estimatedTokensOf options order)
       else None.

(** [s] continues [base] with quiet events only. *)
Definition extendsQuietly {W : Type} (base : list Event) (s : State W) : Prop :=
  exists evs, trace s = (base ++ evs)%list /\ forallb quiet evs = true.

(** ** Further readings of runs *)

(** [s] continues [base] with events accepted by [acc] only. *)
Definition extendsBy {W : Type} (acc : Event -> bool) (base : list Event) (s : State W)
  : Prop :=
  exists evs, trace s = (base ++ evs)%list /\ forallb acc evs = true.

Definition isProbe (e : Event) : bool :=
  match e with EvCall (GetNetwork _) _ => true | _ => false end.

Definition isSetApproval (e : Event) : bool :=
  match e with EvCall (SetApprovalForAll _ _ _ _) _ => true | _ => false end.

Definition isLog (e : Event) : bool :=
  match e with EvLog _ _ => true | _ => false end.

(** An approval transaction that grants (never revokes) with the fixed gas
    limit; every other event passes. *)
Definition grantsWithFixedGas (e : Event) : bool :=
  match e with
  | EvCall (SetApprovalForAll _ _ approved gas) _ => approved && (gasLimit gas =? 200000)%N
  | _ => true
  end.

(** The URL the simulation request goes to. *)
Definition simulateEndpoint {W : Type} (rt : Runtime W) : string :=
  Js.dropTrailingSlash
    (if Js.truthy_opt (CLOB_SIMULATE_URL (env rt))
     then default "" (CLOB_SIMULATE_URL (env rt))
     else "https://polymarket.clob.health")
  +:+ "/api/simulate".


Definition isOk {A : Type} (r : Result A) : bool :=
  match r with Ok _ => true | Throw _ => false end.

(** Whatever [m] does, it leaves the ledger alone unless it returns a
    successful result. *)
Definition sparesLedger {W : Type} (m : M W CopyTradeResult) : Prop :=
  forall s,
    match m s with
    | (Ok res, s') => success res = false -> ledger s' = ledger s
    | (Throw _, s') => ledger s' = ledger s
    end.

(** The ledger [l'] agrees with [l] outside the key (m, t). *)
Definition sameElsewhere (m t : string) (l l' : gmap (string * string) float) : Prop :=
  forall k, k <> (m, t) -> l' !! k = l !! k.


(** An on-chain transaction or the wait for one. *)
Definition isTransaction (e : Event) : bool :=
  match e with
  | EvCall (SetApprovalForAll _ _ _ _) _ => true
  | EvCall (TxWait _) _ => true
  | _ => false
  end.

(** The public endpoints getRpcCandidates appends for a chain. *)
Definition onPolygon (chainId : float) : bool := PrimFloat.eqb chainId 137.
Definition onAmoy (chainId : float) : bool :=
  negb (PrimFloat.eqb chainId 137) && PrimFloat.eqb chainId 80002.

(** [env.RPC_URL] or an Alchemy URL: the candidates that come from the
    environment. *)
Definition fromEnvironment {W : Type} (rt : Runtime W) (url : string) : Prop :=
  RPC_URL (env rt) = Some url
  \/ exists token, RPC_TOKEN (env rt) = Some token
       /\ (url = "https://polygon-mainnet.g.alchemy.com/v2/" +:+ token
           \/ url = "https://polygon-amoy.g.alchemy.com/v2/" +:+ token).

Definition unsupportedChain {W : Type} (rt : Runtime W) (chainId : float) : Js.Exn :=
  Js.newError ("Unsupported chain ID: " +:+ numToString rt chainId +:+
               ". Supported: 137 (Polygon), 80002 (Amoy)").

(** Events that send nothing to the chain. *)
Definition offChain (e : Event) : bool := negb (isTransaction e).

(** *** Runs of approveUSDCAllowance *)

(** [I] does not look at events accepted by [acc], nor at the outside
    world; the log of USDC calls stays as it is. *)
Definition wide {W : Type} (I : State (Chain W) -> Prop) (acc : Event -> bool) : Prop :=
  forall s e w, I s -> acc e = true ->
    I (mkState (ledger s) (simulateTxDone s) (trace s ++ [e])
               (mkChain w (usdcLog (world s)))).

(** [I] does not look at USDC calls accepted by [acc], nor at the outside
    world. *)
Definition usdcStable {W : Type} (I : State (Chain W) -> Prop) (acc : UsdcEvent -> bool)
  : Prop :=
  forall s ev w, I s -> acc ev = true ->
    I (mkState (ledger s) (simulateTxDone s) (trace s)
               (mkChain w (usdcLog (world s) ++ [ev]))).

Definition isApprove (ev : UsdcEvent) : bool :=
  match ev with UsdcEv (Approve _ _ _ _) _ => true | _ => false end.

Definition readsOnly (ev : UsdcEvent) : bool := negb (isApprove ev).

(** A USDC approval for the maximal amount with the fixed gas limit; every
    other call passes. *)
Definition approvesMax (ev : UsdcEvent) : bool :=
  match ev with
  | UsdcEv (Approve _ _ amount gas) _ =>
      (amount =? MaxUint256)%N && (gasLimit gas =? 200000)%N
  | _ => true
  end.

(** [s] continues the USDC calls of [base] with calls accepted by [acc]
    only. *)
Definition usdcExtendsBy {W : Type} (acc : UsdcEvent -> bool) (base : list UsdcEvent)
    (s : State (Chain W)) : Prop :=
  exists evs, usdcLog (world s) = (base ++ evs)%list /\ forallb acc evs = true.

(** A USDC contract on which every allowance is [current], on the
    contracts of [Fixture.answer]; the world counts the calls. *)
Definition usdcAnswers (current : N) (A : Type) (c : UsdcCall A) (w : nat)
  : Result A * nat :=
  (match c in UsdcCall T return Result T with
   | GetFullContractConfig _ =>
       Ok (mkFullContracts (mkContracts "0xExchange" "0xNegRiskExchange" "0xCTF")
                           "0xUSDC" "0xNegRiskAdapter")
   | Allowance _ _ _ => Ok current
   | Approve _ _ _ _ => Ok "0xApproveTx"
   end, S w).

Definition startOnChain : State (Chain nat) := freshBuilder ∅ (mkChain 0%nat []).

(** *** Orders per call *)

(** Events that neither create nor post an order. *)
Definition notOrdering (e : Event) : bool := negb (isCreateOrder e || isPostOrder e).

(** Since [base], at most [n] orders were created, and no more were posted
    than were created. *)
Definition ordersWithin {W : Type} (n : nat) (base : list Event) (s : State W) : Prop :=
  exists evs,
    trace s = (base ++ evs)%list
    /\ length (List.filter isPostOrder evs) <= length (List.filter isCreateOrder evs)
    /\ length (List.filter isCreateOrder evs) <= n.

(** *** The two sides of a trade *)

(** A call to the chain: contract configuration, provider probe, wallet
    address, gas price, the ConditionalTokens calls, waiting for a
    transaction. *)
Definition isChainCall (e : Event) : bool :=
  match e with
  | EvCall (GetContractConfig _) _
  | EvCall (GetNetwork _) _
  | EvCall (GetAddress _ _) _
  | EvCall (GetGasPrice _) _
  | EvCall (IsApprovedForAll _ _ _) _
  | EvCall (SetApprovalForAll _ _ _ _) _
  | EvCall (TxWait _) _ => true
  | _ => false
  end.

Definition isBalanceCheck (e : Event) : bool :=
  match e with EvCall (ValidateBuyOrderBalance _) _ => true | _ => false end.

(** What a SELL may do: anything but chain calls and the balance check. *)
Definition sellSide (e : Event) : bool := negb (isChainCall e || isBalanceCheck e).
(** ** Invariants of runs *)

(** [m] keeps [I]: whatever it returns or throws, [I] holds afterwards. *)
Definition preserves {W A : Type} (I : State W -> Prop) (m : M W A) : Prop :=
  forall s, I s -> I (snd (m s)).

(** [I] does not look at events accepted by [ok], nor at the world. *)
Definition stable {W : Type} (I : State W -> Prop) (ok : Event -> bool) : Prop :=
  forall s e w, I s -> ok e = true ->
    I (mkState (ledger s) (simulateTxDone s) (trace s ++ [e]) w).

(** [I] does not look at the builder's flag. *)
Definition flagBlind {W : Type} (I : State W -> Prop) : Prop :=
  forall s b, I s -> I (mkState (ledger s) b (trace s) (world s)).

(** [I] does not look at the ledger. *)
Definition ledgerBlind {W : Type} (I : State W -> Prop) : Prop :=
  forall s l, I s -> I (setLedger l s).

(** The monitor has not tripped on what happened so far, and as long as the
    builder's flag is down it has seen nothing. *)
Definition simulatedOnce {W : Type} (s : State W) : Prop :=
  tripped (phaseOf (trace s)) = false
  /\ (simulateTxDone s = false -> phaseOf (trace s) = phase0).

Section Preservation.
Context {W : Type} (rt : Runtime W) (I : State W -> Prop).

Lemma preserves_ret {A} (a : A) : preserves I (ret a).
Proof. intros s H. exact H. Qed.

Lemma preserves_throw {A} (e : Js.Exn) : preserves I (@throw W A e).
Proof. intros s H. exact H. Qed.

Lemma preserves_liftResult {A} (r : Result A) : preserves I (@liftResult W A r).
Proof. intros s H. exact H. Qed.

Lemma preserves_getSimulateTxDone : preserves I (@getSimulateTxDone W).
Proof. intros s H. exact H. Qed.

Lemma preserves_getHoldings m t : preserves I (@getHoldings W m t).
Proof. intros s H. exact H. Qed.

Lemma preserves_bind {A B} (m : M W A) (k : A -> M W B) :
  preserves I m -> (forall a, preserves I (k a)) -> preserves I (bind m k).
Proof.
  intros Hm Hk s H. unfold bind. specialize (Hm s H).
  destruct (m s) as [[a | e] s1]; cbn in *; [apply Hk; exact Hm | exact Hm].
Qed.

Lemma preserves_tryCatch {A} (m : M W A) (h : Js.Exn -> M W A) :
  preserves I m -> (forall e, preserves I (h e)) -> preserves I (tryCatch m h).
Proof.
  intros Hm Hh s H. unfold tryCatch. specialize (Hm s H).
  destruct (m s) as [[a | e] s1]; cbn in *; [exact Hm | apply Hh; exact Hm].
Qed.

Lemma preserves_emit ok e : stable I ok -> ok e = true -> preserves I (emit e).
Proof. intros Hst Hok s H. apply (Hst s e (world s) H Hok). Qed.

Lemma preserves_call ok {A} (c : Call A) :
  stable I ok -> (forall r, ok (EvCall c r) = true) -> preserves I (call rt c).
Proof.
  intros Hst Hok s H. unfold call.
  destruct (ext rt c (world s)) as [r w] eqn:E. cbn. apply Hst; auto.
Qed.

Lemma preserves_setSimulateTxDone b : flagBlind I -> preserves I (setSimulateTxDone b).
Proof. intros Hf s H. apply Hf. exact H. Qed.

Lemma preserves_modifyLedger f : ledgerBlind I -> preserves I (modifyLedger f).
Proof. intros Hl s H. apply Hl. exact H. Qed.

Lemma stable_weaken (ok ok' : Event -> bool) :
  (forall e, ok' e = true -> ok e = true) -> stable I ok -> stable I ok'.
Proof. intros Hsub Hst s e w H Hok. apply Hst; auto. Qed.

End Preservation.

(** Walks the body of a computation, one construct at a time. *)
Ltac keep_step acc :=
  first
    [ apply preserves_ret
    | apply preserves_throw
    | apply preserves_liftResult
    | apply preserves_getSimulateTxDone
    | apply preserves_getHoldings
    | apply preserves_bind; [ | intros ? ]
    | apply preserves_tryCatch; [ | intros ? ]
    | apply preserves_modifyLedger; assumption
    | apply preserves_setSimulateTxDone; assumption
    | apply (preserves_emit _ acc); [ assumption | reflexivity ]
    | apply (preserves_call _ _ acc); [ assumption | intros ?; reflexivity ]
    | match goal with
      | |- preserves _ (if ?b then _ else _) => destruct b
      | |- preserves _ (match ?x with _ => _ end) => destruct x
      end ].

Ltac keep acc := cbv zeta; repeat keep_step acc.

Section KeptByTheCode.
Context {W : Type} (rt : Runtime W) (I : State W -> Prop).

Lemma createSimulateAndPost_preserves order opts ty :
  stable I anyEvent -> flagBlind I ->
  preserves I (createSimulateAndPost rt order opts ty).
Proof.
  intros Hst Hflag. unfold createSimulateAndPost, simulateTx, log.
  keep anyEvent.
Qed.

Lemma tryCandidates_preserves chainId candidates :
  stable I quiet ->
  forall errors, preserves I (tryCandidates rt chainId candidates errors).
Proof.
  intros Hst. induction candidates as [| url rest IH]; intros errors; cbn [tryCandidates].
  - apply preserves_throw.
  - unfold probe. keep quiet. apply IH.
Qed.

Lemma getWorkingProvider_preserves chainId :
  stable I quiet -> preserves I (getWorkingProvider rt chainId).
Proof.
  intros Hst. unfold getWorkingProvider.
  apply preserves_bind; [apply preserves_liftResult |].
  intros cands. apply tryCandidates_preserves. exact Hst.
Qed.

Lemma approveTokensAfterBuy_preserves :
  stable I quiet -> preserves I (approveTokensAfterBuy rt).
Proof.
  intros Hst. unfold approveTokensAfterBuy, log.
  destruct (negb (Js.truthy_opt (PRIVATE_KEY (env rt)))); [apply preserves_throw |].
  cbv zeta.
  apply preserves_bind; [keep quiet |]. intros cfg.
  apply preserves_bind; [apply getWorkingProvider_preserves; exact Hst |]. intros url.
  keep quiet.
Qed.

End KeptByTheCode.

(** Neither placing an order nor the post-buy approval writes the ledger. *)
Lemma createSimulateAndPost_ledger {W : Type} (rt : Runtime W) order opts ty (s : State W) :
  ledger (snd (createSimulateAndPost rt order opts ty s)) = ledger s.
Proof.
  apply (createSimulateAndPost_preserves rt (fun s' => ledger s' = ledger s)).
  - intros s0 e w H _. exact H.
  - intros s0 b H. exact H.
  - reflexivity.
Qed.

Lemma approveTokensAfterBuy_ledger {W : Type} (rt : Runtime W) (s : State W) :
  ledger (snd (approveTokensAfterBuy rt s)) = ledger s.
Proof.
  apply (approveTokensAfterBuy_preserves rt (fun s' => ledger s' = ledger s)).
  - intros s0 e w H _. exact H.
  - reflexivity.
Qed.

(** ** Facts about binary64 comparisons *)

Lemma sub_self_not_positive (x : float) :
  PrimFloat.ltb 0 (PrimFloat.sub x x) = false.
Proof.
  rewrite ltb_spec, sub_spec.
  destruct (Prim2SF x) as [sx | sx | | sx mx ex].
  - destruct sx; reflexivity.
  - destruct sx; reflexivity.
  - reflexivity.
  - unfold SF64sub, SFsub. rewrite Z.min_id. unfold shl_align.
    rewrite Z.sub_diag. reflexivity.
Qed.

Lemma positive_of_not_leb (x : float) :
  PrimFloat.leb x 0 = false -> Js.is_nan x = false -> PrimFloat.ltb 0 x = true.
Proof.
  unfold Js.is_nan. rewrite leb_spec, ltb_spec, FloatAxioms.eqb_spec.
  change (Prim2SF 0) with (S754_zero false).
  destruct (Prim2SF x) as [sx | sx | | sx mx ex]; cbn; try discriminate;
    destruct sx; cbn; intros; try discriminate; reflexivity.
Qed.

Lemma not_leb_of_positive (x : float) :
  PrimFloat.ltb 0 x = true -> PrimFloat.leb x 0 = false.
Proof.
  rewrite leb_spec, ltb_spec.
  change (Prim2SF 0) with (S754_zero false).
  destruct (Prim2SF x) as [sx | sx | | sx mx ex]; cbn; try discriminate;
    destruct sx; cbn; intros; try discriminate; reflexivity.
Qed.

Lemma not_positive_of_leb (x : float) :
  PrimFloat.leb x 0 = true -> PrimFloat.ltb 0 x = false.
Proof.
  intros H. destruct (PrimFloat.ltb 0 x) eqn:E; [| reflexivity].
  apply not_leb_of_positive in E. congruence.
Qed.

(** ** From the submission to the result *)

Section Settling.
Context {W : Type} (rt : Runtime W).

Lemma copyTrade_from_submission options (s : State W) order s1 :
  submits rt options s order s1 ->
  copyTrade rt options s =
  tryCatch
    (let* response := createSimulateAndPost rt order (orderOptionsOf options)
                        (orderTypeOf options) in
     settle rt options order response)
    (copyTradeCatch rt) s1.
Proof.
  intros H. destruct H as [Hsell Hpos held | sized report order s1 s2 Hsell Hcheck Hadj].
  - unfold copyTrade, copyTradeSell, tryCatch, bind, getHoldings, emit, settle.
    rewrite Hsell. cbn beta iota.
    subst held. rewrite Hpos. reflexivity.
  - unfold copyTrade, copyTradeBuy, tryCatch, bind, settle.
    rewrite Hsell, Hcheck. cbn [fst snd]. rewrite Hadj.
    unfold submitBuy, bind, emit. reflexivity.
Qed.

(** The catch block returns when the message it looks into is a string,
    and throws when it is not. *)
Lemma copyTradeCatch_returns (e : Js.Exn) (msg : string) (s : State W) :
  Js.errValue e = Js.Str msg ->
  fst (copyTradeCatch rt e s) = Ok (failure msg)
  /\ ledger (snd (copyTradeCatch rt e s)) = ledger s.
Proof.
  intros Hmsg.
  unfold copyTradeCatch, bind, tryCatch, log, emit, call, ret, liftResult,
    includesEither, includesOn.
  cbv zeta. rewrite Hmsg.
  destruct (Js.includes msg "not enough balance"); [| destruct (Js.includes msg "allowance")];
    cbn; auto;
    (destruct (ext rt DisplayWalletBalance (world s)) as [[[] | e1] w1]; cbn;
     [destruct (ext rt UpdateBalanceAllowance w1) as [[[] | e2] w2]; cbn; auto | auto]).
Qed.

Lemma copyTradeCatch_throws (e : Js.Exn) (b : bool) (shown : string) (s : State W) :
  Js.errValue e = Js.NotStr b shown ->
  copyTradeCatch rt e s = (Throw (Js.notIncludable "errorMessage" (Js.NotStr b shown)), s).
Proof.
  intros Hmsg.
  unfold copyTradeCatch, bind, liftResult, includesEither, includesOn.
  cbv zeta. rewrite Hmsg. reflexivity.
Qed.

Lemma ledgerWrite_accepted (s : State W) :
  storeReliable rt ->
  exists w', ext rt LedgerWrite (world s) = (Ok tt, w').
Proof.
  intros H. specialize (H (world s)).
  destruct (ext rt LedgerWrite (world s)) as [r w']. cbn in H. subst r. eauto.
Qed.

Lemma addHoldings_run (m t : string) (q : float) (s : State W) :
  storeReliable rt ->
  exists w',
    addHoldings rt m t q s =
    (Ok tt, mkState (Ledger.add m t q (ledger s)) (simulateTxDone s)
                    (trace s ++ [EvCall LedgerWrite (Ok tt)]) w').
Proof.
  intros H. destruct (ledgerWrite_accepted s H) as [w' E].
  exists w'. unfold addHoldings, bind, call, modifyLedger. rewrite E. reflexivity.
Qed.

Lemma removeHoldings_run (m t : string) (q : float) (s : State W) :
  storeReliable rt ->
  exists s', removeHoldings rt m t q s = (Ok tt, s')
             /\ ledger s' = Ledger.remove m t q (ledger s).
Proof.
  intros H. unfold removeHoldings, bind, getHoldings, log, emit, ret, modifyLedger.
  destruct (PrimFloat.ltb (Ledger.get m t (ledger s)) q); cbn.
  - destruct (ledgerWrite_accepted
                (record (EvLog Warn "Removal exceeds held quantity; clamping at 0") s) H)
      as [w' E].
    unfold call. cbn in *. rewrite E. cbn. eauto.
  - destruct (ledgerWrite_accepted s H) as [w' E].
    unfold call. rewrite E. cbn. eauto.
Qed.

Lemma recordSold_run (m t : string) (q : float) (s : State W) :
  storeReliable rt ->
  exists s', recordSold rt m t q s = (Ok tt, s')
    /\ ledger s' = (if PrimFloat.ltb 0 q then Ledger.remove m t q (ledger s) else ledger s).
Proof.
  intros H. unfold recordSold. destruct (PrimFloat.ltb 0 q).
  - destruct (removeHoldings_run m t q s H) as (s1 & E & Hl).
    unfold bind, log, emit. rewrite E. cbn. eauto.
  - unfold log, emit. cbn. eauto.
Qed.

Lemma recordSold_skips (m t : string) (q : float) (s : State W) :
  PrimFloat.ltb 0 q = false ->
  recordSold rt m t q s =
  (Ok tt, record (EvLog Warn "No tokens were sold - not removing from holdings") s).
Proof. intros H. unfold recordSold. rewrite H. reflexivity. Qed.

Lemma recordBought_run options order (got : float) (s : State W) :
  storeReliable rt ->
  let m := conditionId (trade options) in
  let t := asset (trade options) in
  let est := estimatedTokensOf options order in
  exists s', recordBought rt options order got s = (Ok tt, s')
    /\ simulateTxDone s' = simulateTxDone s
    /\ (PrimFloat.ltb 0 got = true ->
        ledger s' = Ledger.add m t got (ledger s)
        /\ exists msg, trace s' = (trace s ++ [EvCall LedgerWrite (Ok tt); EvLog Info msg])%list)
    /\ (PrimFloat.ltb 0 got = false -> PrimFloat.ltb 0 est = true ->
        ledger s' = Ledger.add m t est (ledger s)
        /\ trace s' =
           (trace s ++ [EvCall LedgerWrite (Ok tt);
                        EvLog Warn ("Using estimated token amount: " +:+ numToString rt est +:+
                                    " (actual amount not in response)")])%list)
    /\ (PrimFloat.ltb 0 got = false -> PrimFloat.ltb 0 est = false ->
        s' = record (EvLog Warn
                       "No tokens received and cannot estimate - not adding to holdings") s).
Proof.
  intros H m t est. unfold recordBought. cbv zeta.
  fold m t. change (PrimFloat.div _ _) with est.
  destruct (PrimFloat.ltb 0 got); [| destruct (PrimFloat.ltb 0 est)].
  - destruct (addHoldings_run m t got s H) as [w' E].
    unfold bind, log, emit. rewrite E. cbn. eexists. split; [reflexivity |].
    cbn. rewrite <- app_assoc. cbn.
    repeat split; try discriminate; eauto.
  - destruct (addHoldings_run m t est s H) as [w' E].
    unfold bind, log, emit. rewrite E. cbn. eexists. split; [reflexivity |].
    cbn. rewrite <- app_assoc. cbn.
    repeat split; try discriminate; eauto.
  - unfold log, emit. cbn. eexists. split; [reflexivity |].
    repeat split; try discriminate; eauto.
Qed.

Lemma extendsQuietly_stable (base : list Event) :
  stable (@extendsQuietly W base) quiet.
Proof.
  intros s e w (evs & Htr & Hq) He. exists (evs ++ [e])%list. cbn. split.
  - rewrite Htr. rewrite app_assoc. reflexivity.
  - rewrite forallb_app, Hq. cbn. rewrite He. reflexivity.
Qed.

Lemma extendsQuietly_refl (s : State W) : extendsQuietly (trace s) s.
Proof. exists []. split; [rewrite app_nil_r |]; reflexivity. Qed.

Lemma approve_attempt_returns (s : State W) :
  exists s',
    tryCatch (approveTokensAfterBuy rt) (fun error => emit (approvalFailed error)) s
    = (Ok tt, s')
    /\ ledger s' = ledger s
    /\ extendsQuietly (trace s) s'
    /\ (forall e s4, approveTokensAfterBuy rt s = (Throw e, s4) ->
        s' = record (approvalFailed e) s4).
Proof.
  unfold tryCatch.
  pose proof (approveTokensAfterBuy_ledger rt s) as Hl.
  pose proof (approveTokensAfterBuy_preserves rt _ (extendsQuietly_stable (trace s)) s
                (extendsQuietly_refl s)) as Hq.
  destruct (approveTokensAfterBuy rt s) as [[[] | e] s1]; cbn in *.
  - exists s1. repeat split; auto. intros e s4 Habs. discriminate Habs.
  - exists (record (approvalFailed e) s1). repeat split; auto.
    + apply (extendsQuietly_stable (trace s) s1 _ (world s1) Hq). reflexivity.
    + intros e' s4 Heq. injection Heq as <- <-. reflexivity.
Qed.

Lemma settleSell_rejects (m t : string) amt order response (s : State W) :
  orderFailed response = true ->
  settleSell rt m t amt order response s =
  (Ok (failure (describeOrderFailure rt (statusOf response))), s).
Proof.
  intros H. unfold settleSell. destruct response as [r |]; [rewrite H |]; reflexivity.
Qed.

Lemma settleBuy_rejects options order response (s : State W) :
  orderFailed response = true ->
  settleBuy rt options order response s =
  (Ok (failure (describeOrderFailure rt (statusOf response))), s).
Proof.
  intros H. unfold settleBuy. destruct response as [r |]; [rewrite H |]; reflexivity.
Qed.

Lemma settleSell_accepts (m t : string) (amt : float) order r (s : State W) :
  storeReliable rt ->
  orderFailed (Some r) = false ->
  exists s', settleSell rt m t amt order (Some r) s = (Ok (filled r order), s')
    /\ ledger s' = (if PrimFloat.ltb 0 (tokensSoldOf rt r amt)
                    then Ledger.remove m t (tokensSoldOf rt r amt) (ledger s)
                    else ledger s).
Proof.
  intros Hst Hok. unfold settleSell. rewrite Hok. cbv zeta.
  change (if Js.truthy_opt (makingAmount r) then _ else amt) with (tokensSoldOf rt r amt).
  destruct (recordSold_run m t (tokensSoldOf rt r amt) s Hst) as (s1 & E & Hl).
  unfold bind, log, emit, ret. rewrite E. cbn. eauto.
Qed.

Lemma settleSell_skips (m t : string) (amt : float) order r (s : State W) :
  orderFailed (Some r) = false ->
  PrimFloat.ltb 0 (tokensSoldOf rt r amt) = false ->
  exists msg,
    settleSell rt m t amt order (Some r) s =
    (Ok (filled r order),
     record (EvLog Success msg)
       (record (EvLog Warn "No tokens were sold - not removing from holdings") s)).
Proof.
  intros Hok Hq. unfold settleSell. rewrite Hok. cbv zeta.
  change (if Js.truthy_opt (makingAmount r) then _ else amt) with (tokensSoldOf rt r amt).
  unfold bind. rewrite (recordSold_skips m t _ s Hq).
  unfold log, emit, ret. eauto.
Qed.

(** What a filled BUY leaves behind: the state [s3] right after the ledger
    was updated, and the final state [s'] after the approval attempt. *)
Lemma settleBuy_accepts options order r (s : State W) :
  storeReliable rt ->
  orderFailed (Some r) = false ->
  exists s3 s',
    recordBought rt options order (tokensReceivedOf rt r) s = (Ok tt, s3)
    /\ settleBuy rt options order (Some r) s = (Ok (filled r order), s')
    /\ ledger s' = ledger s3
    /\ extendsQuietly (trace s3) s'
    /\ (forall e s4, approveTokensAfterBuy rt s3 = (Throw e, s4) ->
        exists msg, s' = record (EvLog Success msg) (record (approvalFailed e) s4)).
Proof.
  intros Hst Hok.
  destruct (recordBought_run options order (tokensReceivedOf rt r) s Hst)
    as (s3 & E3 & _).
  destruct (approve_attempt_returns s3) as (s4 & E4 & Hl4 & Hq4 & Hthrow).
  exists s3. eexists. split; [exact E3 |].
  unfold settleBuy. rewrite Hok. cbv zeta.
  change (if Js.truthy_opt (takingAmount r) then _ else 0%float) with (tokensReceivedOf rt r).
  unfold bind at 1. rewrite E3.
  unfold bind at 1. rewrite E4.
  unfold bind, log, emit, ret. split; [reflexivity |]. cbn.
  split; [exact Hl4 |]. split.
  - apply (extendsQuietly_stable (trace s3) s4 _ (world s4) Hq4). reflexivity.
  - intros e s5 Habs. rewrite (Hthrow e s5 Habs). eauto.
Qed.

End Settling.

Section KeptBeforeSubmission.
Context {W : Type} (rt : Runtime W) (I : State W -> Prop).

Lemma checkBuyBalance_preserves options :
  stable I quiet -> preserves I (checkBuyBalance rt options).
Proof. intros Hst. unfold checkBuyBalance, log. keep quiet. Qed.

Lemma adjustToBalance_preserves sized report :
  stable I quiet -> preserves I (adjustToBalance rt sized report).
Proof. intros Hst. unfold adjustToBalance. keep quiet. Qed.

End KeptBeforeSubmission.

Lemma ledger_stable {W : Type} (l : gmap (string * string) float) (acc : Event -> bool) :
  stable (fun s : State W => ledger s = l) acc.
Proof. intros s e w H _. exact H. Qed.

(** Nothing touches the ledger before the venue has answered. *)
Lemma submits_ledger {W : Type} (rt : Runtime W) options (s : State W) order s1 :
  submits rt options s order s1 -> ledger s1 = ledger s.
Proof.
  intros [Hsell Hpos held | sized report order' sa sb Hsell Hcheck Hadj]; [reflexivity |].
  cbn.
  pose proof (checkBuyBalance_preserves rt _ options (ledger_stable (ledger s) quiet) s eq_refl)
    as H1.
  rewrite Hcheck in H1. cbn in H1.
  pose proof (adjustToBalance_preserves rt _ sized report (ledger_stable (ledger s) quiet) sa H1)
    as H2.
  rewrite Hadj in H2. exact H2.
Qed.

Lemma posted_ledger {W : Type} (rt : Runtime W) options (s s1 s2 : State W) order ty response :
  submits rt options s order s1 ->
  createSimulateAndPost rt order (orderOptionsOf options) ty s1 = (Ok response, s2) ->
  ledger s2 = ledger s.
Proof.
  intros Hsub Hpost.
  pose proof (createSimulateAndPost_ledger rt order (orderOptionsOf options) ty s1) as H.
  rewrite Hpost in H. cbn in H. rewrite H. exact (submits_ledger rt options s order s1 Hsub).
Qed.

(** Running a computation gives the pair of what it returns and where it ends. *)
Lemma run_eq {W A : Type} (m : M W A) (s : State W) (r : Result A) :
  fst (m s) = r -> m s = (r, snd (m s)).
Proof. intros <-. destruct (m s); reflexivity. Qed.

(** ** The definitions at work *)

Example toUpperCase_sell : Js.toUpperCase "Sell" = "SELL".
Proof. reflexivity. Qed.

Example includes_geoblock :
  Js.includes "403: Trading restricted in your region" "Trading restricted" = true
  /\ Js.includes "network error" "geoblock" = false
  /\ Js.includes "abc" "" = true.
Proof. repeat split; reflexivity. Qed.

Example dropTrailingSlash_once :
  Js.dropTrailingSlash "https://polymarket.clob.health/" = "https://polymarket.clob.health"
  /\ Js.dropTrailingSlash "https://polymarket.clob.health" = "https://polymarket.clob.health"
  /\ Js.dropTrailingSlash "a//" = "a/".
Proof. repeat split; reflexivity. Qed.

Example uniq_keeps_first_occurrences :
  Js.uniq ["a"; "b"; "a"; "c"; "b"] = ["a"; "b"; "c"].
Proof. reflexivity. Qed.

Example join_lines : Js.join ", " ["a"; "b"; "c"] = "a, b, c".
Proof. reflexivity. Qed.

Example describeOrderFailure_cases :
  let rt := Fixture.runtime Fixture.env0 Fixture.calm in
  describeOrderFailure rt (Some (StatusNum 403)) =
    "Incorrect region — Polymarket blocks trading from this server's location. Use a server in an allowed region or route traffic through a VPN/proxy."
  /\ describeOrderFailure rt (Some (StatusStr "REJECTED")) = "Order failed (status: REJECTED)"
  /\ describeOrderFailure rt None = "Order failed (status: unknown)".
Proof. vm_compute. repeat split; reflexivity. Qed.

Example candidates_polygon_with_own_rpc :
  getRpcCandidates
    (Fixture.runtime (mkEnv None None (Some "https://rpc.ankr.com/polygon") (Some "tok") None None)
                     Fixture.calm) 137
  = Ok ["https://rpc.ankr.com/polygon";
        "https://polygon-mainnet.g.alchemy.com/v2/tok";
        "https://polygon-rpc.com";
        "https://polygon.llamarpc.com";
        "https://rpc-mainnet.matic.quiknode.pro"].
Proof. vm_compute. reflexivity. Qed.

Example raceTimeout_cases :
  raceTimeout 7000 (Resolves 6999) = Ok tt
  /\ raceTimeout 7000 (Resolves 7000) = Throw (Js.newError "timeout")
  /\ raceTimeout 7000 Hangs = Throw (Js.newError "timeout")
  /\ raceTimeout 7000 (Rejects 12 (Js.newError "ECONNREFUSED"))
     = Throw (Js.newError "ECONNREFUSED").
Proof. repeat split; reflexivity. Qed.

(** Section 8 of the spec: 50 at 0.62 with multiplier 0.3 is capped to 5
    (here 40 at 0.5 with multiplier 0.5, i.e. 10, capped to 5). *)
Example sizeOrder_caps :
  Fixture.sizeOrder 0.5 (Some 5%float) (Fixture.buyTrade 0.5)
  = Ok (mkOrder "token-1" BUY 5 (Some FAK) None).
Proof. vm_compute. reflexivity. Qed.

(** Section 8 of the spec: add 5, remove 2, read back 3. *)
Example ledger_add_remove :
  Ledger.get "m" "t" (Ledger.remove "m" "t" 2 (Ledger.add "m" "t" 5 ∅)) = 3%float.
Proof. vm_compute. reflexivity. Qed.

(** Section 8 of the spec: status "REJECTED" with no order id gives a failure
    with the classified message and leaves the ledger alone. *)
Example rejected_buy :
  let rt := Fixture.runtime Fixture.env0
              (Fixture.withPost Fixture.calm (Ok (Some Fixture.rejected))) in
  let run := copyTrade rt (Fixture.buyTrade 0.5) (Fixture.start ∅) in
  fst run = Ok (failure "Order failed (status: REJECTED)")
  /\ ledger (snd run) = ∅.
Proof. vm_compute. split; reflexivity. Qed.

(** What the first order's simulation sends out: the request to the simulate
    URL carries the wallet's address and, as [signer], its private key. *)
Example simulate_request_payload :
  let rt := Fixture.runtime Fixture.env0 Fixture.calm in
  let order := mkOrder "token-1" BUY 5 (Some FAK) None in
  List.filter isFetch
    (trace (snd (createSimulateAndPost rt order (mkOrderOptions "0.01" false) FAK
                   (Fixture.start ∅))))
  = [EvCall (Fetch "https://polymarket.clob.health/api/simulate"
               (mkKey "0xMe" "0xkey") (mkSigned order "0xsig"))
            (Ok (mkHttp true 200))].
Proof. vm_compute. reflexivity. Qed.

(** ** C1: no short-selling *)

(** C1.  For a SELL-side trade whose ledger quantity for the (market, token)
    key is zero or negative, copyTrade returns the failure result with error
    "No holdings available to sell"; the ledger, the world and the builder's
    flag are unchanged and the only thing recorded is the warning, so no
    order was created or posted. *)
Theorem copyTrade_sell_without_holdings
    {W : Type} (rt : Runtime W) (options : CopyTradeOptions) (s : State W) :
  isSell options = true ->
  PrimFloat.leb
    (Ledger.get (conditionId (trade options)) (asset (trade options)) (ledger s)) 0 = true ->
  let s' := snd (copyTrade rt options s) in
  fst (copyTrade rt options s) = Ok (failure "No holdings available to sell")
  /\ ledger s' = ledger s
  /\ world s' = world s
  /\ simulateTxDone s' = simulateTxDone s
  /\ trace s' = (trace s ++ [skippingSell options])%list.
Proof.
  intros Hsell Hzero.
  unfold copyTrade, tryCatch, copyTradeSell, bind, getHoldings.
  rewrite Hsell. cbn beta iota. rewrite Hzero. cbn.
  repeat split; eauto.
Qed.

Lemma copyTrade_sell_without_holdings_witness :
  let rt := Fixture.runtime Fixture.env0 Fixture.calm in
  let s := Fixture.start ∅ in
  fst (copyTrade rt Fixture.sellTrade s) = Ok (failure "No holdings available to sell")
  /\ ledger (snd (copyTrade rt Fixture.sellTrade s)) = ∅.
Proof.
  intros rt s.
  destruct (copyTrade_sell_without_holdings rt Fixture.sellTrade s) as (Hres & Hledger & _).
  - vm_compute; reflexivity.
  - vm_compute; reflexivity.
  - split; [exact Hres | exact Hledger].
Defined.

(** ** C2: when a submitted order counts as filled *)

(** Read to the letter, the criterion makes a response with an order id
    but no status a failure.  Here the venue answers a BUY of 5 with such a
    response (it is the outcome recorded for the one order posted), and
    copyTrade reports success. *)
Lemma fill_criterion_counterexample :
  let rt := Fixture.runtime Fixture.env0
              (Fixture.withPost Fixture.calm (Ok (Some Fixture.noStatus))) in
  let order := mkOrder "token-1" BUY 5 (Some FAK) None in
  let run := copyTrade rt (Fixture.buyTrade 0.5) (Fixture.start ∅) in
  filter (fun e => isPostOrder e) (trace (snd run))
    = [EvCall (PostOrder (mkSigned order "0xsig") FAK) (Ok (Some Fixture.noStatus))]
  /\ specFillOk (Some Fixture.noStatus) = false
  /\ fst run = Ok (filled Fixture.noStatus order)
  /\ success (filled Fixture.noStatus order) = true.
Proof.
  vm_compute. repeat split; reflexivity.
Qed.

(** C2 (amended).  Once an order of either side has been submitted and the
    venue call has returned [response], copyTrade returns a result (it does
    not throw), and, the ledger write being accepted, that result is
    successful exactly when the check [orderFailed] passes: the response is
    present, its order id is not empty, and its status is either falsy
    (absent, empty, 0) or one of FILLED, PARTIALLY_FILLED, MATCHED.  When the
    check fails the result is the failure carrying
    [describeOrderFailure status] and nothing else happens. *)
Theorem fill_success_criterion
    {W : Type} (rt : Runtime W) (options : CopyTradeOptions) (s s1 s2 : State W)
    (order : UserMarketOrder) (response : option OrderResponse) :
  storeReliable rt ->
  submits rt options s order s1 ->
  createSimulateAndPost rt order (orderOptionsOf options) (orderTypeOf options) s1
    = (Ok response, s2) ->
  (exists res s',
      copyTrade rt options s = (Ok res, s')
      /\ (success res = true <-> orderFailed response = false)
      /\ (orderFailed response = true ->
          res = failure (describeOrderFailure rt (statusOf response)) /\ s' = s2))
  /\ (orderFailed response = false <->
      exists r, response = Some r
        /\ Js.truthy_opt (orderID r) = true
        /\ (statusTruthy (status r) = false
            \/ status r = Some (StatusStr "FILLED")
            \/ status r = Some (StatusStr "PARTIALLY_FILLED")
            \/ status r = Some (StatusStr "MATCHED"))).
Proof.
  intros Hstore Hsub Hpost. split.
  - rewrite (copyTrade_from_submission rt options s order s1 Hsub).
    unfold tryCatch, bind. rewrite Hpost. unfold settle.
    destruct (orderFailed response) eqn:Hf.
    + destruct (isSell options);
        [rewrite settleSell_rejects by exact Hf | rewrite settleBuy_rejects by exact Hf];
        (eexists; eexists; split; [reflexivity |]; split; [| auto]);
        cbn; split; discriminate.
    + destruct response as [r |]; [| discriminate Hf].
      destruct (isSell options).
      * destruct (settleSell_accepts rt (conditionId (trade options)) (asset (trade options))
                    (amount order) order r s2 Hstore Hf) as (s' & E & _).
        rewrite E. eexists; eexists; split; [reflexivity |].
        split; [cbn; tauto | discriminate].
      * destruct (settleBuy_accepts rt options order r s2 Hstore Hf) as (s3 & s' & _ & E & _).
        rewrite E. eexists; eexists; split; [reflexivity |].
        split; [cbn; tauto | discriminate].
  - unfold orderFailed. destruct response as [r |].
    + split.
      * intros H. exists r. split; [reflexivity |].
        apply orb_false_elim in H. destruct H as [Hid Hst].
        apply negb_false_iff in Hid. split; [exact Hid |].
        destruct (statusTruthy (status r)); [right | left; reflexivity].
        cbn in Hst. unfold statusIsNot in Hst.
        destruct (status r) as [[st | n] |]; cbn in Hst; try discriminate Hst.
        destruct (String.eqb st "FILLED") eqn:E1;
          [apply String.eqb_eq in E1; subst st; left; reflexivity |].
        destruct (String.eqb st "PARTIALLY_FILLED") eqn:E2;
          [apply String.eqb_eq in E2; subst st; right; left; reflexivity |].
        destruct (String.eqb st "MATCHED") eqn:E3;
          [apply String.eqb_eq in E3; subst st; right; right; reflexivity
          | discriminate Hst].
      * intros (r' & Hr & Hid & Hst). injection Hr as <-.
        rewrite Hid. cbn.
        destruct Hst as [-> | [-> | [-> | ->]]]; reflexivity.
    + split; [discriminate | intros (r & Hr & _); discriminate Hr].
Qed.

Lemma fill_success_criterion_witness :
  exists res s',
    copyTrade (Fixture.runtime Fixture.env0 Fixture.calm) (Fixture.buyTrade 0.5)
              (Fixture.start ∅) = (Ok res, s')
    /\ success res = true.
Proof.
  pose (rt := Fixture.runtime Fixture.env0 Fixture.calm).
  pose (options := Fixture.buyTrade 0.5).
  pose (order := mkOrder "token-1" BUY 5 (Some FAK) None).
  pose (report := mkBalance true 100 5).
  pose (s := Fixture.start ∅).
  pose (s1 := snd (checkBuyBalance rt options s)).
  pose (s2 := snd (adjustToBalance rt order report s1)).
  pose (s3 := record (placingBuy rt options order) s2).
  pose (s4 := snd (createSimulateAndPost rt order (orderOptionsOf options)
                     (orderTypeOf options) s3)).
  pose (response := Some (Fixture.matched (Some "12.5") (Some "12.5"))).
  assert (Hstore : storeReliable rt) by (intros w; reflexivity).
  assert (Hsub : submits rt options s order s3).
  { apply (submits_buy rt options s order report order s1 s2);
      vm_compute; reflexivity. }
  assert (Hpost : createSimulateAndPost rt order (orderOptionsOf options)
                    (orderTypeOf options) s3 = (Ok response, s4))
    by (vm_compute; reflexivity).
  destruct (fill_success_criterion rt options s s3 s4 order response Hstore Hsub Hpost)
    as [(res & s' & Hrun & Hiff & _) _].
  exists res, s'. split; [exact Hrun |]. apply Hiff. reflexivity.
Defined.

(** ** C3: a SELL offers everything held and removes what was executed *)

Lemma remove_all_clears (m t : string) (l : gmap (string * string) float) :
  Ledger.remove m t (Ledger.get m t l) l !! (m, t) = None.
Proof.
  unfold Ledger.remove. rewrite sub_self_not_positive. apply lookup_delete_eq.
Qed.

(** C3.  For a SELL that reaches order placement, the order handed to the
    venue offers the whole ledger quantity of the (market, token) key.  When
    the fill is accepted (and the ledger write goes through) copyTrade
    succeeds and the ledger loses the executed quantity: the parsed
    [makingAmount] when the response carries one (and it is positive), else
    exactly the offered amount, after which the key has no entry left and
    reads 0. *)
Theorem sell_offers_all_and_removes_executed
    {W : Type} (rt : Runtime W) (options : CopyTradeOptions) (s s1 s2 : State W)
    (order : UserMarketOrder) (r : OrderResponse) :
  storeReliable rt ->
  isSell options = true ->
  submits rt options s order s1 ->
  createSimulateAndPost rt order (orderOptionsOf options) (orderTypeOf options) s1
    = (Ok (Some r), s2) ->
  orderFailed (Some r) = false ->
  let m := conditionId (trade options) in
  let t := asset (trade options) in
  let held := Ledger.get m t (ledger s) in
  order_side order = SELL
  /\ amount order = held
  /\ exists s',
       copyTrade rt options s = (Ok (filled r order), s')
       /\ (Js.truthy_opt (makingAmount r) = true ->
           PrimFloat.ltb 0 (parseFloat rt (default "" (makingAmount r))) = true ->
           ledger s' = Ledger.remove m t (parseFloat rt (default "" (makingAmount r))) (ledger s))
       /\ (Js.truthy_opt (makingAmount r) = false ->
           Js.is_nan held = false ->
           ledger s' = Ledger.remove m t held (ledger s)
           /\ ledger s' !! (m, t) = None
           /\ Ledger.get m t (ledger s') = 0%float).
Proof.
  intros Hstore Hsell Hsub Hpost Hok m t held.
  pose proof (copyTrade_from_submission rt options s order s1 Hsub) as Hrun.
  pose proof (posted_ledger rt options s s1 s2 order _ _ Hsub Hpost) as Hs2.
  destruct Hsub as [_ Hpos held' | ? ? ? ? ? Hbuy _ _]; [| congruence].
  subst held'. fold m t held in Hpost, Hrun |- *.
  split; [reflexivity |]. split; [reflexivity |].
  unfold tryCatch, bind in Hrun. rewrite Hpost in Hrun.
  unfold settle in Hrun. rewrite Hsell in Hrun. cbn [amount sellMarketOrder] in Hrun.
  destruct (settleSell_accepts rt m t held (sellMarketOrder options held) r s2 Hstore Hok)
    as (s' & E & Hl).
  fold m t in Hrun. rewrite E in Hrun. exists s'. split; [exact Hrun |].
  rewrite Hs2 in Hl. unfold tokensSoldOf in Hl. split.
  - intros Hmk Hq. rewrite Hmk, Hq in Hl. exact Hl.
  - intros Hmk Hnum. rewrite Hmk in Hl.
    rewrite (positive_of_not_leb held Hpos Hnum) in Hl.
    split; [exact Hl |].
    assert (Hnone : ledger s' !! (m, t) = None)
      by (rewrite Hl; apply remove_all_clears).
    split; [exact Hnone |]. unfold Ledger.get. rewrite Hnone. reflexivity.
Qed.

Lemma sell_offers_all_and_removes_executed_witness :
  exists s',
    copyTrade (Fixture.runtime Fixture.env0
                 (Fixture.withPost Fixture.calm (Ok (Some (Fixture.matched None None)))))
              Fixture.sellTrade (Fixture.start (Fixture.holding 8))
    = (Ok (filled (Fixture.matched None None)
                  (mkOrder "token-1" SELL 8 (Some FAK) None)), s')
    /\ ledger s' !! ("market-1", "token-1") = None.
Proof.
  pose (rt := Fixture.runtime Fixture.env0
                (Fixture.withPost Fixture.calm (Ok (Some (Fixture.matched None None))))).
  pose (options := Fixture.sellTrade).
  pose (s := Fixture.start (Fixture.holding 8)).
  pose (order := sellMarketOrder options 8).
  pose (s1 := record (placingSell rt options 8) s).
  pose (s2 := snd (createSimulateAndPost rt order (orderOptionsOf options)
                     (orderTypeOf options) s1)).
  assert (Hstore : storeReliable rt) by (intros w; reflexivity).
  assert (Hsub : submits rt options s order s1).
  { apply (submits_sell rt options s); vm_compute; reflexivity. }
  assert (Hpost : createSimulateAndPost rt order (orderOptionsOf options)
                    (orderTypeOf options) s1 = (Ok (Some (Fixture.matched None None)), s2))
    by (vm_compute; reflexivity).
  destruct (sell_offers_all_and_removes_executed rt options s s1 s2 order
              (Fixture.matched None None) Hstore eq_refl Hsub Hpost eq_refl)
    as (_ & _ & s' & Hrun & _ & Habsent).
  exists s'. split; [exact Hrun |].
  destruct (Habsent eq_refl) as (_ & Hnone & _); [vm_compute; reflexivity | exact Hnone].
Defined.

(** ** C4: what a filled BUY adds to the ledger *)

(** C4.  For a BUY whose fill is accepted (the ledger write going
    through), copyTrade succeeds, and the ledger gains the venue's
    [takingAmount] when the response carries one and it is positive.  When
    the response carries none, the ledger gains the estimate order.amount /
    observedTrade.price and the run is flagged by the warning "Using
    estimated token amount"; this is for an observed price that is a number
    other than 0 and an estimate that is positive, as they are for every
    order the sizing of section 4.3 builds from a price in (0, 1]. *)
Theorem buy_records_reported_or_estimated
    {W : Type} (rt : Runtime W) (options : CopyTradeOptions) (s s1 s2 : State W)
    (order : UserMarketOrder) (r : OrderResponse) :
  storeReliable rt ->
  isSell options = false ->
  submits rt options s order s1 ->
  createSimulateAndPost rt order (orderOptionsOf options) (orderTypeOf options) s1
    = (Ok (Some r), s2) ->
  orderFailed (Some r) = false ->
  let m := conditionId (trade options) in
  let t := asset (trade options) in
  let reported := parseFloat rt (default "" (takingAmount r)) in
  let estimate := PrimFloat.div (amount order) (price (trade options)) in
  let flag := EvLog Warn ("Using estimated token amount: " +:+ numToString rt estimate +:+
                          " (actual amount not in response)") in
  exists s',
    copyTrade rt options s = (Ok (filled r order), s')
    /\ (Js.truthy_opt (takingAmount r) = true -> PrimFloat.ltb 0 reported = true ->
        ledger s' = Ledger.add m t reported (ledger s))
    /\ (Js.truthy_opt (takingAmount r) = false ->
        Js.truthy_num (price (trade options)) = true ->
        PrimFloat.ltb 0 estimate = true ->
        ledger s' = Ledger.add m t estimate (ledger s)
        /\ In flag (trace s')).
Proof.
  intros Hstore Hbuy Hsub Hpost Hok m t reported estimate flag.
  pose proof (posted_ledger rt options s s1 s2 order _ _ Hsub Hpost) as Hs2.
  rewrite (copyTrade_from_submission rt options s order s1 Hsub).
  unfold tryCatch, bind. rewrite Hpost. unfold settle. rewrite Hbuy.
  destruct (settleBuy_accepts rt options order r s2 Hstore Hok)
    as (s3 & s' & E3 & E & Hl & (evs & Htr & Hquiet) & _).
  destruct (recordBought_run rt options order (tokensReceivedOf rt r) s2 Hstore)
    as (s3' & E3' & _ & Hgot & Hest & _).
  rewrite E3 in E3'. injection E3' as <-.
  rewrite E. exists s'. split; [reflexivity |].
  fold m t in Hgot, Hest. rewrite Hs2 in *.
  split.
  - intros Hsome Hpos.
    assert (Hrep : tokensReceivedOf rt r = reported)
      by (unfold tokensReceivedOf; rewrite Hsome; reflexivity).
    rewrite Hrep in Hgot. destruct (Hgot Hpos) as [Hledger _].
    rewrite Hl. exact Hledger.
  - intros Hnone Hprice Hpos.
    assert (Hrep : PrimFloat.ltb 0 (tokensReceivedOf rt r) = false)
      by (unfold tokensReceivedOf; rewrite Hnone; reflexivity).
    assert (Hquot : estimatedTokensOf options order = estimate)
      by (unfold estimatedTokensOf; rewrite Hprice; reflexivity).
    rewrite Hquot in Hest. destruct (Hest Hrep Hpos) as [Hledger Htrace].
    split; [rewrite Hl; exact Hledger |].
    rewrite Htr, Htrace. apply in_or_app. left. apply in_or_app. right. right. left.
    reflexivity.
Qed.

Lemma buy_records_reported_or_estimated_witness :
  exists s',
    copyTrade (Fixture.runtime Fixture.env0
                 (Fixture.withPost Fixture.calm (Ok (Some (Fixture.matched None None)))))
              (Fixture.buyTrade 0.5) (Fixture.start ∅)
    = (Ok (filled (Fixture.matched None None) (mkOrder "token-1" BUY 5 (Some FAK) None)), s')
    /\ ledger s' = Ledger.add "market-1" "token-1" 10 ∅.
Proof.
  pose (rt := Fixture.runtime Fixture.env0
                (Fixture.withPost Fixture.calm (Ok (Some (Fixture.matched None None))))).
  pose (options := Fixture.buyTrade 0.5).
  pose (order := mkOrder "token-1" BUY 5 (Some FAK) None).
  pose (report := mkBalance true 100 5).
  pose (s := Fixture.start ∅).
  pose (s1 := snd (checkBuyBalance rt options s)).
  pose (s2 := snd (adjustToBalance rt order report s1)).
  pose (s3 := record (placingBuy rt options order) s2).
  pose (s4 := snd (createSimulateAndPost rt order (orderOptionsOf options)
                     (orderTypeOf options) s3)).
  assert (Hstore : storeReliable rt) by (intros w; reflexivity).
  assert (Hsub : submits rt options s order s3).
  { apply (submits_buy rt options s order report order s1 s2);
      vm_compute; reflexivity. }
  assert (Hpost : createSimulateAndPost rt order (orderOptionsOf options)
                    (orderTypeOf options) s3 = (Ok (Some (Fixture.matched None None)), s4))
    by (vm_compute; reflexivity).
  destruct (buy_records_reported_or_estimated rt options s s3 s4 order
              (Fixture.matched None None) Hstore eq_refl Hsub Hpost eq_refl)
    as (s' & Hrun & _ & Hest).
  exists s'. split; [exact Hrun |].
  destruct Hest as [Hledger _]; try (vm_compute; reflexivity).
  exact Hledger.
Defined.

(** ** C5: a BUY the balance does not cover is shrunk, not dropped *)

Section Onwards.
Context {W : Type} (rt : Runtime W).

Ltac settle_answers :=
  repeat match goal with
         | |- context [ext rt ?c ?w] =>
             let r := fresh "r" in let w' := fresh "w" in
             destruct (ext rt c w) as [[r | r] w']; cbn
         | |- context [if ok ?res then _ else _] => destruct (ok res); cbn
         | |- context [includesEither ?n ?v ?a ?b] =>
             destruct (includesEither n v a b) as [[] | ?]; cbn
         end.

(** createSimulateAndPost begins with the createMarketOrder call, and an
    order that was created is posted. *)
Lemma createSimulateAndPost_begins order opts ty (s : State W) :
  exists created rest,
    trace (snd (createSimulateAndPost rt order opts ty s))
    = (trace s ++ [EvCall (CreateMarketOrder order opts) created] ++ rest)%list
    /\ forall signed, created = Ok signed ->
         exists out, In (EvCall (PostOrder signed ty) out) rest.
Proof.
  unfold createSimulateAndPost, simulateTx, bind, tryCatch, call, log, emit, ret, throw,
    liftResult, getSimulateTxDone, setSimulateTxDone, record.
  cbv zeta. cbn.
  destruct (ext rt (CreateMarketOrder order opts) (world s)) as [[signed | e] w1]; cbn.
  - destruct (simulateTxDone s); cbn; settle_answers;
      rewrite <- ?app_assoc; cbn;
      (eexists; eexists; split; [reflexivity |]);
      intros signed' Hs; injection Hs as <-; eexists; cbn; eauto 10.
  - exists (Throw e), []. split; [reflexivity |]. intros signed Habs. discriminate Habs.
Qed.

Lemma settle_preserves (I : State W -> Prop) options order response :
  stable I anyEvent -> ledgerBlind I ->
  preserves I (settle rt options order response).
Proof.
  intros Hst Hl.
  assert (Hq : stable I quiet).
  { apply (stable_weaken I anyEvent quiet); [reflexivity | exact Hst]. }
  unfold settle, settleSell, settleBuy, recordSold, recordBought, removeHoldings,
    addHoldings, log.
  cbv zeta.
  repeat first
    [ apply approveTokensAfterBuy_preserves; exact Hq
    | keep_step anyEvent ].
Qed.

Lemma copyTradeCatch_preserves (I : State W -> Prop) (e : Js.Exn) :
  stable I quiet -> preserves I (copyTradeCatch rt e).
Proof. intros Hst. unfold copyTradeCatch, log. keep quiet. Qed.

(** From the submission on: the order handed over is the next thing
    created, and it is posted when its creation returns. *)
Lemma submitted_is_placed options (s : State W) order s1 :
  submits rt options s order s1 ->
  exists created rest,
    trace (snd (copyTrade rt options s))
    = (trace s1 ++ [EvCall (CreateMarketOrder order (orderOptionsOf options)) created]
       ++ rest)%list
    /\ forall signed, created = Ok signed ->
         exists out, In (EvCall (PostOrder signed (orderTypeOf options)) out) rest.
Proof.
  intros Hsub. rewrite (copyTrade_from_submission rt options s order s1 Hsub).
  destruct (createSimulateAndPost_begins order (orderOptionsOf options) (orderTypeOf options) s1)
    as (created & rest0 & Htr & Hposted).
  exists created.
  pose (I := fun s' : State W =>
               exists rest,
                 trace s' = (trace s1 ++ [EvCall (CreateMarketOrder order (orderOptionsOf options))
                                            created] ++ rest)%list
                 /\ forall signed, created = Ok signed ->
                      exists out, In (EvCall (PostOrder signed (orderTypeOf options)) out) rest).
  assert (Hst : stable I anyEvent).
  { intros s0 e w (rest & Hrest & Hp) _. exists (rest ++ [e])%list. cbn. split.
    - rewrite Hrest, <- !app_assoc. reflexivity.
    - intros signed Hs. destruct (Hp signed Hs) as [out Hin].
      exists out. apply in_or_app. left. exact Hin. }
  assert (Hl : ledgerBlind I) by (intros s0 l H; exact H).
  assert (Hq : stable I quiet).
  { apply (stable_weaken I anyEvent quiet); [reflexivity | exact Hst]. }
  change (I (snd (tryCatch
                    (let* response := createSimulateAndPost rt order (orderOptionsOf options)
                                        (orderTypeOf options) in
                     settle rt options order response)
                    (copyTradeCatch rt) s1))).
  unfold tryCatch, bind.
  assert (H1 : I (snd (createSimulateAndPost rt order (orderOptionsOf options)
                         (orderTypeOf options) s1)))
    by (exists rest0; split; [exact Htr | exact Hposted]).
  destruct (createSimulateAndPost rt order (orderOptionsOf options) (orderTypeOf options) s1)
    as [[response | e] s2]; cbn in H1.
  - pose proof (settle_preserves I options order response Hst Hl s2 H1) as H2.
    destruct (settle rt options order response s2) as [[res | e] s3]; cbn in H2 |- *;
      [exact H2 |].
    apply (copyTradeCatch_preserves I e Hq). exact H2.
  - apply (copyTradeCatch_preserves I e Hq). exact H1.
Qed.

End Onwards.

(** C5.  For a BUY whose balance check reports available < required (the
    report being that of the balance guard of section 4.2): when the
    available balance is zero or negative, copyTrade returns the
    "Insufficient USDC balance" failure and, from start to end, nothing
    but quiet events happened, so no order was created or posted; when the
    available balance is positive, the order keeps its token, side, type
    and price and its amount becomes the available balance, and submission
    proceeds: after the two log lines of the adjustment copyTrade logs the
    placing of that order, calls createMarketOrder on it, and posts the
    signed order when the creation returns one. *)
Theorem buy_shrinks_to_available
    {W : Type} (rt : Runtime W) (options : CopyTradeOptions) (s s1 : State W)
    (sized : UserMarketOrder) (report : BalanceCheck) :
  isSell options = false ->
  checkBuyBalance rt options s = (Ok (sized, report), s1) ->
  guardReport report ->
  reportsShortfall report ->
  (PrimFloat.leb (available report) 0 = true ->
     copyTrade rt options s =
       (Ok (insufficientResult rt report), record (insufficientBalance rt report) s1)
     /\ success (insufficientResult rt report) = false
     /\ extendsQuietly (trace s) (record (insufficientBalance rt report) s1))
  /\ (PrimFloat.ltb 0 (available report) = true ->
      let order := mkOrder (tokenID sized) (order_side sized) (available report)
                           (order_type sized) (order_price sized) in
      let s2 := record (adjustedAmount rt order) (record (insufficientBalance rt report) s1) in
      submits rt options s order (record (placingBuy rt options order) s2)
      /\ exists created rest,
           trace (snd (copyTrade rt options s))
           = (trace s2 ++
              [placingBuy rt options order;
               EvCall (CreateMarketOrder order (orderOptionsOf options)) created] ++ rest)%list
           /\ forall signed, created = Ok signed ->
                exists out, In (EvCall (PostOrder signed (orderTypeOf options)) out) rest).
Proof.
  intros Hbuy Hcheck Hguard Hshort.
  assert (Hinvalid : valid report = false).
  { unfold guardReport in Hguard. unfold reportsShortfall in Hshort.
    rewrite Hguard, Hshort. reflexivity. }
  split.
  - intros Hnone. split; [| split; [reflexivity |]].
    + unfold copyTrade, copyTradeBuy, tryCatch, bind.
      rewrite Hbuy, Hcheck. cbn [fst snd]. unfold adjustToBalance, bind, emit, ret.
      rewrite Hinvalid. cbn [negb]. rewrite Hnone. reflexivity.
    + pose proof (checkBuyBalance_preserves rt _ options (extendsQuietly_stable (trace s)) s
                    (extendsQuietly_refl s)) as H1.
      rewrite Hcheck in H1. cbn in H1.
      apply (extendsQuietly_stable (trace s) s1 _ (world s1) H1). reflexivity.
  - intros Hpos order s2.
    pose proof (not_leb_of_positive _ Hpos) as Hleb.
    assert (Hadj : adjustToBalance rt sized report s1 = (Ok (inr order), s2)).
    { unfold adjustToBalance, bind, emit, ret. rewrite Hinvalid. cbn [negb].
      rewrite Hleb. reflexivity. }
    assert (Hsub : submits rt options s order (record (placingBuy rt options order) s2))
      by exact (submits_buy rt options s sized report order s1 s2 Hbuy Hcheck Hadj).
    split; [exact Hsub |].
    destruct (submitted_is_placed rt options s order _ Hsub) as (created & rest & Htr & Hp).
    exists created, rest. split; [| exact Hp].
    rewrite Htr. cbn [record trace]. rewrite <- app_assoc. reflexivity.
Qed.

Lemma buy_shrinks_to_available_witness :
  let rt := Fixture.runtime Fixture.env0
              (Fixture.withBalance Fixture.calm (fun amt => Ok (mkBalance false 3.5 amt))) in
  let order := mkOrder "token-1" BUY 3.5 (Some FAK) None in
  fst (copyTrade rt (Fixture.buyTrade 0.5) (Fixture.start ∅))
  = Ok (filled (Fixture.matched (Some "12.5") (Some "12.5")) order)
  /\ exists before created after,
       trace (snd (copyTrade rt (Fixture.buyTrade 0.5) (Fixture.start ∅)))
       = (before ++
          [EvLog Info "Placing BUY market order: 3.5 (type: FAK)";
           EvCall (CreateMarketOrder order (mkOrderOptions "0.01" false)) created]
          ++ after)%list.
Proof.
  intros rt order.
  pose (options := Fixture.buyTrade 0.5).
  pose (sized := mkOrder "token-1" BUY 5 (Some FAK) None).
  pose (report := mkBalance false 3.5 5).
  pose (s := Fixture.start ∅).
  pose (s1 := snd (checkBuyBalance rt options s)).
  assert (Hcheck : checkBuyBalance rt options s = (Ok (sized, report), s1))
    by (vm_compute; reflexivity).
  destruct (buy_shrinks_to_available rt options s s1 sized report eq_refl Hcheck
              eq_refl eq_refl)
    as [_ Hshrink].
  destruct Hshrink as (_ & created & rest & Htr & _); [vm_compute; reflexivity |].
  split; [vm_compute; reflexivity |].
  eexists. exists created, rest. exact Htr.
Defined.

(** ** C6: a SELL with no confirmed quantity *)

(** C6.  For a SELL whose response passes the check but whose executed
    quantity comes out zero or negative, copyTrade still reports the filled
    order; after the venue call the only things that happen are the warning
    "No tokens were sold - not removing from holdings" and the closing log
    line (no ledger write, so no removeHoldings), and the ledger is the one
    copyTrade started from. *)
Theorem nonpositive_sold_quantity_keeps_ledger
    {W : Type} (rt : Runtime W) (options : CopyTradeOptions) (s s1 s2 : State W)
    (order : UserMarketOrder) (r : OrderResponse) :
  isSell options = true ->
  submits rt options s order s1 ->
  createSimulateAndPost rt order (orderOptionsOf options) (orderTypeOf options) s1
    = (Ok (Some r), s2) ->
  orderFailed (Some r) = false ->
  PrimFloat.leb (tokensSoldOf rt r (amount order)) 0 = true ->
  exists msg,
    copyTrade rt options s =
      (Ok (filled r order),
       record (EvLog Success msg)
         (record (EvLog Warn "No tokens were sold - not removing from holdings") s2))
    /\ success (filled r order) = true
    /\ ledger (snd (copyTrade rt options s)) = ledger s.
Proof.
  intros Hsell Hsub Hpost Hok Hq.
  pose proof (posted_ledger rt options s s1 s2 order _ _ Hsub Hpost) as Hs2.
  pose proof (not_positive_of_leb _ Hq) as Hnot.
  destruct (settleSell_skips rt (conditionId (trade options)) (asset (trade options))
              (amount order) order r s2 Hok Hnot) as [msg E].
  exists msg.
  assert (Hrun : copyTrade rt options s =
                 (Ok (filled r order),
                  record (EvLog Success msg)
                    (record (EvLog Warn "No tokens were sold - not removing from holdings") s2))).
  { rewrite (copyTrade_from_submission rt options s order s1 Hsub).
    unfold tryCatch, bind. rewrite Hpost. unfold settle. rewrite Hsell, E. reflexivity. }
  split; [exact Hrun |]. split; [reflexivity |].
  rewrite Hrun. cbn. exact Hs2.
Qed.

Lemma nonpositive_sold_quantity_keeps_ledger_witness :
  let rt := Fixture.runtime Fixture.env0
              (Fixture.withPost Fixture.calm (Ok (Some (Fixture.matched None (Some "0"))))) in
  let run := copyTrade rt Fixture.sellTrade (Fixture.start (Fixture.holding 8)) in
  fst run = Ok (filled (Fixture.matched None (Some "0"))
                       (mkOrder "token-1" SELL 8 (Some FAK) None))
  /\ ledger (snd run) = Fixture.holding 8.
Proof.
  intros rt run.
  pose (options := Fixture.sellTrade).
  pose (s := Fixture.start (Fixture.holding 8)).
  pose (order := sellMarketOrder options 8).
  pose (s1 := record (placingSell rt options 8) s).
  pose (s2 := snd (createSimulateAndPost rt order (orderOptionsOf options)
                     (orderTypeOf options) s1)).
  assert (Hsub : submits rt options s order s1).
  { apply (submits_sell rt options s); vm_compute; reflexivity. }
  assert (Hpost : createSimulateAndPost rt order (orderOptionsOf options)
                    (orderTypeOf options) s1
                  = (Ok (Some (Fixture.matched None (Some "0"))), s2))
    by (vm_compute; reflexivity).
  destruct (nonpositive_sold_quantity_keeps_ledger rt options s s1 s2 order
              (Fixture.matched None (Some "0")) eq_refl Hsub Hpost eq_refl)
    as (msg & Hrun & _ & Hledger); [vm_compute; reflexivity |].
  subst run. fold options s. split; [rewrite Hrun; reflexivity | exact Hledger].
Defined.

(** ** C8: a failed approval does not undo the recorded holdings *)

(** C8.  For a BUY whose fill is accepted and records a quantity [q] (exact
    or estimated): the ledger is written first, giving the state [s3] whose
    ledger has gained [q]; everything after it, the approval step included,
    consists of quiet events only (no further ledger write); whatever the
    approval step does, copyTrade returns the successful result and the
    ledger still has the gain.  When approveTokensAfterBuy throws, the
    final state is the one it left, plus the warning and the closing log
    line. *)
Theorem approval_failure_keeps_holdings
    {W : Type} (rt : Runtime W) (options : CopyTradeOptions) (s s1 s2 : State W)
    (order : UserMarketOrder) (r : OrderResponse) (q : float) :
  storeReliable rt ->
  isSell options = false ->
  submits rt options s order s1 ->
  createSimulateAndPost rt order (orderOptionsOf options) (orderTypeOf options) s1
    = (Ok (Some r), s2) ->
  orderFailed (Some r) = false ->
  boughtQuantity rt options order r = Some q ->
  let m := conditionId (trade options) in
  let t := asset (trade options) in
  exists s3 s',
    recordBought rt options order (tokensReceivedOf rt r) s2 = (Ok tt, s3)
    /\ ledger s3 = Ledger.add m t q (ledger s)
    /\ (exists lvl msg,
          trace s3 = (trace s2 ++ [EvCall LedgerWrite (Ok tt); EvLog lvl msg])%list)
    /\ copyTrade rt options s = (Ok (filled r order), s')
    /\ success (filled r order) = true
    /\ ledger s' = Ledger.add m t q (ledger s)
    /\ extendsQuietly (trace s3) s'
    /\ (forall e s4, approveTokensAfterBuy rt s3 = (Throw e, s4) ->
        exists msg, s' = record (EvLog Success msg) (record (approvalFailed e) s4)).
Proof.
  intros Hstore Hbuy Hsub Hpost Hok Hq m t.
  pose proof (posted_ledger rt options s s1 s2 order _ _ Hsub Hpost) as Hs2.
  destruct (settleBuy_accepts rt options order r s2 Hstore Hok)
    as (s3 & s' & E3 & E & Hl & Hquiet & Hthrow).
  destruct (recordBought_run rt options order (tokensReceivedOf rt r) s2 Hstore)
    as (s3' & E3' & _ & Hgot & Hest & _).
  rewrite E3 in E3'. injection E3' as <-.
  assert (Hrec : ledger s3 = Ledger.add m t q (ledger s)
                 /\ exists lvl msg,
                      trace s3 = (trace s2 ++ [EvCall LedgerWrite (Ok tt); EvLog lvl msg])%list).
  { unfold boughtQuantity in Hq. rewrite <- Hs2.
    destruct (PrimFloat.ltb 0 (tokensReceivedOf rt r)) eqn:Hpos.
    - injection Hq as <-. destruct (Hgot eq_refl) as [H1 [msg H2]]. eauto.
    - destruct (PrimFloat.ltb 0 (estimatedTokensOf options order)) eqn:Hpos';
        [| discriminate Hq].
      injection Hq as <-. destruct (Hest eq_refl eq_refl) as [H1 H2]. eauto. }
  destruct Hrec as [Hledger Htrace].
  exists s3, s'. split; [exact E3 |]. split; [exact Hledger |]. split; [exact Htrace |].
  split.
  - rewrite (copyTrade_from_submission rt options s order s1 Hsub).
    unfold tryCatch, bind. rewrite Hpost. unfold settle. rewrite Hbuy, E. reflexivity.
  - split; [reflexivity |]. split; [rewrite Hl; exact Hledger |].
    split; [exact Hquiet | exact Hthrow].
Qed.

Lemma approval_failure_keeps_holdings_witness :
  let rt := Fixture.runtime Fixture.env0
              (Fixture.withChain Fixture.calm (Throw (Js.newError "rpc down"))) in
  exists s',
    copyTrade rt (Fixture.buyTrade 0.5) (Fixture.start ∅)
    = (Ok (filled (Fixture.matched (Some "12.5") (Some "12.5"))
                  (mkOrder "token-1" BUY 5 (Some FAK) None)), s')
    /\ ledger s' = Ledger.add "market-1" "token-1" 12.5 ∅
    /\ In (approvalFailed (Js.newError "rpc down")) (trace s').
Proof.
  intros rt.
  pose (options := Fixture.buyTrade 0.5).
  pose (order := mkOrder "token-1" BUY 5 (Some FAK) None).
  pose (report := mkBalance true 100 5).
  pose (r := Fixture.matched (Some "12.5") (Some "12.5")).
  pose (s := Fixture.start ∅).
  pose (s1 := snd (checkBuyBalance rt options s)).
  pose (s2 := snd (adjustToBalance rt order report s1)).
  pose (s3 := record (placingBuy rt options order) s2).
  pose (s4 := snd (createSimulateAndPost rt order (orderOptionsOf options)
                     (orderTypeOf options) s3)).
  assert (Hstore : storeReliable rt) by (intros w; reflexivity).
  assert (Hsub : submits rt options s order s3).
  { apply (submits_buy rt options s order report order s1 s2);
      vm_compute; reflexivity. }
  assert (Hpost : createSimulateAndPost rt order (orderOptionsOf options)
                    (orderTypeOf options) s3 = (Ok (Some r), s4))
    by (vm_compute; reflexivity).
  assert (Hq : boughtQuantity rt options order r = Some 12.5%float)
    by (vm_compute; reflexivity).
  destruct (approval_failure_keeps_holdings rt options s s3 s4 order r 12.5
              Hstore eq_refl Hsub Hpost eq_refl Hq)
    as (s5 & s' & E5 & _ & _ & Hrun & _ & Hledger & _ & Hthrow).
  exists s'. split; [exact Hrun |]. split; [exact Hledger |].
  assert (Hs5 : s5 = snd (recordBought rt options order (tokensReceivedOf rt r) s4))
    by (rewrite E5; reflexivity).
  destruct (Hthrow (Js.newError "rpc down") (snd (approveTokensAfterBuy rt s5)))
    as [msg ->].
  - apply run_eq. rewrite Hs5. vm_compute. reflexivity.
  - cbn. apply in_or_app. left. apply in_or_app. right. left. reflexivity.
Defined.

(** ** C7: the simulation runs once and never holds an order back *)

Lemma phaseOf_snoc (tr : list Event) (e : Event) :
  phaseOf (tr ++ [e]) = phaseStep (phaseOf tr) e.
Proof. unfold phaseOf. rewrite fold_left_app. reflexivity. Qed.

Lemma phaseStep_offVenue (p : SimPhase) (e : Event) :
  offVenue e = true -> phaseStep p e = p.
Proof.
  unfold offVenue, phaseStep. intros H. apply negb_true_iff in H.
  apply orb_false_elim in H. destruct H as [H Hpost].
  apply orb_false_elim in H. destruct H as [Hwallet Hfetch].
  rewrite Hwallet, Hfetch, Hpost. reflexivity.
Qed.

Lemma simulatedOnce_stable {W : Type} : stable (@simulatedOnce W) offVenue.
Proof.
  intros s e w [Hnt Hfresh] He. unfold simulatedOnce. cbn [trace simulateTxDone].
  rewrite phaseOf_snoc, (phaseStep_offVenue _ e He). split; assumption.
Qed.

Lemma simulatedOnce_ledgerBlind {W : Type} : ledgerBlind (@simulatedOnce W).
Proof. intros s l H. exact H. Qed.

Lemma quiet_offVenue (e : Event) : quiet e = true -> offVenue e = true.
Proof.
  unfold quiet, offVenue. destruct (isCreateOrder e), (isNewWallet e), (isFetch e),
    (isPostOrder e), (isLedgerWrite e); cbn; intros H; try discriminate H; reflexivity.
Qed.

Section OneSimulation.
Context {W : Type} (rt : Runtime W).

Ltac answer_calls :=
  repeat match goal with
         | |- context [ext rt ?c ?w] =>
             let r := fresh "r" in let w' := fresh "w" in
             destruct (ext rt c w) as [[r | r] w']; cbn
         | |- context [if ok ?res then _ else _] => destruct (ok res); cbn
         | |- context [includesEither ?n ?v ?a ?b] =>
             destruct (includesEither n v a b) as [[] | ?]; cbn
         end.

Lemma createSimulateAndPost_simulatedOnce order opts ty :
  preserves simulatedOnce (createSimulateAndPost rt order opts ty).
Proof.
  intros s [Hnt Hfresh].
  unfold createSimulateAndPost, simulateTx, bind, tryCatch, call, log, emit, ret, throw,
    liftResult, getSimulateTxDone, setSimulateTxDone, record, simulatedOnce.
  cbv zeta. cbn.
  destruct (simulateTxDone s) eqn:Hdone; cbn.
  - answer_calls; rewrite ?phaseOf_snoc; cbn; rewrite ?phaseOf_snoc; cbn;
      (split; [exact Hnt | intros Habs; try discriminate Habs; auto]).
  - specialize (Hfresh eq_refl).
    answer_calls; rewrite ?phaseOf_snoc; cbn; rewrite ?phaseOf_snoc; cbn;
      rewrite ?Hfresh; cbn;
      (split; [reflexivity | intros Habs; try discriminate Habs; auto]).
Qed.

(** Whatever the simulation does, an order that was created is posted: the
    last thing createSimulateAndPost does is the postOrder call. *)
Lemma createSimulateAndPost_posts order opts ty (s : State W) signed w' :
  ext rt (CreateMarketOrder order opts) (world s) = (Ok signed, w') ->
  exists before out,
    trace (snd (createSimulateAndPost rt order opts ty s))
    = (before ++ [EvCall (PostOrder signed ty) out])%list
    /\ exists evs, before = (trace s ++ evs)%list.
Proof.
  intros Hcreate.
  unfold createSimulateAndPost, simulateTx, bind, tryCatch, call, log, emit, ret, throw,
    liftResult, getSimulateTxDone, setSimulateTxDone, record.
  cbv zeta. cbn. rewrite Hcreate. cbn.
  destruct (simulateTxDone s); cbn; answer_calls;
    (eexists; eexists; split; [reflexivity |]);
    rewrite <- ?app_assoc; eexists; reflexivity.
Qed.

Lemma copyTrade_simulatedOnce options :
  preserves simulatedOnce (copyTrade rt options).
Proof.
  pose proof (@simulatedOnce_stable W) as Hst.
  pose proof (@simulatedOnce_ledgerBlind W) as Hl.
  assert (Hq : stable (@simulatedOnce W) quiet)
    by (apply (stable_weaken _ offVenue); [apply quiet_offVenue | exact Hst]).
  unfold copyTrade. apply preserves_tryCatch.
  - destruct (isSell options).
    + unfold copyTradeSell. cbv zeta.
      apply preserves_bind; [apply preserves_getHoldings |]. intros held.
      destruct (PrimFloat.leb held 0); [keep offVenue |].
      apply preserves_bind; [keep offVenue |]. intros _.
      apply preserves_bind; [apply createSimulateAndPost_simulatedOnce |]. intros response.
      unfold settleSell, recordSold, removeHoldings, log. keep offVenue.
    + unfold copyTradeBuy.
      apply preserves_bind; [apply checkBuyBalance_preserves; exact Hq |]. intros checked.
      apply preserves_bind; [apply adjustToBalance_preserves; exact Hq |]. intros adjusted.
      destruct adjusted as [result | marketOrder]; [apply preserves_ret |].
      unfold submitBuy. cbv zeta.
      apply preserves_bind; [keep offVenue |]. intros _.
      apply preserves_bind; [apply createSimulateAndPost_simulatedOnce |]. intros response.
      unfold settleBuy. cbv zeta.
      destruct response as [r |]; [| apply preserves_ret].
      destruct (orderFailed (Some r)); [apply preserves_ret |].
      apply preserves_bind; [unfold recordBought, addHoldings, log; keep offVenue |]. intros _.
      apply preserves_bind.
      { apply preserves_tryCatch; [apply approveTokensAfterBuy_preserves; exact Hq |].
        intros e. keep offVenue. }
      intros _. unfold log. keep offVenue.
  - intros e. unfold copyTradeCatch, log. keep offVenue.
Qed.

Lemma placeMarket_simulatedOnce sd tokenID amount options :
  preserves simulatedOnce (placeMarket rt sd tokenID amount options).
Proof.
  unfold placeMarket. cbv zeta. apply preserves_tryCatch.
  - apply preserves_bind; [apply createSimulateAndPost_simulatedOnce |].
    intros [r |]; [apply preserves_ret | apply preserves_throw].
  - intros e. apply preserves_ret.
Qed.

Lemma runCalls_simulatedOnce calls :
  forall s : State W, simulatedOnce s -> simulatedOnce (runCalls rt calls s).
Proof.
  induction calls as [| c rest IH]; intros s H; cbn [runCalls]; [exact H |].
  apply IH. destruct c as [o | t a o | t a o]; cbn [runCall].
  - apply copyTrade_simulatedOnce. exact H.
  - apply placeMarket_simulatedOnce. exact H.
  - apply placeMarket_simulatedOnce. exact H.
Qed.

End OneSimulation.

Lemma filter_snoc {A : Type} (f : A -> bool) (l : list A) (x : A) :
  List.filter f (l ++ [x]) = (List.filter f l ++ (if f x then [x] else []))%list.
Proof. rewrite List.filter_app. reflexivity. Qed.

(** What an untripped monitor means for a trace. *)
Lemma untripped_trace (tr : list Event) :
  tripped (phaseOf tr) = false ->
  (walletSeen (phaseOf tr) = false -> List.filter isNewWallet tr = [])
  /\ (fetchSeen (phaseOf tr) = false -> List.filter isFetch tr = [])
  /\ (postSeen (phaseOf tr) = false -> List.filter isPostOrder tr = [])
  /\ length (List.filter isNewWallet tr) <= 1
  /\ length (List.filter isFetch tr) <= 1
  /\ (forall pre e post,
        tr = (pre ++ e :: post)%list -> isNewWallet e || isFetch e = true ->
        List.filter isPostOrder pre = []).
Proof.
  induction tr as [| x tr IH] using rev_ind.
  - intros _. repeat split; auto.
    intros pre e post H. destruct pre; discriminate H.
  - rewrite phaseOf_snoc. rewrite !filter_snoc. rewrite !length_app.
    set (p := phaseOf tr) in *.
    intros Hnt.
    assert (Hp : tripped p = false).
    { unfold phaseStep in Hnt.
      destruct (isNewWallet x); [| destruct (isFetch x); [| destruct (isPostOrder x)]];
        cbn in Hnt; try exact Hnt;
        apply orb_false_elim in Hnt; destruct Hnt as [Hnt _];
        apply orb_false_elim in Hnt; destruct Hnt as [Hnt _]; exact Hnt. }
    destruct (IH Hp) as (Hw & Hf & Hpo & Hlw & Hlf & Hord).
    assert (Hsplit : forall pre e post,
              (tr ++ [x])%list = (pre ++ e :: post)%list ->
              (post = [] /\ pre = tr /\ e = x)
              \/ exists post', post = (post' ++ [x])%list /\ tr = (pre ++ e :: post')%list).
    { intros pre e post H. destruct post as [| y post'] using rev_ind.
      - left. apply app_inj_tail in H. destruct H as [-> ->]. auto.
      - right. exists post'. clear IHpost'.
        change (pre ++ e :: post' ++ [y])%list with (pre ++ (e :: post') ++ [y])%list in H.
        rewrite app_assoc in H. apply app_inj_tail in H. destruct H as [-> ->]. auto. }
    unfold phaseStep in *.
    destruct x as [A c r | lvl msg]; [destruct c |]; cbn in *;
      repeat match goal with
             | H : _ || _ = false |- _ =>
                 apply orb_false_elim in H; destruct H
             end;
      rewrite ?app_nil_r, ?Nat.add_0_r;
      (repeat split;
       [ try (intros Hx; try discriminate Hx; auto)
       | try (intros Hx; try discriminate Hx; auto)
       | try (intros Hx; try discriminate Hx; auto)
       | try solve [auto | rewrite Hw by assumption; cbn; lia]
       | try solve [auto | rewrite Hf by assumption; cbn; lia]
       | intros pre e post Heq He;
         destruct (Hsplit pre e post Heq) as [(-> & -> & ->) | (post' & -> & Htr)];
         [ try discriminate He; auto | eapply Hord; eauto ] ]).
Qed.

(** C7.  On one builder, through any sequence of copyTrade, placeMarketBuy
    and placeMarketSell calls: the guarded simulation block is entered at
    most once and the simulate request goes out at most once; whenever
    either happens no order has been posted yet; and in
    createSimulateAndPost an order that was created is always posted, as the
    last step, whatever the simulation did (threw, answered false or was
    skipped). *)
Theorem simulation_once_and_never_gating {W : Type} (rt : Runtime W) :
  (forall (calls : list BuilderCall) (l : gmap (string * string) float) (w : W),
     let tr := trace (runCalls rt calls (freshBuilder l w)) in
     length (List.filter isNewWallet tr) <= 1
     /\ length (List.filter isFetch tr) <= 1
     /\ (forall pre e post,
           tr = (pre ++ e :: post)%list -> isNewWallet e || isFetch e = true ->
           List.filter isPostOrder pre = []))
  /\ (forall order opts ty (s : State W) signed w',
        ext rt (CreateMarketOrder order opts) (world s) = (Ok signed, w') ->
        exists before out,
          trace (snd (createSimulateAndPost rt order opts ty s))
          = (before ++ [EvCall (PostOrder signed ty) out])%list
          /\ exists evs, before = (trace s ++ evs)%list).
Proof.
  split.
  - intros calls l w tr.
    assert (H : simulatedOnce (runCalls rt calls (freshBuilder l w))).
    { apply runCalls_simulatedOnce. split; [reflexivity | intros _; reflexivity]. }
    destruct H as [Hnt _].
    destruct (untripped_trace tr Hnt) as (_ & _ & _ & Hw & Hf & Hord). auto.
  - intros order opts ty s signed w' Hcreate.
    exact (createSimulateAndPost_posts rt order opts ty s signed w' Hcreate).
Qed.

Lemma simulation_once_and_never_gating_witness :
  let rt := Fixture.runtime Fixture.env0
              (Fixture.withFetch Fixture.calm (Throw (Js.newError "fetch failed"))) in
  let order := mkOrder "token-1" BUY 5 (Some FAK) None in
  let opts := mkOrderOptions "0.01" false in
  let tr := trace (runCalls rt [DoCopyTrade (Fixture.buyTrade 0.5);
                                DoCopyTrade Fixture.sellTrade;
                                DoPlaceMarketBuy "token-1" 5 None]
                     (freshBuilder ∅ 0%nat)) in
  length (List.filter isFetch tr) <= 1
  /\ exists before out,
       trace (snd (createSimulateAndPost rt order opts FAK (Fixture.start ∅)))
       = (before ++ [EvCall (PostOrder (mkSigned order "0xsig") FAK) out])%list.
Proof.
  intros rt order opts tr.
  destruct (simulation_once_and_never_gating rt) as [Honce Hposts].
  split.
  - apply (Honce _ ∅ 0%nat).
  - destruct (Hposts order opts FAK (Fixture.start ∅) (mkSigned order "0xsig") 1%nat eq_refl)
      as (before & out & Htrace & _).
    exists before, out. exact Htrace.
Defined.

(** ** C9: RPC endpoints are tried in order *)

Lemma uniqFrom_fresh (l seen : list string) (x : string) :
  x ∈ Js.uniqFrom seen l -> x ∉ seen.
Proof.
  revert seen. induction l as [| y l IH]; intros seen; cbn.
  - intros H. inversion H.
  - destruct (bool_decide (y ∈ seen)) eqn:E.
    + apply IH.
    + apply bool_decide_eq_false in E. intros H.
      apply elem_of_cons in H. destruct H as [-> | H]; [exact E |].
      apply IH in H. intros Hin. apply H. apply elem_of_cons. right. exact Hin.
Qed.

Lemma uniqFrom_NoDup (l seen : list string) : NoDup (Js.uniqFrom seen l).
Proof.
  revert seen. induction l as [| y l IH]; intros seen; cbn.
  - constructor.
  - destruct (bool_decide (y ∈ seen)); [apply IH |].
    constructor; [| apply IH].
    intros H. apply uniqFrom_fresh in H. apply H. apply elem_of_cons. left. reflexivity.
Qed.

Lemma uniq_head (x : string) (l : list string) : head (Js.uniq (x :: l)) = Some x.
Proof. reflexivity. Qed.

Lemma candidates_deduplicated {W : Type} (rt : Runtime W) (chainId : float) cands :
  getRpcCandidates rt chainId = Ok cands ->
  NoDup cands
  /\ (Js.truthy_opt (RPC_URL (env rt)) = true -> head cands = RPC_URL (env rt)).
Proof.
  unfold getRpcCandidates.
  destruct (PrimFloat.eqb chainId 137); [| destruct (PrimFloat.eqb chainId 80002)];
    intros H; try discriminate H; injection H as <-;
    (split; [apply uniqFrom_NoDup |]);
    intros Hurl; rewrite Hurl;
    destruct (RPC_URL (env rt)) as [url |]; try discriminate Hurl;
    destruct (Js.truthy_opt (RPC_TOKEN (env rt))); reflexivity.
Qed.

Section Fallback.
Context {W : Type} (rt : Runtime W).

Lemma probe_trace url (s : State W) :
  exists out, trace (snd (probe rt url s)) = (trace s ++ [EvCall (GetNetwork url) out])%list.
Proof.
  unfold probe, bind, call, liftResult.
  destruct (ext rt (GetNetwork url) (world s)) as [[p | e] w']; cbn; eauto.
Qed.

Lemma allFail_probed urls (s : State W) lines s1 :
  allFail rt urls s lines s1 ->
  length lines = length urls
  /\ Forall2 (fun url line => exists e, line = url +:+ " -> " +:+ Js.errText e) urls lines
  /\ exists evs, trace s1 = (trace s ++ evs)%list /\ probed evs = urls.
Proof.
  induction 1 as [s | url rest s s1 s2 e lines Hprobe Hrest (Hlen & Hlines & evs & Htr & Hpr)].
  - repeat split; [constructor |]. exists []. rewrite app_nil_r. auto.
  - split; [cbn; rewrite Hlen; reflexivity |].
    split; [constructor; [eauto | exact Hlines] |].
    destruct (probe_trace url s) as [out Hout]. rewrite Hprobe in Hout. cbn in Hout.
    exists (EvCall (GetNetwork url) out :: evs). split.
    + rewrite Htr, Hout, <- app_assoc. reflexivity.
    + unfold probed in *. cbn. rewrite Hpr. reflexivity.
Qed.

Lemma tryCandidates_all_fail chainId cands (s : State W) lines s1 :
  allFail rt cands s lines s1 ->
  forall errors,
    tryCandidates rt chainId cands errors s
    = (Throw (allFailed rt chainId (errors ++ lines)), s1).
Proof.
  induction 1 as [s | url rest s s1 s2 e lines Hprobe Hrest IH]; intros errors.
  - cbn. rewrite app_nil_r. reflexivity.
  - cbn [tryCandidates]. unfold bind, tryCatch. rewrite Hprobe. cbn.
    rewrite IH, <- app_assoc. reflexivity.
Qed.

Lemma tryCandidates_first_working chainId pre url post (s : State W) lines s1 s2 :
  allFail rt pre s lines s1 ->
  probe rt url s1 = (Ok tt, s2) ->
  forall errors,
    tryCandidates rt chainId (pre ++ url :: post) errors s = (Ok url, s2).
Proof.
  induction 1 as [s | u rest s s1 s1' e lines Hprobe Hrest IH]; intros Hok errors.
  - cbn [app tryCandidates]. unfold bind, tryCatch. rewrite Hok. reflexivity.
  - cbn [app tryCandidates]. unfold bind, tryCatch. rewrite Hprobe. cbn.
    apply IH. exact Hok.
Qed.

End Fallback.

Lemma append_assoc (a b c : string) : (a +:+ b) +:+ c = a +:+ (b +:+ c).
Proof.
  induction a as [| x a IH]; [reflexivity |].
  change (String x ((a +:+ b) +:+ c) = String x (a +:+ (b +:+ c))).
  rewrite IH. reflexivity.
Qed.

Lemma append_empty (a : string) : a +:+ "" = a.
Proof.
  induction a as [| x a IH]; [reflexivity |].
  change (String x (a +:+ "") = String x a). rewrite IH. reflexivity.
Qed.

Lemma prefix_append (x rest : string) : String.prefix x (x +:+ rest) = true.
Proof.
  induction x as [| c x IH]; [destruct rest; reflexivity |].
  change (String.prefix (String c x) (String c (x +:+ rest)) = true).
  cbn [String.prefix].
  destruct (ascii_dec c c) as [_ | Hne]; [exact IH | contradiction Hne; reflexivity].
Qed.

(** A string occurs in whatever is written around it. *)
Lemma includes_infix (pre x post : string) : Js.includes (pre +:+ x +:+ post) x = true.
Proof.
  induction pre as [| c pre IH].
  - change ("" +:+ x +:+ post) with (x +:+ post).
    destruct (x +:+ post) eqn:E; cbn [Js.includes]; rewrite <- E, prefix_append; reflexivity.
  - change (String c pre +:+ x +:+ post) with (String c (pre +:+ x +:+ post)).
    cbn [Js.includes]. rewrite IH. apply orb_true_r.
Qed.

Lemma join_infix (sep line : string) (lines : list string) :
  In line lines -> exists pre post, Js.join sep lines = pre +:+ line +:+ post.
Proof.
  induction lines as [| x rest IH]; intros Hin; [destruct Hin |].
  destruct Hin as [-> | Hin].
  - destruct rest as [| y rest'].
    + exists "", "". cbn. rewrite append_empty. reflexivity.
    + exists "", (sep +:+ Js.join sep (y :: rest')). reflexivity.
  - destruct rest as [| y rest']; [destruct Hin |].
    destruct (IH Hin) as (pre & post & E).
    exists (x +:+ sep +:+ pre), post.
    change (Js.join sep (x :: y :: rest')) with (x +:+ sep +:+ Js.join sep (y :: rest')).
    rewrite E, !append_assoc. reflexivity.
Qed.

(** The error thrown when every endpoint failed names every attempt. *)
Lemma allFailed_lists {W : Type} (rt : Runtime W) (chainId : float) (lines : list string) :
  Forall (fun line => Js.includes (Js.errText (allFailed rt chainId lines)) line = true) lines.
Proof.
  apply List.Forall_forall. intros line Hin.
  destruct (join_infix (nl +:+ "- ") line lines Hin) as (pre & post & E).
  unfold allFailed, Js.errText, Js.errValue, Js.newError. cbn [Js.isError Js.message Js.show].
  rewrite E, <- !append_assoc. rewrite (append_assoc _ line post). apply includes_infix.
Qed.

(** C9.  getRpcCandidates yields a duplicate-free list headed by RPC_URL
    when it is set.  getWorkingProvider walks that list in order: when the
    endpoints of [pre] all fail and the next one connects, it returns that
    one, having probed exactly [pre] and it, in order, and nothing after it;
    when every endpoint fails it throws the error "Could not connect to any
    RPC endpoint ...", whose message contains one line per endpoint, in
    order, each naming the endpoint and its failure.  An endpoint connects
    exactly when its getNetwork resolves within 7000 ms; it fails with the
    call's own error when getNetwork throws or rejects sooner, and with
    "timeout" when getNetwork hangs or settles only after 7000 ms: any of
    these failures moves the search to the next endpoint. *)
Theorem rpc_fallback_in_order {W : Type} (rt : Runtime W) (chainId : float) :
  (forall cands,
     getRpcCandidates rt chainId = Ok cands ->
     NoDup cands
     /\ (Js.truthy_opt (RPC_URL (env rt)) = true -> head cands = RPC_URL (env rt))
     /\ forall s, getWorkingProvider rt chainId s = tryCandidates rt chainId cands [] s)
  /\ (forall pre url post (s s1 s2 : State W) lines,
        allFail rt pre s lines s1 ->
        probe rt url s1 = (Ok tt, s2) ->
        tryCandidates rt chainId (pre ++ url :: post) [] s = (Ok url, s2)
        /\ exists evs, trace s2 = (trace s ++ evs)%list /\ probed evs = (pre ++ [url])%list)
  /\ (forall cands (s s1 : State W) lines,
        allFail rt cands s lines s1 ->
        exists thrown,
          tryCandidates rt chainId cands [] s = (Throw thrown, s1)
          /\ Js.errText thrown =
             "Could not connect to any RPC endpoint for chainId=" +:+ numToString rt chainId +:+
             ". Set RPC_URL in .env. Attempts:" +:+ nl +:+ "- " +:+
             Js.join (nl +:+ "- ") lines
          /\ Forall (fun line => Js.includes (Js.errText thrown) line = true) lines
          /\ Forall2 (fun url line => exists e, line = url +:+ " -> " +:+ Js.errText e)
                     cands lines
          /\ exists evs, trace s1 = (trace s ++ evs)%list /\ probed evs = cands)
  /\ (forall url (s : State W),
        fst (probe rt url s) =
        match fst (ext rt (GetNetwork url) (world s)) with
        | Ok (Resolves ms) =>
            if (ms <? 7000)%N then Ok tt else Throw (Js.newError "timeout")
        | Ok (Rejects ms e) =>
            if (ms <? 7000)%N then Throw e else Throw (Js.newError "timeout")
        | Ok Hangs => Throw (Js.newError "timeout")
        | Throw e => Throw e
        end)
  /\ (forall url rest errors (s s1 : State W) e,
        probe rt url s = (Throw e, s1) ->
        tryCandidates rt chainId (url :: rest) errors s
        = tryCandidates rt chainId rest (errors ++ [url +:+ " -> " +:+ Js.errText e]) s1).
Proof.
  split; [| split; [| split; [| split]]].
  - intros cands Hc. destruct (candidates_deduplicated rt chainId cands Hc) as [Hnd Hhead].
    split; [exact Hnd |]. split; [exact Hhead |].
    intros s. unfold getWorkingProvider, bind, liftResult. rewrite Hc. reflexivity.
  - intros pre url post s s1 s2 lines Hfail Hok.
    split; [exact (tryCandidates_first_working rt chainId pre url post s lines s1 s2 Hfail Hok []) |].
    destruct (allFail_probed rt pre s lines s1 Hfail) as (_ & _ & evs & Htr & Hpr).
    destruct (probe_trace rt url s1) as [out Hout]. rewrite Hok in Hout. cbn in Hout.
    exists (evs ++ [EvCall (GetNetwork url) out])%list. split.
    + rewrite Hout, Htr, <- app_assoc. reflexivity.
    + unfold probed in *. rewrite omap_app, Hpr. reflexivity.
  - intros cands s s1 lines Hfail.
    exists (allFailed rt chainId lines).
    split; [exact (tryCandidates_all_fail rt chainId cands s lines s1 Hfail []) |].
    split; [reflexivity |].
    split; [apply allFailed_lists |].
    destruct (allFail_probed rt cands s lines s1 Hfail) as (_ & Hlines & Hevs). auto.
  - intros url s. unfold probe, bind, call, liftResult.
    destruct (ext rt (GetNetwork url) (world s)) as [[[ms | ms e |] | e] w']; cbn;
      try destruct (ms <? 7000)%N; reflexivity.
  - intros url rest errors s s1 e Hprobe.
    cbn [tryCandidates]. unfold bind, tryCatch. rewrite Hprobe. reflexivity.
Qed.

Lemma rpc_fallback_in_order_witness :
  let e := mkEnv None (Some "0xkey") (Some "https://my-rpc.example") None None None in
  let net := fun url : string =>
               if String.eqb url "https://my-rpc.example"
               then Ok (Rejects 12 (Js.newError "ECONNREFUSED"))
               else if String.eqb url "https://polygon-rpc.com" then Ok (Resolves 9000)
               else Ok (Resolves 40) in
  let rt := Fixture.runtime e (Fixture.withNetwork Fixture.calm net) in
  fst (getWorkingProvider rt 137 (Fixture.start ∅)) = Ok "https://rpc.ankr.com/polygon"
  /\ probed (trace (snd (getWorkingProvider rt 137 (Fixture.start ∅))))
     = ["https://my-rpc.example"; "https://polygon-rpc.com"; "https://rpc.ankr.com/polygon"].
Proof.
  intros e net rt.
  destruct (rpc_fallback_in_order rt 137) as (Hcands & Hfirst & _).
  pose (cands := ["https://my-rpc.example"; "https://polygon-rpc.com";
                  "https://rpc.ankr.com/polygon"; "https://polygon.llamarpc.com";
                  "https://rpc-mainnet.matic.quiknode.pro"]).
  destruct (Hcands cands eq_refl) as (_ & _ & Hrun).
  pose (s := Fixture.start ∅).
  pose (s1 := snd (probe rt "https://my-rpc.example" s)).
  pose (s2 := snd (probe rt "https://polygon-rpc.com" s1)).
  pose (s3 := snd (probe rt "https://rpc.ankr.com/polygon" s2)).
  assert (Hfail : allFail rt ["https://my-rpc.example"; "https://polygon-rpc.com"] s
                    ["https://my-rpc.example" +:+ " -> " +:+
                       Js.errText (Js.newError "ECONNREFUSED");
                     "https://polygon-rpc.com" +:+ " -> " +:+ Js.errText (Js.newError "timeout")]
                    s2).
  { apply (allFail_cons rt _ _ s s1 s2); [vm_compute; reflexivity |].
    apply (allFail_cons rt _ _ s1 s2 s2); [vm_compute; reflexivity |].
    apply allFail_nil. }
  assert (Hok : probe rt "https://rpc.ankr.com/polygon" s2 = (Ok tt, s3))
    by (vm_compute; reflexivity).
  destruct (Hfirst _ _ ["https://polygon.llamarpc.com"; "https://rpc-mainnet.matic.quiknode.pro"]
              s s2 s3 _ Hfail Hok) as [Hres (evs & Htr & Hpr)].
  fold s. rewrite Hrun. unfold cands.
  change (["https://my-rpc.example"; "https://polygon-rpc.com";
           "https://rpc.ankr.com/polygon"; "https://polygon.llamarpc.com";
           "https://rpc-mainnet.matic.quiknode.pro"])
    with (["https://my-rpc.example"; "https://polygon-rpc.com"] ++
          "https://rpc.ankr.com/polygon" ::
          ["https://polygon.llamarpc.com"; "https://rpc-mainnet.matic.quiknode.pro"])%list.
  rewrite Hres. split; [reflexivity |]. cbn [snd]. rewrite Htr. cbn. exact Hpr.
Defined.

(** ** C10: when copyTrade returns a result *)

Section Shape.
Context {W : Type} (P : CopyTradeResult -> Prop).

Lemma returnsOnly_ret (a : CopyTradeResult) : P a -> returnsOnly P (@ret W _ a).
Proof. intros H s a' s' E. injection E as <- <-. exact H. Qed.

Lemma returnsOnly_bind {A} (m : M W A) (k : A -> M W CopyTradeResult) :
  (forall a, returnsOnly P (k a)) -> returnsOnly P (bind m k).
Proof.
  intros Hk s a s' E. unfold bind in E.
  destruct (m s) as [[x | e] s1]; [exact (Hk x s1 a s' E) | discriminate E].
Qed.

End Shape.

Lemma accepted_has_orderID (r : OrderResponse) :
  orderFailed (Some r) = false -> Js.truthy_opt (orderID r) = true.
Proof.
  unfold orderFailed. intros H. apply orb_false_elim in H. destruct H as [H _].
  apply negb_false_iff in H. exact H.
Qed.

Section Total.
Context {W : Type} (rt : Runtime W).

Lemma settleSell_shaped (m t : string) (amt : float) order response :
  returnsOnly shaped (settleSell rt m t amt order response).
Proof.
  unfold settleSell. cbv zeta. destruct response as [r |].
  - destruct (orderFailed (Some r)) eqn:E; [apply returnsOnly_ret; reflexivity |].
    apply returnsOnly_bind. intros _. apply returnsOnly_bind. intros _.
    apply returnsOnly_ret. apply (accepted_has_orderID r E).
  - apply returnsOnly_ret. reflexivity.
Qed.

Lemma settleBuy_shaped options order response :
  returnsOnly shaped (settleBuy rt options order response).
Proof.
  unfold settleBuy. cbv zeta. destruct response as [r |].
  - destruct (orderFailed (Some r)) eqn:E; [apply returnsOnly_ret; reflexivity |].
    apply returnsOnly_bind. intros _. apply returnsOnly_bind. intros _.
    apply returnsOnly_bind. intros _.
    apply returnsOnly_ret. apply (accepted_has_orderID r E).
  - apply returnsOnly_ret. reflexivity.
Qed.

Lemma copyTradeSell_shaped options : returnsOnly shaped (copyTradeSell rt options).
Proof.
  unfold copyTradeSell. cbv zeta. apply returnsOnly_bind. intros held.
  destruct (PrimFloat.leb held 0).
  - apply returnsOnly_bind. intros _. apply returnsOnly_ret. reflexivity.
  - apply returnsOnly_bind. intros _. apply returnsOnly_bind. intros response.
    apply settleSell_shaped.
Qed.

Lemma copyTradeBuy_shaped options : returnsOnly shaped (copyTradeBuy rt options).
Proof.
  unfold copyTradeBuy. apply returnsOnly_bind. intros checked.
  intros s a s' E. unfold bind in E.
  destruct (adjustToBalance rt checked.1 checked.2 s) as [[[res | order] | e] s1] eqn:Hadj;
    [| | discriminate E].
  - injection E as <- <-.
    unfold adjustToBalance, bind, emit, ret in Hadj.
    destruct (negb (valid checked.2)); [| discriminate Hadj].
    destruct (PrimFloat.leb (available checked.2) 0); [| discriminate Hadj].
    injection Hadj as <- _. reflexivity.
  - revert E. unfold submitBuy. cbv zeta.
    apply returnsOnly_bind. intros _. apply returnsOnly_bind. intros response.
    apply settleBuy_shaped.
Qed.

End Total.

Section Thrown.
Context {W : Type} (rt : Runtime W) (P : Js.Exn -> Prop).

Lemma throwsOnly_ret {A} (a : A) : throwsOnly P (@ret W A a).
Proof. intros s e s' H. discriminate H. Qed.

Lemma throwsOnly_throw {A} (e : Js.Exn) : P e -> throwsOnly P (@throw W A e).
Proof. intros H s e' s' E. injection E as <- _. exact H. Qed.

Lemma throwsOnly_liftResult {A} (r : Result A) :
  (forall e, r = Throw e -> P e) -> throwsOnly P (@liftResult W A r).
Proof. intros H s e s' E. injection E as -> _. apply H. reflexivity. Qed.

Lemma throwsOnly_emit (ev : Event) : throwsOnly P (@emit W ev).
Proof. intros s e s' H. discriminate H. Qed.

Lemma throwsOnly_getHoldings (m t : string) : throwsOnly P (@getHoldings W m t).
Proof. intros s e s' H. discriminate H. Qed.

Lemma throwsOnly_modifyLedger f : throwsOnly P (@modifyLedger W f).
Proof. intros s e s' H. discriminate H. Qed.

Lemma throwsOnly_getSimulateTxDone : throwsOnly P (@getSimulateTxDone W).
Proof. intros s e s' H. discriminate H. Qed.

Lemma throwsOnly_setSimulateTxDone b : throwsOnly P (@setSimulateTxDone W b).
Proof. intros s e s' H. discriminate H. Qed.

Lemma throwsOnly_bind {A B} (m : M W A) (k : A -> M W B) :
  throwsOnly P m -> (forall a, throwsOnly P (k a)) -> throwsOnly P (bind m k).
Proof.
  intros Hm Hk s e s' E. unfold bind in E.
  destruct (m s) as [[a | e1] s1] eqn:Em.
  - exact (Hk a s1 e s' E).
  - injection E as <- <-. exact (Hm s e1 s1 Em).
Qed.

Lemma throwsOnly_tryCatch {A} (Q : Js.Exn -> Prop) (m : M W A) (h : Js.Exn -> M W A) :
  throwsOnly Q m -> (forall e, Q e -> throwsOnly P (h e)) -> throwsOnly P (tryCatch m h).
Proof.
  intros Hm Hh s e s' E. unfold tryCatch in E.
  destruct (m s) as [[a | e1] s1] eqn:Em; [discriminate E |].
  exact (Hh e1 (Hm s e1 s1 Em) s1 e s' E).
Qed.

Lemma throwsOnly_any {A} (m : M W A) : throwsOnly (fun _ => True) m.
Proof. intros s e s' _. exact I. Qed.

Lemma throwsOnly_call {A} (c : Call A) :
  (forall w e, fst (ext rt c w) = Throw e -> P e) -> throwsOnly P (call rt c).
Proof.
  intros H s e s'. unfold call. specialize (H (world s)).
  destruct (ext rt c (world s)) as [r w']. intros E. injection E as -> _.
  apply H. reflexivity.
Qed.

End Thrown.

Lemma newError_stringly (msg : string) : stringly (Js.newError msg).
Proof. exists msg. reflexivity. Qed.

Lemma includesEither_stringly (name : string) (v : Js.Val) (a b : string) (e : Js.Exn) :
  includesEither name v a b = Throw e -> stringly e.
Proof.
  unfold includesEither, includesOn. destruct v as [hay | truthy shown].
  - destruct (Js.includes hay a); intros H; discriminate H.
  - intros H. injection H as <-. unfold Js.notIncludable.
    destruct (String.eqb _ "undefined" || String.eqb _ "null"); eexists; reflexivity.
Qed.

Section WhatIsThrown.
Context {W : Type} (rt : Runtime W) (strings : stringErrors rt).

Ltac thrown_step :=
  first
    [ apply throwsOnly_ret
    | apply throwsOnly_emit
    | apply throwsOnly_getHoldings
    | apply throwsOnly_modifyLedger
    | apply throwsOnly_getSimulateTxDone
    | apply throwsOnly_setSimulateTxDone
    | apply throwsOnly_throw; first [ assumption | apply newError_stringly ]
    | apply throwsOnly_liftResult; intros ? ?;
      first [ eapply includesEither_stringly; eassumption
            | eapply (proj2 strings); eassumption ]
    | apply throwsOnly_call; intros ? ? ?; eapply (proj1 strings); eassumption
    | apply throwsOnly_bind; [ | intros ? ]
    | apply (throwsOnly_tryCatch stringly stringly); [ | intros ? ? ]
    | match goal with
      | |- throwsOnly _ (if ?b then _ else _) => destruct b
      | |- throwsOnly _ (match ?x with _ => _ end) => destruct x
      end ].

Lemma createSimulateAndPost_throws order opts ty :
  throwsOnly stringly (createSimulateAndPost rt order opts ty).
Proof.
  unfold createSimulateAndPost, simulateTx, log. cbv zeta. repeat thrown_step.
Qed.

Lemma copyTradeTry_throws options : throwsOnly stringly (copyTradeTry rt options).
Proof.
  unfold copyTradeTry, copyTradeSell, copyTradeBuy, submitBuy, settleSell, settleBuy,
    recordSold, recordBought, addHoldings, removeHoldings, checkBuyBalance, adjustToBalance,
    log.
  cbv zeta.
  repeat first
    [ apply createSimulateAndPost_throws
    | apply (throwsOnly_tryCatch stringly (fun _ => True));
        [ apply throwsOnly_any | intros ? _ ]
    | thrown_step ].
Qed.

End WhatIsThrown.

(** An order the client refuses to create for want of allowance: the catch
    block shows the balance, refreshes the allowance and returns the
    failure. *)
Example copyTrade_catches_allowance_error :
  let rt := Fixture.runtime Fixture.env0
              (Fixture.withCreateOrder Fixture.calm
                 (Throw (Js.newError "not enough balance / allowance"))) in
  let run := copyTrade rt Fixture.sellTrade (Fixture.start (Fixture.holding 8)) in
  fst run = Ok (failure "not enough balance / allowance")
  /\ ledger (snd run) = Fixture.holding 8
  /\ List.filter isPostOrder (trace (snd run)) = []
  /\ length (trace (snd run)) = 10.
Proof. vm_compute. repeat split; reflexivity. Qed.

(** A balance check that fails with an Error whose message is the number
    503 rather than a string: the catch block of copyTrade calls
    errorMessage.includes on it, and copyTrade throws. *)
Lemma copyTrade_throws_counterexample :
  let failing := Js.mkExn true Js.undefined (Js.NotStr true "503") Js.undefined "Error: 503" in
  let rt := Fixture.runtime Fixture.env0
              (Fixture.withBalance Fixture.calm (fun _ => Throw failing)) in
  fst (copyTrade rt (Fixture.buyTrade 0.5) (Fixture.start ∅))
  = Throw (Js.typeError "errorMessage.includes is not a function")
  /\ ~ exists res s', copyTrade rt (Fixture.buyTrade 0.5) (Fixture.start ∅) = (Ok res, s').
Proof.
  intros failing rt. split; [vm_compute; reflexivity |].
  intros (res & s' & H).
  assert (Hthrow : fst (copyTrade rt (Fixture.buyTrade 0.5) (Fixture.start ∅))
                   = Throw (Js.typeError "errorMessage.includes is not a function"))
    by (vm_compute; reflexivity).
  rewrite H in Hthrow. discriminate Hthrow.
Qed.

(** C10 (amended).  From every state and for every trade: when whatever
    the collaborators throw is an Error with a string message (as the type
    of Error declares) or not an Error at all, copyTrade returns a
    CopyTradeResult and does not throw, whichever collaborator throws, the
    ledger write included; the result is well formed: a success carries the
    order id, a failure carries an error message.  In general copyTrade
    throws only in one way: an Error whose message is not a string reached
    its catch block, and what copyTrade throws is the TypeError of
    errorMessage.includes. *)
Theorem copyTrade_always_returns
    {W : Type} (rt : Runtime W) (options : CopyTradeOptions) (s : State W) :
  (stringErrors rt ->
   exists res s', copyTrade rt options s = (Ok res, s') /\ wellFormed res = true)
  /\ (forall e s',
        copyTrade rt options s = (Throw e, s') ->
        exists caught truthy shown,
          copyTradeTry rt options s = (Throw caught, s')
          /\ Js.isError caught = true
          /\ Js.message caught = Js.NotStr truthy shown
          /\ e = Js.notIncludable "errorMessage" (Js.NotStr truthy shown)).
Proof.
  split.
  - intros Hstrings. unfold copyTrade, tryCatch.
    change (if isSell options then copyTradeSell rt options else copyTradeBuy rt options)
      with (copyTradeTry rt options).
    destruct (copyTradeTry rt options s) as [[res | e] s1] eqn:E.
    + exists res, s1. split; [reflexivity |].
      unfold copyTradeTry in E. destruct (isSell options).
      * exact (copyTradeSell_shaped rt options s res s1 E).
      * exact (copyTradeBuy_shaped rt options s res s1 E).
    + destruct (copyTradeTry_throws rt Hstrings options s e s1 E) as [msg Hmsg].
      destruct (copyTradeCatch_returns rt e msg s1 Hmsg) as [Hres _].
      destruct (copyTradeCatch rt e s1) as [r s2]. cbn in Hres. subst r.
      exists (failure msg), s2. split; reflexivity.
  - intros e s' Hthrow. unfold copyTrade, tryCatch in Hthrow.
    change (if isSell options then copyTradeSell rt options else copyTradeBuy rt options)
      with (copyTradeTry rt options) in Hthrow.
    destruct (copyTradeTry rt options s) as [[res | caught] s1]; [discriminate Hthrow |].
    destruct (Js.errValue caught) as [msg | truthy shown] eqn:Hv.
    + destruct (copyTradeCatch_returns rt caught msg s1 Hv) as [Hres _].
      rewrite Hthrow in Hres. discriminate Hres.
    + rewrite (copyTradeCatch_throws rt caught truthy shown s1 Hv) in Hthrow.
      injection Hthrow as <- <-.
      exists caught, truthy, shown.
      unfold Js.errValue in Hv. destruct (Js.isError caught); [| discriminate Hv].
      repeat split. exact Hv.
Qed.

(** A creation that fails with an ordinary Error: copyTrade returns. *)
Lemma copyTrade_always_returns_witness :
  let rt := Fixture.runtime Fixture.env0
              (Fixture.withCreateOrder Fixture.calm
                 (Throw (Js.newError "not enough balance / allowance"))) in
  exists res s',
    copyTrade rt Fixture.sellTrade (Fixture.start (Fixture.holding 8)) = (Ok res, s')
    /\ wellFormed res = true.
Proof.
  intros rt.
  apply (proj1 (copyTrade_always_returns rt Fixture.sellTrade
                  (Fixture.start (Fixture.holding 8)))).
  split.
  - intros A c w e.
    destruct c; cbn; intros H; try discriminate H;
      injection H as <-; apply newError_stringly.
  - intros options e.
    change (tradeToMarketOrder rt options)
      with (Fixture.sizeOrder 0.5 (Some 5%float) options).
    unfold Fixture.sizeOrder. cbv zeta.
    match goal with
    | |- context [if ?b then _ else _] => destruct b
    end; intros H; [discriminate H |].
    injection H as <-. apply newError_stringly.
Defined.

(** * Further properties of the code *)

(** ** simulateTx *)

(** X1.  simulateTx never throws.  It sends one request, to the base URL without
    its trailing slash followed by /api/simulate, logs one line, and
    answers true exactly when the request resolved with an ok status; it
    touches neither the ledger nor the builder's flag. *)
Theorem simulateTx_reports {W : Type} (rt : Runtime W)
    (key : SimulateKey) (tx : SignedOrder) (base : string) (s : State W) :
  let url := Js.dropTrailingSlash base +:+ "/api/simulate" in
  let out := fst (ext rt (Fetch url (mkKey (address key) (signer key)) tx) (world s)) in
  exists lvl msg,
    simulateTx rt key tx base s =
    (Ok (match out with Ok res => ok res | Throw _ => false end),
     mkState (ledger s) (simulateTxDone s)
       (trace s ++ [EvCall (Fetch url (mkKey (address key) (signer key)) tx) out;
                    EvLog lvl msg])
       (snd (ext rt (Fetch url (mkKey (address key) (signer key)) tx) (world s)))).
Proof.
  intros url out. subst out.
  unfold simulateTx, tryCatch, bind, call, log, emit, ret, record. cbv zeta. fold url.
  destruct (ext rt (Fetch url (mkKey (address key) (signer key)) tx) (world s))
    as [[res | e] w']; cbn.
  - destruct (ok res); cbn; rewrite <- app_assoc; eauto.
  - rewrite <- app_assoc. eauto.
Qed.

Lemma dropTrailingSlash_snoc (s : string) : Js.dropTrailingSlash (s +:+ "/") = s.
Proof.
  induction s as [| c rest IH]; [reflexivity |].
  destruct rest as [| c' rest']; [reflexivity |].
  transitivity (String c (Js.dropTrailingSlash (String c' rest' +:+ "/")));
    [reflexivity | rewrite IH; reflexivity].
Qed.

(** X2.  A base URL written with a trailing slash is asked exactly like the same
    URL written without one. *)
Theorem simulateTx_ignores_trailing_slash {W : Type} (rt : Runtime W)
    (key : SimulateKey) (tx : SignedOrder) (base : string) (s : State W) :
  Js.dropTrailingSlash base = base ->
  simulateTx rt key tx (base +:+ "/") s = simulateTx rt key tx base s.
Proof.
  intros H. unfold simulateTx. cbv zeta. rewrite dropTrailingSlash_snoc, H. reflexivity.
Qed.

Lemma simulateTx_ignores_trailing_slash_witness :
  let rt := Fixture.runtime Fixture.env0 Fixture.calm in
  let tx := mkSigned (mkOrder "token-1" BUY 5 (Some FAK) None) "0xsig" in
  simulateTx rt (mkKey "0xMe" "0xkey") tx "https://polymarket.clob.health/" (Fixture.start ∅)
  = simulateTx rt (mkKey "0xMe" "0xkey") tx "https://polymarket.clob.health" (Fixture.start ∅).
Proof.
  intros rt tx.
  exact (simulateTx_ignores_trailing_slash rt (mkKey "0xMe" "0xkey") tx
           "https://polymarket.clob.health" (Fixture.start ∅) eq_refl).
Defined.

(** ** createSimulateAndPost *)

Section PlacingAnOrder.
Context {W : Type} (rt : Runtime W).

Ltac answer :=
  repeat match goal with
         | |- context [ext rt ?c ?w] =>
             let r := fresh "r" in let w' := fresh "w" in
             destruct (ext rt c w) as [[r | r] w'] eqn:?; cbn
         | |- context [if ok ?res then _ else _] => destruct (ok res); cbn
         | |- context [includesEither ?n ?v ?a ?b] =>
             destruct (includesEither n v a b) as [[] | ?]; cbn
         end.

(** X3.  The builder's flag goes up exactly when an order was created (or was up
    already): a creation that fails leaves the one-time simulation for the
    next order, records nothing but the failed call and rethrows its error;
    once an order is created the flag is up whatever the simulation and the
    venue do. *)
Theorem createSimulateAndPost_flag order opts ty (s : State W) :
  let created := fst (ext rt (CreateMarketOrder order opts) (world s)) in
  let s' := snd (createSimulateAndPost rt order opts ty s) in
  simulateTxDone s' = simulateTxDone s || isOk created
  /\ match created with
     | Throw e =>
         fst (createSimulateAndPost rt order opts ty s) = Throw e
         /\ trace s' = (trace s ++ [EvCall (CreateMarketOrder order opts) (Throw e)])%list
     | Ok _ => True
     end.
Proof.
  unfold createSimulateAndPost, simulateTx, bind, tryCatch, call, log, emit, ret, throw,
    liftResult, getSimulateTxDone, setSimulateTxDone, record.
  cbv zeta. cbn.
  destruct (ext rt (CreateMarketOrder order opts) (world s)) as [[signed | e] w1]; cbn.
  - destruct (simulateTxDone s); cbn; answer; auto.
  - rewrite orb_false_r. auto.
Qed.


(** X5.  On the first created order the builder makes a wallet from PRIVATE_KEY
    and the very next call is the simulation request: it goes to the
    simulate endpoint and carries the signed order, the wallet's address
    and, as [signer], the wallet's private key. *)
Theorem first_order_request_carries_private_key order opts ty (s : State W)
    (signed : SignedOrder) (wallet : WalletInfo) (w1 w2 : W) :
  simulateTxDone s = false ->
  ext rt (CreateMarketOrder order opts) (world s) = (Ok signed, w1) ->
  ext rt (NewWallet (PRIVATE_KEY (env rt))) w1 = (Ok wallet, w2) ->
  exists out rest,
    trace (snd (createSimulateAndPost rt order opts ty s)) =
    (trace s ++
     [EvCall (CreateMarketOrder order opts) (Ok signed);
      EvCall (NewWallet (PRIVATE_KEY (env rt))) (Ok wallet);
      EvCall (Fetch (simulateEndpoint rt)
                (mkKey (wallet_address wallet) (privateKey wallet)) signed) out]
     ++ rest)%list.
Proof.
  intros Hflag Hcreate Hwallet.
  unfold createSimulateAndPost, simulateTx, bind, tryCatch, call, log, emit, ret, throw,
    liftResult, getSimulateTxDone, setSimulateTxDone, record, simulateEndpoint.
  cbv zeta. cbn. rewrite Hcreate. cbn. rewrite Hflag. cbn. rewrite Hwallet. cbn.
  answer; rewrite <- !app_assoc; cbn; eexists; eexists; reflexivity.
Qed.

(** X6.  placeMarketBuy and placeMarketSell never throw and never touch the
    ledger.  They report success for any response that is present, without
    looking at its order id or status; an absent response or a thrown error
    becomes a failure carrying the error's text. *)
Theorem placeMarket_reports sd (tokenID : string) (amt : float)
    (options : option PlaceOptions) (s : State W) :
  let ty := default FAK (options ≫= place_orderType) in
  let order := mkOrder tokenID sd amt (Some ty) (options ≫= place_price) in
  let posted :=
    createSimulateAndPost rt order
      (getDefaultOrderOptions (options ≫= place_tickSize) (options ≫= place_negRisk)) ty s in
  exists res,
    placeMarket rt sd tokenID amt options s = (Ok res, snd posted)
    /\ ledger (snd posted) = ledger s
    /\ match fst posted with
       | Ok (Some r) =>
           res = mkResult true (orderID r) (transactionsHashes r) (Some order) None
       | Ok None => res = failure (Js.errText (readOfUndefined "orderID"))
       | Throw e => res = failure (Js.errText e)
       end.
Proof.
  intros ty order posted. subst posted order ty.
  pose proof (createSimulateAndPost_ledger rt
                (mkOrder tokenID sd amt (Some (default FAK (options ≫= place_orderType)))
                   (options ≫= place_price))
                (getDefaultOrderOptions (options ≫= place_tickSize) (options ≫= place_negRisk))
                (default FAK (options ≫= place_orderType)) s) as Hl.
  unfold placeMarket, tryCatch, bind. cbv zeta. cbn [order_type default].
  destruct (createSimulateAndPost rt _ _ _ s) as [[[r |] | e] s1]; cbn in *; eauto.
Qed.

End PlacingAnOrder.


(** A venue error whose data.error is an object, not a string: the
    catch block of createSimulateAndPost throws a TypeError. *)
Example venue_error_with_structured_data :
  let odd := Js.mkExn true Js.undefined (Js.Str "Request failed")
               (Js.NotStr true "[object Object]") "Error: Request failed" in
  let rt := Fixture.runtime Fixture.env0 (Fixture.withPost Fixture.calm (Throw odd)) in
  fst (createSimulateAndPost rt (mkOrder "token-1" BUY 5 (Some FAK) None)
         (mkOrderOptions "0.01" false) FAK (Fixture.start ∅))
  = Throw (Js.typeError "msg.includes is not a function").
Proof. vm_compute. reflexivity. Qed.

Lemma first_order_request_carries_private_key_witness :
  let rt := Fixture.runtime Fixture.env0 Fixture.calm in
  let order := mkOrder "token-1" BUY 5 (Some FAK) None in
  exists out rest,
    trace (snd (createSimulateAndPost rt order (mkOrderOptions "0.01" false) FAK
                  (Fixture.start ∅))) =
    ([EvCall (CreateMarketOrder order (mkOrderOptions "0.01" false))
        (Ok (mkSigned order "0xsig"));
      EvCall (NewWallet (Some "0xkey")) (Ok (mkWallet "0xMe" "0xkey"));
      EvCall (Fetch "https://polymarket.clob.health/api/simulate"
                (mkKey "0xMe" "0xkey") (mkSigned order "0xsig")) out]
     ++ rest)%list.
Proof.
  intros rt order.
  exact (first_order_request_carries_private_key rt order (mkOrderOptions "0.01" false) FAK
           (Fixture.start ∅) (mkSigned order "0xsig") (mkWallet "0xMe" "0xkey")
           1%nat 2%nat eq_refl eq_refl eq_refl).
Defined.

(** A venue answer without order id and with status REJECTED still comes
    back from placeMarketBuy as a success. *)
Example placeMarketBuy_accepts_rejected :
  let rt := Fixture.runtime Fixture.env0
              (Fixture.withPost Fixture.calm (Ok (Some Fixture.rejected))) in
  fst (placeMarketBuy rt "token-1" 5 None (Fixture.start ∅))
  = Ok (mkResult true None None (Some (mkOrder "token-1" BUY 5 (Some FAK) None)) None).
Proof. vm_compute. reflexivity. Qed.

(** ** What a copied trade leaves behind *)

Section CopiedTrades.
Context {W : Type} (rt : Runtime W).

Lemma addHoldings_throws (m t : string) (q : float) (s : State W) e s' :
  addHoldings rt m t q s = (Throw e, s') -> ledger s' = ledger s.
Proof.
  unfold addHoldings, bind, call, modifyLedger.
  destruct (ext rt LedgerWrite (world s)) as [[[] | e1] w1]; cbn;
    intros H; inversion H; reflexivity.
Qed.

Lemma removeHoldings_throws (m t : string) (q : float) (s : State W) e s' :
  removeHoldings rt m t q s = (Throw e, s') -> ledger s' = ledger s.
Proof.
  unfold removeHoldings, bind, getHoldings, log, emit, ret, call, modifyLedger.
  destruct (PrimFloat.ltb (Ledger.get m t (ledger s)) q); cbn;
    destruct (ext rt LedgerWrite (world s)) as [[[] | e1] w1]; cbn;
    intros H; inversion H; reflexivity.
Qed.

Lemma recordSold_throws (m t : string) (q : float) (s : State W) e s' :
  recordSold rt m t q s = (Throw e, s') -> ledger s' = ledger s.
Proof.
  unfold recordSold. destruct (PrimFloat.ltb 0 q).
  - unfold bind. destruct (removeHoldings rt m t q s) as [[[] | e1] s1] eqn:E.
    + intros H. discriminate H.
    + intros H. injection H as <- <-. exact (removeHoldings_throws m t q s e1 s1 E).
  - intros H. discriminate H.
Qed.

Lemma recordBought_throws options order (got : float) (s : State W) e s' :
  recordBought rt options order got s = (Throw e, s') -> ledger s' = ledger s.
Proof.
  unfold recordBought. cbv zeta.
  destruct (PrimFloat.ltb 0 got); [| destruct (PrimFloat.ltb 0 _)];
    try (intros H; discriminate H);
    unfold bind;
    match goal with
    | |- context [addHoldings rt ?m ?t ?q s] =>
        destruct (addHoldings rt m t q s) as [[[] | e1] s1] eqn:E;
        intros H; [discriminate H | injection H as <- <-];
        exact (addHoldings_throws m t q s e1 s1 E)
    end.
Qed.

Lemma settleSell_spares (m t : string) (amt : float) order response (s : State W) :
  match settleSell rt m t amt order response s with
  | (Ok res, s') => success res = false -> ledger s' = ledger s
  | (Throw _, s') => ledger s' = ledger s
  end.
Proof.
  unfold settleSell. destruct response as [r |]; [| intros _; reflexivity].
  cbv zeta. destruct (orderFailed (Some r)); [intros _; reflexivity |].
  unfold bind at 1.
  destruct (recordSold rt m t _ s) as [[[] | e] s1] eqn:E.
  - unfold bind, log, emit, ret. cbn. intros H. discriminate H.
  - exact (recordSold_throws _ _ _ _ _ _ E).
Qed.

Lemma settleBuy_spares options order response (s : State W) :
  match settleBuy rt options order response s with
  | (Ok res, s') => success res = false -> ledger s' = ledger s
  | (Throw _, s') => ledger s' = ledger s
  end.
Proof.
  unfold settleBuy. destruct response as [r |]; [| intros _; reflexivity].
  cbv zeta. destruct (orderFailed (Some r)); [intros _; reflexivity |].
  unfold bind at 1.
  destruct (recordBought rt options order _ s) as [[[] | e] s1] eqn:E.
  - destruct (approve_attempt_returns rt s1) as (s4 & E4 & _).
    unfold bind at 1. rewrite E4.
    unfold bind, log, emit, ret. cbn. intros H. discriminate H.
  - exact (recordBought_throws _ _ _ _ _ _ E).
Qed.

Lemma copyTradeSell_spares options : sparesLedger (copyTradeSell rt options).
Proof.
  intros s. unfold copyTradeSell, bind, getHoldings, emit, ret. cbv zeta.
  destruct (PrimFloat.leb _ 0); [intros _; reflexivity |].
  match goal with
  | |- context [createSimulateAndPost rt ?o ?opts ?ty ?s0] =>
      pose proof (createSimulateAndPost_ledger rt o opts ty s0) as Hl;
      destruct (createSimulateAndPost rt o opts ty s0) as [[response | e] s2]
  end; cbn in Hl; [| exact Hl].
  match goal with
  | |- context [settleSell rt ?m ?t ?a ?o ?r ?s0] =>
      pose proof (settleSell_spares m t a o r s0) as Hs;
      destruct (settleSell rt m t a o r s0) as [[res | e] s3]
  end; rewrite Hl in Hs; exact Hs.
Qed.

Lemma copyTradeBuy_spares options : sparesLedger (copyTradeBuy rt options).
Proof.
  intros s. unfold copyTradeBuy, bind.
  pose proof (checkBuyBalance_preserves rt _ options (ledger_stable (ledger s) quiet) s eq_refl)
    as H1.
  destruct (checkBuyBalance rt options s) as [[[sized report] | e] s1]; cbn in H1;
    [| exact H1].
  cbn [fst snd].
  pose proof (adjustToBalance_preserves rt _ sized report (ledger_stable (ledger s) quiet) s1 H1)
    as H2.
  destruct (adjustToBalance rt sized report s1) as [[[res | order] | e] s2]; cbn in H2;
    [intros _; exact H2 | | exact H2].
  unfold submitBuy, bind, emit.
  match goal with
  | |- context [createSimulateAndPost rt ?o ?opts ?ty ?s0] =>
      pose proof (createSimulateAndPost_ledger rt o opts ty s0) as Hl;
      destruct (createSimulateAndPost rt o opts ty s0) as [[response | e] s3]
  end; cbn in Hl; [| congruence].
  pose proof (settleBuy_spares options order response s3) as Hs.
  destruct (settleBuy rt options order response s3) as [[res | e] s4];
    rewrite Hl, H2 in Hs; exact Hs.
Qed.

(** X7.  A copyTrade that does not end in a success result has left the
    ledger as it was, whether it returns a failure or throws: holdings
    change only on the paths that end in a success result. *)
Theorem copyTrade_failure_keeps_ledger options (s : State W) :
  match copyTrade rt options s with
  | (Ok res, s') => success res = false -> ledger s' = ledger s
  | (Throw _, s') => ledger s' = ledger s
  end.
Proof.
  unfold copyTrade, tryCatch.
  assert (Hbody : sparesLedger
            (if isSell options then copyTradeSell rt options else copyTradeBuy rt options)).
  { destruct (isSell options); [apply copyTradeSell_spares | apply copyTradeBuy_spares]. }
  specialize (Hbody s).
  destruct ((if isSell options then copyTradeSell rt options else copyTradeBuy rt options) s)
    as [[res | e] s1]; [exact Hbody |].
  pose proof (copyTradeCatch_preserves rt _ e (ledger_stable (ledger s) quiet) s1 Hbody) as Hl.
  destruct (copyTradeCatch rt e s1) as [[res | e'] s2]; cbn in Hl; [intros _ |]; exact Hl.
Qed.

Section Kept.
Context (I : State W -> Prop) (options : CopyTradeOptions).

(** copyTrade keeps every property of the state that events do not
    disturb, that placing an order keeps, and that survives the two ledger
    updates at the trade's own key. *)
Lemma copyTrade_keeps :
  stable I anyEvent ->
  (forall order opts ty, preserves I (createSimulateAndPost rt order opts ty)) ->
  (forall q, preserves I
     (modifyLedger (Ledger.add (conditionId (trade options)) (asset (trade options)) q))) ->
  (forall q, preserves I
     (modifyLedger (Ledger.remove (conditionId (trade options)) (asset (trade options)) q))) ->
  preserves I (copyTrade rt options).
Proof.
  intros Hst Hpost Hadd Hrem.
  assert (Hq : stable I quiet).
  { apply (stable_weaken I anyEvent quiet); [reflexivity | exact Hst]. }
  unfold copyTrade, copyTradeSell, copyTradeBuy, submitBuy, settleSell, settleBuy,
    recordSold, recordBought, addHoldings, removeHoldings, checkBuyBalance,
    adjustToBalance, copyTradeCatch, log.
  cbv zeta.
  repeat first
    [ apply Hpost
    | apply Hadd
    | apply Hrem
    | apply approveTokensAfterBuy_preserves; exact Hq
    | keep_step anyEvent ].
Qed.

End Kept.

(** X8.  copyTrade reads and writes one ledger entry only, the one of the
    trade's market and outcome token: every other entry is as before,
    whatever the outcome. *)
Theorem copyTrade_touches_one_entry options (s : State W) (k : string * string) :
  k <> (conditionId (trade options), asset (trade options)) ->
  ledger (snd (copyTrade rt options s)) !! k = ledger s !! k.
Proof.
  intros Hk.
  apply (copyTrade_keeps (fun s' => ledger s' !! k = ledger s !! k) options).
  - intros s0 e w H _. exact H.
  - intros order opts ty s0 H.
    rewrite (createSimulateAndPost_ledger rt order opts ty s0). exact H.
  - intros q s0 H. cbn. unfold Ledger.add.
    rewrite lookup_insert_ne; [exact H | congruence].
  - intros q s0 H. cbn. unfold Ledger.remove. cbv zeta.
    destruct (PrimFloat.ltb 0 _).
    + rewrite lookup_insert_ne; [exact H | congruence].
    + rewrite lookup_delete_ne; [exact H | congruence].
  - reflexivity.
Qed.

Lemma createSimulateAndPost_raises_flag order opts ty :
  preserves (fun s : State W => simulateTxDone s = true)
            (createSimulateAndPost rt order opts ty).
Proof.
  assert (Hst : stable (fun s : State W => simulateTxDone s = true) anyEvent)
    by (intros s e w H _; exact H).
  unfold createSimulateAndPost, simulateTx, log. cbv zeta.
  repeat first
    [ keep_step anyEvent
    | (intros s H; reflexivity) ].
Qed.

(** X9.  The builder never lowers its simulateTxDone flag: once it is set, it
    stays set through any sequence of copyTrade, placeMarketBuy and
    placeMarketSell calls on that builder. *)
Theorem simulateTxDone_is_never_reset (cs : list BuilderCall) (s : State W) :
  simulateTxDone s = true -> simulateTxDone (runCalls rt cs s) = true.
Proof.
  revert s. induction cs as [| c rest IH]; intros s H; cbn [runCalls]; [exact H |].
  apply IH. revert s H.
  change (preserves (fun s : State W => simulateTxDone s = true) (runCall rt c)).
  assert (Hst : stable (fun s : State W => simulateTxDone s = true) anyEvent)
    by (intros s e w H _; exact H).
  destruct c as [options | tokenID amt options | tokenID amt options]; cbn [runCall].
  - apply copyTrade_keeps; try (intros; intros s H; exact H); try exact Hst.
    apply createSimulateAndPost_raises_flag.
  - unfold placeMarketBuy, placeMarket. cbv zeta.
    repeat first [apply createSimulateAndPost_raises_flag | keep_step anyEvent].
  - unfold placeMarketSell, placeMarket. cbv zeta.
    repeat first [apply createSimulateAndPost_raises_flag | keep_step anyEvent].
Qed.

End CopiedTrades.

Lemma copyTrade_touches_one_entry_witness :
  let rt := Fixture.runtime Fixture.env0 Fixture.calm in
  let l := <[("market-2", "token-7") := 3.5%float]> (Fixture.holding 8) in
  ledger (snd (copyTrade rt (Fixture.buyTrade 0.5) (Fixture.start l)))
    !! ("market-2", "token-7") = Some 3.5%float
  /\ ledger (snd (copyTrade rt (Fixture.buyTrade 0.5) (Fixture.start l)))
    !! ("market-1", "token-1") <> Some 8%float.
Proof.
  intros rt l. split.
  - rewrite (copyTrade_touches_one_entry rt (Fixture.buyTrade 0.5) (Fixture.start l)
               ("market-2", "token-7")).
    + vm_compute. reflexivity.
    + cbn. intros H. discriminate H.
  - vm_compute. intros H. discriminate H.
Defined.

Lemma simulateTxDone_is_never_reset_witness :
  let rt := Fixture.runtime Fixture.env0 Fixture.calm in
  let s1 := snd (placeMarketBuy rt "token-1" 5 None (Fixture.start ∅)) in
  simulateTxDone s1 = true
  /\ simulateTxDone
       (runCalls rt [DoCopyTrade (Fixture.buyTrade 0.5); DoCopyTrade Fixture.sellTrade;
                     DoPlaceMarketSell "token-1" 5 None] s1) = true.
Proof.
  intros rt s1. split; [vm_compute; reflexivity |].
  apply (simulateTxDone_is_never_reset rt). vm_compute. reflexivity.
Defined.

(** ** A BUY before it reaches the venue *)

Section BeforeTheVenue.
Context {W : Type} (rt : Runtime W).

(** X10.  A failed refresh of the CLOB balance allowance does not stop a BUY:
    the error is logged as a warning, the balance is displayed and checked
    as usual, and with a valid report the order goes on to be placed. *)
Theorem allowance_refresh_failure_is_tolerated options (s : State W)
    (sized : UserMarketOrder) (report : BalanceCheck) (e : Js.Exn) (w1 w2 w3 : W) :
  isSell options = false ->
  tradeToMarketOrder rt options = Ok sized ->
  ext rt UpdateBalanceAllowance (world s) = (Throw e, w1) ->
  ext rt DisplayWalletBalance w1 = (Ok tt, w2) ->
  ext rt (ValidateBuyOrderBalance (amount sized)) w2 = (Ok report, w3) ->
  valid report = true ->
  exists building,
    submits rt options s sized
      (record (placingBuy rt options sized)
         (mkState (ledger s) (simulateTxDone s)
            (trace s ++
             [EvLog Info building;
              EvCall UpdateBalanceAllowance (Throw e);
              EvLog Warn ("Failed to update balance allowance: " +:+ Js.errText e);
              EvCall DisplayWalletBalance (Ok tt);
              EvCall (ValidateBuyOrderBalance (amount sized)) (Ok report)])%list
            w3)).
Proof.
  intros Hbuy Hsized Hupdate Hdisplay Hcheck Hvalid.
  eexists.
  eapply (submits_buy rt options s sized report sized); [exact Hbuy | |].
  - unfold checkBuyBalance, bind, tryCatch, call, log, emit, liftResult, ret, record.
    cbv zeta. cbn. rewrite Hsized. cbn. rewrite Hupdate. cbn. rewrite Hdisplay. cbn.
    rewrite Hcheck. cbn. rewrite <- !app_assoc. cbn. reflexivity.
  - unfold adjustToBalance. rewrite Hvalid. reflexivity.
Qed.


End BeforeTheVenue.

Lemma allowance_refresh_failure_is_tolerated_witness :
  let rt := Fixture.runtime Fixture.env0
              (Fixture.mkScript (Ok "0xsig") (Ok None) (Throw (Js.newError "503"))
                 (Ok tt) (fun amt => Ok (mkBalance true 100 amt))
                 (Ok (mkWallet "0xMe" "0xkey")) (Ok (mkHttp true 200)) (Ok tt)
                 (fun _ => Ok (Resolves 40)) (Ok tt)) in
  exists building s1,
    submits rt (Fixture.buyTrade 0.5) (Fixture.start ∅)
      (mkOrder "token-1" BUY 5 (Some FAK) None) s1
    /\ trace s1 =
       [EvLog Info building;
        EvCall UpdateBalanceAllowance (Throw (Js.newError "503"));
        EvLog Warn "Failed to update balance allowance: 503";
        EvCall DisplayWalletBalance (Ok tt);
        EvCall (ValidateBuyOrderBalance 5) (Ok (mkBalance true 100 5));
        EvLog Info "Placing BUY market order: 5 (type: FAK)"].
Proof.
  intros rt.
  destruct (allowance_refresh_failure_is_tolerated rt (Fixture.buyTrade 0.5) (Fixture.start ∅)
              (mkOrder "token-1" BUY 5 (Some FAK) None) (mkBalance true 100 5)
              (Js.newError "503") 1%nat 2%nat 3%nat
              eq_refl eq_refl eq_refl eq_refl eq_refl eq_refl) as [building H].
  exists building. eexists. split; [exact H | reflexivity].
Defined.


(** ** Finding an RPC endpoint *)

Lemma uniqFrom_keeps (l seen : list string) (x : string) :
  x ∈ l -> x ∈ Js.uniqFrom seen l \/ x ∈ seen.
Proof.
  revert seen. induction l as [| y l IH]; intros seen Hin; cbn.
  - inversion Hin.
  - apply elem_of_cons in Hin.
    destruct (bool_decide (y ∈ seen)) eqn:E.
    + destruct Hin as [-> | Hin]; [right; apply bool_decide_eq_true in E; exact E |].
      apply IH. exact Hin.
    + destruct Hin as [-> | Hin]; [left; apply elem_of_cons; left; reflexivity |].
      destruct (IH (y :: seen) Hin) as [H | H].
      * left. apply elem_of_cons. right. exact H.
      * apply elem_of_cons in H. destruct H as [-> | H]; [| right; exact H].
        left. apply elem_of_cons. left. reflexivity.
Qed.

Lemma uniqFrom_sub (l seen : list string) (x : string) :
  x ∈ Js.uniqFrom seen l -> x ∈ l.
Proof.
  revert seen. induction l as [| y l IH]; intros seen; cbn.
  - intros H. exact H.
  - destruct (bool_decide (y ∈ seen)); intros H.
    + apply elem_of_cons. right. exact (IH _ H).
    + apply elem_of_cons in H. apply elem_of_cons.
      destruct H as [-> | H]; [left; reflexivity | right; exact (IH _ H)].
Qed.

Lemma uniq_elem (l : list string) (x : string) : x ∈ Js.uniq l <-> x ∈ l.
Proof.
  split; [apply uniqFrom_sub |].
  intros H. destruct (uniqFrom_keeps l [] x H) as [H' | H']; [exact H' | inversion H'].
Qed.

Lemma uniqFrom_length (l : list string) :
  forall seen, length (Js.uniqFrom seen l) <= length l.
Proof.
  induction l as [| y l IH]; intros seen; cbn; [lia |].
  destruct (bool_decide (y ∈ seen)); cbn;
    [specialize (IH seen) | specialize (IH (y :: seen))]; lia.
Qed.

Section Candidates.
Context {W : Type} (rt : Runtime W).

(** X12.  On a supported chain the candidate list is the environment's own
    endpoints (RPC_URL, an Alchemy URL built from RPC_TOKEN) followed by
    the chain's public endpoints, which are always there: the list is never
    empty, has at most six entries, and holds nothing else. *)
Theorem candidates_are_own_then_public (chainId : float) (cands : list string) :
  getRpcCandidates rt chainId = Ok cands ->
  (onPolygon chainId = true ->
     Forall (fun url => url ∈ cands)
       ["https://polygon-rpc.com"; "https://rpc.ankr.com/polygon";
        "https://polygon.llamarpc.com"; "https://rpc-mainnet.matic.quiknode.pro"])
  /\ (onAmoy chainId = true -> "https://rpc-amoy.polygon.technology" ∈ cands)
  /\ (onPolygon chainId = true \/ onAmoy chainId = true)
  /\ 0 < length cands <= 6
  /\ (forall url, url ∈ cands ->
        fromEnvironment rt url
        \/ url ∈ ["https://polygon-rpc.com"; "https://rpc.ankr.com/polygon";
                  "https://polygon.llamarpc.com"; "https://rpc-mainnet.matic.quiknode.pro";
                  "https://rpc-amoy.polygon.technology"]).
Proof.
  unfold getRpcCandidates, onPolygon, onAmoy, fromEnvironment. cbv zeta.
  destruct (PrimFloat.eqb chainId 137); [| destruct (PrimFloat.eqb chainId 80002)];
    intros H; try discriminate H; injection H as <-; cbn [negb andb].
  - split; [intros _ | split; [intros H; discriminate H | split; [left; reflexivity | split]]].
    + repeat constructor; apply uniq_elem; rewrite elem_of_app; right;
        rewrite !elem_of_cons; auto 10.
    + split.
      * destruct (Js.uniq _) as [| x l] eqn:E; [| cbn; lia].
        assert (Hin : "https://polygon-rpc.com" ∈ Js.uniq
                  ((if Js.truthy_opt (RPC_TOKEN (env rt))
                    then (if Js.truthy_opt (RPC_URL (env rt))
                          then [default "" (RPC_URL (env rt))] else []) ++
                         ["https://polygon-mainnet.g.alchemy.com/v2/" +:+
                          default "" (RPC_TOKEN (env rt))]
                    else if Js.truthy_opt (RPC_URL (env rt))
                         then [default "" (RPC_URL (env rt))] else []) ++
                   ["https://polygon-rpc.com"; "https://rpc.ankr.com/polygon";
                    "https://polygon.llamarpc.com";
                    "https://rpc-mainnet.matic.quiknode.pro"])%list).
        { apply uniq_elem. rewrite elem_of_app. right. rewrite !elem_of_cons. auto. }
        rewrite E in Hin. inversion Hin.
      * etransitivity; [apply uniqFrom_length |].
        destruct (Js.truthy_opt (RPC_TOKEN (env rt))), (Js.truthy_opt (RPC_URL (env rt)));
          cbn; lia.
    + intros url Hin. apply (proj1 (uniq_elem _ _)) in Hin. rewrite elem_of_app in Hin.
      destruct Hin as [Hin | Hin].
      * left.
        destruct (RPC_TOKEN (env rt)) as [token |] eqn:Et,
                 (RPC_URL (env rt)) as [own |] eqn:Eo; cbn in Hin;
          repeat match goal with
                 | H : context [if ?b then _ else _] |- _ => destruct b; cbn in H
                 end;
          rewrite ?elem_of_app, ?elem_of_cons, ?elem_of_nil in Hin;
          intuition (subst; eauto).
      * right. rewrite !elem_of_cons in *. rewrite elem_of_nil in Hin.
        intuition auto.
  - split; [intros H; discriminate H | split; [intros _ | split; [right; reflexivity | split]]].
    + apply uniq_elem. rewrite elem_of_app. right. rewrite !elem_of_cons. auto.
    + split.
      * destruct (Js.uniq _) as [| x l] eqn:E; [| cbn; lia].
        assert (Hin : "https://rpc-amoy.polygon.technology" ∈ Js.uniq
                  ((if Js.truthy_opt (RPC_TOKEN (env rt))
                    then (if Js.truthy_opt (RPC_URL (env rt))
                          then [default "" (RPC_URL (env rt))] else []) ++
                         ["https://polygon-amoy.g.alchemy.com/v2/" +:+
                          default "" (RPC_TOKEN (env rt))]
                    else if Js.truthy_opt (RPC_URL (env rt))
                         then [default "" (RPC_URL (env rt))] else []) ++
                   ["https://rpc-amoy.polygon.technology"])%list).
        { apply uniq_elem. rewrite elem_of_app. right. rewrite !elem_of_cons. auto. }
        rewrite E in Hin. inversion Hin.
      * etransitivity; [apply uniqFrom_length |].
        destruct (Js.truthy_opt (RPC_TOKEN (env rt))), (Js.truthy_opt (RPC_URL (env rt)));
          cbn; lia.
    + intros url Hin. apply (proj1 (uniq_elem _ _)) in Hin. rewrite elem_of_app in Hin.
      destruct Hin as [Hin | Hin].
      * left.
        destruct (RPC_TOKEN (env rt)) as [token |] eqn:Et,
                 (RPC_URL (env rt)) as [own |] eqn:Eo; cbn in Hin;
          repeat match goal with
                 | H : context [if ?b then _ else _] |- _ => destruct b; cbn in H
                 end;
          rewrite ?elem_of_app, ?elem_of_cons, ?elem_of_nil in Hin;
          intuition (subst; eauto).
      * right. rewrite !elem_of_cons in *. rewrite elem_of_nil in Hin.
        intuition auto.
Qed.

End Candidates.

Lemma candidates_are_own_then_public_witness :
  let rt := Fixture.runtime
              (mkEnv None None (Some "https://my.node") (Some "tok") None None)
              Fixture.calm in
  let cands := ["https://my.node"; "https://polygon-mainnet.g.alchemy.com/v2/tok";
                "https://polygon-rpc.com"; "https://rpc.ankr.com/polygon";
                "https://polygon.llamarpc.com"; "https://rpc-mainnet.matic.quiknode.pro"] in
  getRpcCandidates rt 137 = Ok cands /\ 0 < length cands <= 6.
Proof.
  intros rt cands.
  assert (Hc : getRpcCandidates rt 137 = Ok cands) by (vm_compute; reflexivity).
  destruct (candidates_are_own_then_public rt 137 cands Hc) as (_ & _ & _ & Hlen & _).
  split; [exact Hc | exact Hlen].
Defined.

Section Providers.
Context {W : Type} (rt : Runtime W).

Lemma tryCandidates_decides chainId cands :
  forall errors (s : State W),
    match tryCandidates rt chainId cands errors s with
    | (Ok url, s') =>
        exists pre post lines s1,
          cands = (pre ++ url :: post)%list
          /\ allFail rt pre s lines s1
          /\ probe rt url s1 = (Ok tt, s')
    | (Throw e, s') =>
        exists lines,
          allFail rt cands s lines s'
          /\ e = allFailed rt chainId (errors ++ lines)
    end.
Proof.
  induction cands as [| u rest IH]; intros errors s.
  - cbn. exists []. split; [constructor | rewrite app_nil_r; reflexivity].
  - cbn [tryCandidates]. unfold bind, tryCatch.
    destruct (probe rt u s) as [[[] | e] s1] eqn:Eprobe; cbn.
    + exists [], rest, [], s. repeat split; [constructor | exact Eprobe].
    + specialize (IH (errors ++ [u +:+ " -> " +:+ Js.errText e])%list s1).
      destruct (tryCandidates rt chainId rest _ s1) as [[url | e'] s2].
      * destruct IH as (pre & post & lines & s1' & -> & Hfail & Hok).
        exists (u :: pre), post, ((u +:+ " -> " +:+ Js.errText e) :: lines), s1'.
        repeat split; [| exact Hok].
        exact (allFail_cons rt u pre s s1 s1' e lines Eprobe Hfail).
      * destruct IH as (lines & Hfail & ->).
        exists ((u +:+ " -> " +:+ Js.errText e) :: lines). split.
        -- exact (allFail_cons rt u rest s s1 s2 e lines Eprobe Hfail).
        -- rewrite <- app_assoc. reflexivity.
Qed.

(** X13.  Every run of getWorkingProvider ends in one of three ways.  It returns
    a candidate whose probe succeeded after the probes of all candidates
    before it failed; or the chain is unsupported and it throws before
    probing anything; or every candidate failed and it throws the error
    that lists them. *)
Theorem provider_is_the_first_live_candidate (chainId : float) (s : State W) :
  match getWorkingProvider rt chainId s with
  | (Ok url, s') =>
      exists pre post lines s1,
        getRpcCandidates rt chainId = Ok (pre ++ url :: post)%list
        /\ allFail rt pre s lines s1
        /\ probe rt url s1 = (Ok tt, s')
  | (Throw e, s') =>
      (onPolygon chainId = false /\ onAmoy chainId = false
       /\ e = unsupportedChain rt chainId /\ s' = s)
      \/ exists cands lines,
           getRpcCandidates rt chainId = Ok cands
           /\ allFail rt cands s lines s'
           /\ e = allFailed rt chainId lines
  end.
Proof.
  unfold getWorkingProvider, bind, liftResult.
  destruct (getRpcCandidates rt chainId) as [cands | e] eqn:Ec.
  - pose proof (tryCandidates_decides chainId cands [] s) as H.
    destruct (tryCandidates rt chainId cands [] s) as [[url | e] s'].
    + destruct H as (pre & post & lines & s1 & -> & Hfail & Hok).
      exists pre, post, lines, s1. auto.
    + destruct H as (lines & Hfail & ->). right. exists cands, lines. auto.
  - left. revert Ec. unfold getRpcCandidates, onPolygon, onAmoy, unsupportedChain. cbv zeta.
    destruct (PrimFloat.eqb chainId 137); [intros H; discriminate H |].
    destruct (PrimFloat.eqb chainId 80002); [intros H; discriminate H |].
    intros H. injection H as <-. auto.
Qed.

Lemma probe_step url (s : State W) :
  ledger (snd (probe rt url s)) = ledger s
  /\ simulateTxDone (snd (probe rt url s)) = simulateTxDone s
  /\ exists out,
       trace (snd (probe rt url s)) = (trace s ++ [EvCall (GetNetwork url) out])%list.
Proof.
  unfold probe, bind, call, liftResult.
  destruct (ext rt (GetNetwork url) (world s)) as [[p | e] w']; cbn; eauto.
Qed.

Lemma tryCandidates_probes chainId cands :
  forall errors (s : State W),
    let s' := snd (tryCandidates rt chainId cands errors s) in
    ledger s' = ledger s
    /\ simulateTxDone s' = simulateTxDone s
    /\ exists evs,
         trace s' = (trace s ++ evs)%list
         /\ forallb isProbe evs = true
         /\ length evs = length (probed evs)
         /\ probed evs `prefix_of` cands.
Proof.
  induction cands as [| u rest IH]; intros errors s; cbv zeta.
  - cbn. split; [reflexivity | split; [reflexivity |]].
    exists []. rewrite app_nil_r. repeat split. apply prefix_nil.
  - cbn [tryCandidates]. unfold bind, tryCatch.
    destruct (probe_step u s) as (Hl1 & Hf1 & out & Htr1).
    destruct (probe rt u s) as [[[] | e] s1]; cbn in Hl1, Hf1, Htr1 |- *.
    + split; [exact Hl1 | split; [exact Hf1 |]].
      exists [EvCall (GetNetwork u) out]. repeat split; [exact Htr1 |].
      apply prefix_cons, prefix_nil.
    + specialize (IH (errors ++ [u +:+ " -> " +:+ Js.errText e])%list s1).
      cbv zeta in IH. destruct IH as (Hl & Hf & evs & Htr & Hall & Hlen & Hpre).
      split; [congruence | split; [congruence |]].
      exists (EvCall (GetNetwork u) out :: evs). repeat split.
      * rewrite Htr, Htr1, <- app_assoc. reflexivity.
      * exact Hall.
      * unfold probed in *. cbn. rewrite Hlen. reflexivity.
      * unfold probed in *. cbn. apply prefix_cons. exact Hpre.
Qed.

(** X14.  Looking for a provider does nothing but probe: the ledger and the
    builder's flag are untouched, every event is a getNetwork call, and
    the endpoints probed are an initial stretch of the candidate list, each
    probed once, so at most as many probes as candidates. *)
Theorem provider_search_only_probes (chainId : float) (cands : list string) (s : State W) :
  getRpcCandidates rt chainId = Ok cands ->
  let s' := snd (getWorkingProvider rt chainId s) in
  ledger s' = ledger s
  /\ simulateTxDone s' = simulateTxDone s
  /\ exists evs,
       trace s' = (trace s ++ evs)%list
       /\ forallb isProbe evs = true
       /\ probed evs `prefix_of` cands
       /\ length evs <= length cands.
Proof.
  intros Hc. cbv zeta. unfold getWorkingProvider, bind, liftResult. rewrite Hc.
  destruct (tryCandidates_probes chainId cands [] s) as (Hl & Hf & evs & Htr & Hall & Hlen & Hpre).
  split; [exact Hl | split; [exact Hf |]].
  exists evs. repeat split; try assumption.
  rewrite Hlen. apply prefix_length. exact Hpre.
Qed.

End Providers.

Lemma provider_search_only_probes_witness :
  let rt := Fixture.runtime Fixture.env0
              (Fixture.withNetwork Fixture.calm
                 (fun url => if String.eqb url "https://polygon.llamarpc.com"
                             then Ok (Resolves 40) else Ok Hangs)) in
  exists evs,
    trace (snd (getWorkingProvider rt 137 (Fixture.start ∅))) = evs
    /\ forallb isProbe evs = true
    /\ probed evs = ["https://polygon-rpc.com"; "https://rpc.ankr.com/polygon";
                     "https://polygon.llamarpc.com"].
Proof.
  intros rt.
  destruct (provider_search_only_probes rt 137
              ["https://polygon-rpc.com"; "https://rpc.ankr.com/polygon";
               "https://polygon.llamarpc.com"; "https://rpc-mainnet.matic.quiknode.pro"]
              (Fixture.start ∅))
    as (_ & _ & evs & Htr & Hall & _).
  - vm_compute. reflexivity.
  - exists evs. split; [exact Htr |]. split; [exact Hall |].
    cbn in Htr. rewrite <- Htr. vm_compute. reflexivity.
Defined.

(** ** The approval after a BUY *)

Lemma extendsBy_stable {W : Type} (acc : Event -> bool) (base : list Event) :
  stable (@extendsBy W acc base) acc.
Proof.
  intros s e w (evs & Htr & Hq) He. exists (evs ++ [e])%list. cbn. split.
  - rewrite Htr. rewrite app_assoc. reflexivity.
  - rewrite forallb_app, Hq. cbn. rewrite He. reflexivity.
Qed.

Lemma extendsBy_refl {W : Type} (acc : Event -> bool) (s : State W) :
  extendsBy acc (trace s) s.
Proof. exists []. split; [rewrite app_nil_r |]; reflexivity. Qed.

Section Approval.
Context {W : Type} (rt : Runtime W) (I : State W -> Prop).

Lemma preserves_bind_returning {A B} (P : A -> Prop) (m : M W A) (k : A -> M W B) :
  preserves I m -> returnsOnly P m -> (forall a, P a -> preserves I (k a)) ->
  preserves I (bind m k).
Proof.
  intros Hm HP Hk s H. unfold bind. specialize (Hm s H).
  destruct (m s) as [[a | e] s1] eqn:E; cbn in *; [| exact Hm].
  apply Hk; [exact (HP s a s1 E) | exact Hm].
Qed.

Lemma getWorkingProvider_probing chainId :
  stable I isProbe -> preserves I (getWorkingProvider rt chainId).
Proof.
  intros Hst. unfold getWorkingProvider.
  apply preserves_bind; [apply preserves_liftResult |]. intros cands.
  generalize (@nil string) as errors.
  induction cands as [| url rest IH]; intros errors; cbn [tryCandidates].
  - apply preserves_throw.
  - unfold probe. keep isProbe. apply IH.
Qed.

Lemma gas_limit_is_fixed (rpcUrl : string) :
  returnsOnly (fun gas => gasLimit gas = 200000%N)
    (tryCatch (let* gasPrice := call rt (GetGasPrice rpcUrl) in
               ret (mkGas (gasPrice * 120 / 100) 200000))
              (fun _ => @ret W _ (mkGas (100 * 1000000000) 200000))).
Proof.
  intros s gas s'. unfold tryCatch, bind, call, ret.
  destruct (ext rt (GetGasPrice rpcUrl) (world s)) as [[p | e] w']; cbn;
    intros H; injection H as <- _; reflexivity.
Qed.

Lemma approveTokensAfterBuy_grants :
  stable I grantsWithFixedGas -> preserves I (approveTokensAfterBuy rt).
Proof.
  intros Hst. unfold approveTokensAfterBuy, log.
  destruct (negb (Js.truthy_opt (PRIVATE_KEY (env rt)))); [apply preserves_throw |].
  cbv zeta.
  apply preserves_bind; [keep grantsWithFixedGas |]. intros cfg.
  apply preserves_bind.
  { apply getWorkingProvider_probing.
    apply (stable_weaken I grantsWithFixedGas isProbe); [| exact Hst].
    intros [A c r | lvl msg] H; [destruct c |]; try reflexivity; discriminate H. }
  intros url.
  apply preserves_bind; [keep grantsWithFixedGas |]. intros owner.
  apply (preserves_bind_returning (fun gas => gasLimit gas = 200000%N));
    [keep grantsWithFixedGas | apply gas_limit_is_fixed |].
  intros [gp gl] Hgas. cbn in Hgas. subst gl.
  keep grantsWithFixedGas.
Qed.

Lemma approved_already (ctf owner operator : string) :
  (forall c o p w, fst (ext rt (IsApprovedForAll c o p) w) <> Ok false) ->
  returnsOnly (fun approved => approved = true)
              (call rt (IsApprovedForAll ctf owner operator)).
Proof.
  intros Hyes s a s'. unfold call.
  specialize (Hyes ctf owner operator (world s)).
  destruct (ext rt (IsApprovedForAll ctf owner operator) (world s)) as [[[] | e] w'];
    cbn in *; intros H; inversion H; subst; congruence.
Qed.

Lemma approveTokensAfterBuy_offChain :
  (forall c o p w, fst (ext rt (IsApprovedForAll c o p) w) <> Ok false) ->
  stable I offChain -> preserves I (approveTokensAfterBuy rt).
Proof.
  intros Hyes Hst. unfold approveTokensAfterBuy, log.
  destruct (negb (Js.truthy_opt (PRIVATE_KEY (env rt)))); [apply preserves_throw |].
  cbv zeta.
  apply preserves_bind; [keep offChain |]. intros cfg.
  apply preserves_bind.
  { apply getWorkingProvider_probing.
    apply (stable_weaken I offChain isProbe); [| exact Hst].
    intros [A c r | lvl msg] H; [destruct c |]; try reflexivity; discriminate H. }
  intros url.
  apply preserves_bind; [keep offChain |]. intros owner.
  apply preserves_bind; [keep offChain |]. intros gas.
  apply preserves_tryCatch; [| intros e; keep offChain].
  apply (preserves_bind_returning (fun approved => approved = true));
    [keep offChain | apply approved_already; exact Hyes |].
  intros approved ->. cbn [negb].
  apply preserves_bind; [apply preserves_ret |]. intros _.
  destruct (bool_decide (NEG_RISK (env rt) = Some "true")); [| apply preserves_ret].
  apply (preserves_bind_returning (fun approved => approved = true));
    [keep offChain | apply approved_already; exact Hyes |].
  intros approved ->. cbn [negb]. apply preserves_ret.
Qed.

End Approval.

(** X15.  Whatever happens during the approval after a BUY, every
    setApprovalForAll it sends grants the approval (never revokes one) and
    carries the gas limit 200000, with or without a gas price from the
    network. *)
Theorem approval_transactions_only_grant {W : Type} (rt : Runtime W) (s : State W) :
  extendsBy grantsWithFixedGas (trace s) (snd (approveTokensAfterBuy rt s)).
Proof.
  apply (approveTokensAfterBuy_grants rt _ (extendsBy_stable grantsWithFixedGas (trace s))).
  apply extendsBy_refl.
Qed.

(** X16.  When the chain never answers "not approved", the approval after a BUY
    sends no transaction and waits for none: it only reads. *)
Theorem approved_operator_sends_no_transaction {W : Type} (rt : Runtime W) (s : State W) :
  (forall c o p w, fst (ext rt (IsApprovedForAll c o p) w) <> Ok false) ->
  extendsBy offChain (trace s) (snd (approveTokensAfterBuy rt s)).
Proof.
  intros Hyes.
  apply (approveTokensAfterBuy_offChain rt _ Hyes (extendsBy_stable offChain (trace s))).
  apply extendsBy_refl.
Qed.

Lemma approved_operator_sends_no_transaction_witness :
  let rt := Fixture.runtime
              (mkEnv None (Some "0xkey") None None None (Some "true")) Fixture.calm in
  extendsBy offChain [] (snd (approveTokensAfterBuy rt (Fixture.start ∅)))
  /\ length (trace (snd (approveTokensAfterBuy rt (Fixture.start ∅)))) = 6.
Proof.
  intros rt. split.
  - apply (approved_operator_sends_no_transaction rt (Fixture.start ∅)).
    intros c o p w H. discriminate H.
  - vm_compute. reflexivity.
Defined.

(** ** The allowances set before trading *)

Section Allowing.
Context {W : Type} (rt : Runtime W).
Context (usdc : forall A, UsdcCall A -> W -> Result A * W).
Context (I : State (Chain W) -> Prop).

Lemma preserves_onChain_call acc {A} (c : Call A) :
  wide I acc -> (forall r, acc (EvCall c r) = true) -> preserves I (call (onChain rt) c).
Proof.
  intros Hst Hok s H. unfold call, onChain. cbn.
  destruct (ext rt c (outside (world s))) as [r w] eqn:E. cbn. apply Hst; auto.
Qed.

Lemma preserves_emit_wide acc e : wide I acc -> acc e = true -> preserves I (emit e).
Proof.
  intros Hst Hok s H. unfold emit, record. cbn.
  specialize (Hst s e (outside (world s)) H Hok).
  destruct s as [l f t [o u]]. exact Hst.
Qed.

Lemma preserves_usdcCall acc {A} (c : UsdcCall A) :
  usdcStable I acc -> (forall r, acc (UsdcEv c r) = true) -> preserves I (usdcCall usdc c).
Proof.
  intros Hst Hok s H. unfold usdcCall.
  destruct (usdc A c (outside (world s))) as [r w] eqn:E. cbn. apply Hst; auto.
Qed.

End Allowing.

(** Walks the body of a computation over the wider world. *)
Ltac keep_wide_step acc accU :=
  first
    [ apply preserves_ret
    | apply preserves_throw
    | apply preserves_liftResult
    | apply preserves_bind; [ | intros ? ]
    | apply preserves_tryCatch; [ | intros ? ]
    | apply (preserves_emit_wide _ acc); [ assumption | reflexivity ]
    | apply (preserves_onChain_call _ _ acc); [ assumption | intros ?; reflexivity ]
    | apply (preserves_usdcCall _ _ accU); [ assumption | intros ?; reflexivity ]
    | match goal with
      | |- preserves _ (if ?b then _ else _) => destruct b
      | |- preserves _ (match ?x with _ => _ end) => destruct x
      end ].

Ltac keep_wide acc accU := cbv zeta; repeat keep_wide_step acc accU.

Section AllowancesKept.
Context {W : Type} (rt : Runtime W).
Context (usdc : forall A, UsdcCall A -> W -> Result A * W).
Context (I : State (Chain W) -> Prop).

Lemma getWorkingProvider_wide acc accU chainId :
  wide I acc -> (forall url r, acc (EvCall (GetNetwork url) r) = true) ->
  usdcStable I accU ->
  preserves I (getWorkingProvider (onChain rt) chainId).
Proof.
  intros Hst Hprobe Hu. unfold getWorkingProvider.
  apply preserves_bind; [apply preserves_liftResult |]. intros cands.
  generalize (@nil string) as errors.
  induction cands as [| url rest IH]; intros errors; cbn [tryCandidates].
  - apply preserves_throw.
  - unfold probe.
    apply preserves_bind; [| intros [u | line]; [apply preserves_ret | apply IH]].
    apply preserves_tryCatch; [| intros e; apply preserves_ret].
    apply preserves_bind; [| intros []; apply preserves_ret].
    apply preserves_bind; [| intros p; apply preserves_liftResult].
    apply (preserves_onChain_call _ _ acc); [exact Hst | intros r; apply Hprobe].
Qed.

Lemma gas_limit_is_fixed_wide (rpcUrl : string) :
  returnsOnly (fun gas => gasLimit gas = 200000%N)
    (tryCatch (let* gasPrice := call (onChain rt) (GetGasPrice rpcUrl) in
               ret (mkGas (gasPrice * 120 / 100) 200000))
              (fun _ =>
                 log Warn "Could not fetch gas price, using fallback" >>
                 ret (mkGas (100 * 1000000000) 200000))).
Proof.
  intros s gas s'. unfold tryCatch, bind, call, ret, log, emit, onChain. cbn.
  destruct (ext rt (GetGasPrice rpcUrl) (outside (world s))) as [[p | e] w']; cbn;
    intros H; injection H as <- _; reflexivity.
Qed.

Lemma approveAll_maximal chainId contractConfig rpcUrl owner :
  wide I grantsWithFixedGas -> usdcStable I approvesMax ->
  preserves I (approveAll rt usdc chainId contractConfig rpcUrl owner).
Proof.
  intros Hst Hu. unfold approveAll, log. cbv zeta.
  do 4 (apply preserves_bind; [keep_wide grantsWithFixedGas approvesMax | intros _]).
  apply (preserves_bind_returning I (fun gas => gasLimit gas = 200000%N));
    [keep_wide grantsWithFixedGas approvesMax | apply gas_limit_is_fixed_wide |].
  intros [gp gl] Hgas. cbn in Hgas. subst gl.
  unfold approveUsdcFor, approveCtfFor, log.
  keep_wide grantsWithFixedGas approvesMax.
Qed.

Lemma approveUSDCAllowance_maximal :
  wide I grantsWithFixedGas -> usdcStable I approvesMax ->
  preserves I (approveUSDCAllowance rt usdc).
Proof.
  intros Hst Hu. unfold approveUSDCAllowance, log.
  destruct (negb (Js.truthy_opt (PRIVATE_KEY (env rt)))); [apply preserves_throw |].
  cbv zeta.
  apply preserves_bind; [keep_wide grantsWithFixedGas approvesMax |]. intros cfg.
  apply preserves_bind; [| intros [[owner e] |]; [apply preserves_throw | apply preserves_ret]].
  apply preserves_tryCatch; [| intros e; apply preserves_ret].
  apply preserves_bind.
  { apply (getWorkingProvider_wide grantsWithFixedGas approvesMax); auto. }
  intros url.
  apply preserves_bind; [keep_wide grantsWithFixedGas approvesMax |]. intros _.
  apply preserves_bind; [keep_wide grantsWithFixedGas approvesMax |]. intros owner.
  apply preserves_tryCatch; [| intros e; apply preserves_ret].
  apply preserves_bind; [| intros _; apply preserves_ret].
  apply approveAll_maximal; assumption.
Qed.

End AllowancesKept.

Section AllowancesAlreadySet.
Context {W : Type} (rt : Runtime W).
Context (usdc : forall A, UsdcCall A -> W -> Result A * W).
Context (I : State (Chain W) -> Prop).
Context (approved : forall c o p w, fst (ext rt (IsApprovedForAll c o p) w) <> Ok false).
Context (maximal : forall u o p w a, fst (usdc N (Allowance u o p) w) = Ok a -> a = MaxUint256).

Lemma approved_already_wide (ctf owner operator : string) :
  returnsOnly (fun ok => ok = true)
              (call (onChain rt) (IsApprovedForAll ctf owner operator)).
Proof.
  intros s a s'. unfold call, onChain. cbn.
  pose proof (approved ctf owner operator (outside (world s))) as Hyes.
  destruct (ext rt (IsApprovedForAll ctf owner operator) (outside (world s)))
    as [[[] | e] w']; cbn in *; intros H; inversion H; subst; congruence.
Qed.

Lemma maximal_already (token owner spender : string) :
  returnsOnly (fun current => current = MaxUint256)
              (usdcCall usdc (Allowance token owner spender)).
Proof.
  intros s a s'. unfold usdcCall.
  pose proof (maximal token owner spender (outside (world s))) as Hmax.
  destruct (usdc N (Allowance token owner spender) (outside (world s))) as [[n | e] w'];
    cbn in *; intros H; inversion H; subst. apply Hmax. reflexivity.
Qed.

Lemma approveUsdcFor_reads token owner spender gas name done already :
  wide I offChain -> usdcStable I readsOnly ->
  preserves I (approveUsdcFor rt usdc token owner spender gas name done already).
Proof.
  intros Hst Hu. unfold approveUsdcFor, log.
  apply (preserves_bind_returning I (fun current => current = MaxUint256));
    [keep_wide offChain readsOnly | apply maximal_already |].
  intros current ->. rewrite N.eqb_refl. cbn [negb].
  keep_wide offChain readsOnly.
Qed.

Lemma approveCtfFor_reads ctf owner operator gas approving done already :
  wide I offChain -> usdcStable I readsOnly ->
  preserves I (approveCtfFor rt ctf owner operator gas approving done already).
Proof.
  intros Hst Hu. unfold approveCtfFor, log.
  apply (preserves_bind_returning I (fun ok => ok = true));
    [keep_wide offChain readsOnly | apply approved_already_wide |].
  intros ok ->. cbn [negb].
  keep_wide offChain readsOnly.
Qed.

Lemma approveUSDCAllowance_reads :
  wide I offChain -> usdcStable I readsOnly ->
  preserves I (approveUSDCAllowance rt usdc).
Proof.
  intros Hst Hu. unfold approveUSDCAllowance, log.
  destruct (negb (Js.truthy_opt (PRIVATE_KEY (env rt)))); [apply preserves_throw |].
  cbv zeta.
  apply preserves_bind; [keep_wide offChain readsOnly |]. intros cfg.
  apply preserves_bind; [| intros [[owner e] |]; [apply preserves_throw | apply preserves_ret]].
  apply preserves_tryCatch; [| intros e; apply preserves_ret].
  apply preserves_bind.
  { apply (getWorkingProvider_wide rt I offChain readsOnly); auto. }
  intros url.
  apply preserves_bind; [keep_wide offChain readsOnly |]. intros _.
  apply preserves_bind; [keep_wide offChain readsOnly |]. intros owner.
  apply preserves_tryCatch; [| intros e; apply preserves_ret].
  apply preserves_bind; [| intros _; apply preserves_ret].
  unfold approveAll, log. cbv zeta.
  repeat first
    [ apply approveUsdcFor_reads; assumption
    | apply approveCtfFor_reads; assumption
    | keep_wide_step offChain readsOnly ].
Qed.

End AllowancesAlreadySet.

Lemma extendsBy_wide {W : Type} (acc : Event -> bool) (base : list Event) :
  wide (@extendsBy (Chain W) acc base) acc.
Proof.
  intros s e w (evs & Htr & Hq) He. exists (evs ++ [e])%list. cbn. split.
  - rewrite Htr. rewrite app_assoc. reflexivity.
  - rewrite forallb_app, Hq. cbn. rewrite He. reflexivity.
Qed.

Lemma usdcExtendsBy_stable {W : Type} (acc : UsdcEvent -> bool) (base : list UsdcEvent) :
  usdcStable (@usdcExtendsBy W acc base) acc.
Proof.
  intros s ev w (evs & Hlog & Hq) He. exists (evs ++ [ev])%list. cbn. split.
  - rewrite Hlog. rewrite app_assoc. reflexivity.
  - rewrite forallb_app, Hq. cbn. rewrite He. reflexivity.
Qed.

Lemma usdcExtendsBy_refl {W : Type} (acc : UsdcEvent -> bool) (s : State (Chain W)) :
  usdcExtendsBy acc (usdcLog (world s)) s.
Proof. exists []. split; [rewrite app_nil_r |]; reflexivity. Qed.

(** Both logs of a run, side by side. *)
Lemma both_logs {W : Type} (acc : Event -> bool) (accU : UsdcEvent -> bool)
    (s : State (Chain W)) :
  let I := fun s' : State (Chain W) =>
             ledger s' = ledger s
             /\ extendsBy acc (trace s) s'
             /\ usdcExtendsBy accU (usdcLog (world s)) s' in
  wide I acc /\ usdcStable I accU /\ I s.
Proof.
  cbv zeta. split; [| split].
  - intros s0 e w (Hl & Ht & Hu) He. split; [exact Hl |]. split.
    + exact (extendsBy_wide acc (trace s) s0 e w Ht He).
    + destruct Hu as (evs & Hlog & Hq). exists evs. auto.
  - intros s0 ev w (Hl & Ht & Hu) He. split; [exact Hl |]. split.
    + destruct Ht as (evs & Htr & Hq). exists evs. auto.
    + exact (usdcExtendsBy_stable accU (usdcLog (world s)) s0 ev w Hu He).
  - split; [reflexivity |]. split; [apply extendsBy_refl | apply usdcExtendsBy_refl].
Qed.

(** X17.  approveUSDCAllowance never touches the ledger; every approval it sends
    to the USDC contract is for MaxUint256, and every USDC approval and
    every setApprovalForAll grants with the gas limit 200000. *)
Theorem usdc_approvals_are_maximal {W : Type} (rt : Runtime W)
    (usdc : forall A, UsdcCall A -> W -> Result A * W) (s : State (Chain W)) :
  let s' := snd (approveUSDCAllowance rt usdc s) in
  ledger s' = ledger s
  /\ extendsBy grantsWithFixedGas (trace s) s'
  /\ usdcExtendsBy approvesMax (usdcLog (world s)) s'.
Proof.
  destruct (both_logs grantsWithFixedGas approvesMax s) as (Hw & Hu & H0).
  exact (approveUSDCAllowance_maximal rt usdc _ Hw Hu s H0).
Qed.

(** X18.  When every allowance already is MaxUint256 and every operator already
    is approved, approveUSDCAllowance only reads: it sends no approval to
    the USDC contract, no setApprovalForAll, and waits for no
    transaction. *)
Theorem allowances_in_place_send_nothing {W : Type} (rt : Runtime W)
    (usdc : forall A, UsdcCall A -> W -> Result A * W) (s : State (Chain W)) :
  (forall c o p w, fst (ext rt (IsApprovedForAll c o p) w) <> Ok false) ->
  (forall u o p w a, fst (usdc N (Allowance u o p) w) = Ok a -> a = MaxUint256) ->
  let s' := snd (approveUSDCAllowance rt usdc s) in
  extendsBy offChain (trace s) s'
  /\ usdcExtendsBy readsOnly (usdcLog (world s)) s'.
Proof.
  intros Happroved Hmax.
  destruct (both_logs offChain readsOnly s) as (Hw & Hu & H0).
  exact (proj2 (approveUSDCAllowance_reads rt usdc _ Happroved Hmax Hw Hu s H0)).
Qed.

Lemma allowances_in_place_send_nothing_witness :
  let rt := Fixture.runtime
              (mkEnv None (Some "0xkey") None None None (Some "true")) Fixture.calm in
  let s' := snd (approveUSDCAllowance rt (usdcAnswers MaxUint256) startOnChain) in
  fst (approveUSDCAllowance rt (usdcAnswers MaxUint256) startOnChain) = Ok tt
  /\ usdcExtendsBy readsOnly [] s'
  /\ length (usdcLog (world s')) = 5.
Proof.
  intros rt s'. split; [vm_compute; reflexivity |]. split.
  - apply (allowances_in_place_send_nothing rt (usdcAnswers MaxUint256) startOnChain).
    + intros c o p w H. discriminate H.
    + intros u o p w a H. injection H as <-. reflexivity.
  - vm_compute. reflexivity.
Defined.

(** With no allowance in place and NEG_RISK on, the four USDC approvals go
    out, each for MaxUint256; when the provider search fails with an
    "insufficient funds" error before the address is known, the error
    names the wallet "unknown". *)
Example approveUSDCAllowance_runs :
  let rt := Fixture.runtime
              (mkEnv None (Some "0xkey") None None None (Some "true")) Fixture.calm in
  let broke := Fixture.runtime Fixture.env0
                 (Fixture.withNetwork Fixture.calm
                    (fun _ => Throw (Js.newError "insufficient funds"))) in
  filter isApprove
    (usdcLog (world (snd (approveUSDCAllowance rt (usdcAnswers 0) startOnChain))))
  = [UsdcEv (Approve "0xUSDC" "0xCTF" MaxUint256 (mkGas 36000000000 200000)) (Ok "0xApproveTx");
     UsdcEv (Approve "0xUSDC" "0xExchange" MaxUint256 (mkGas 36000000000 200000))
            (Ok "0xApproveTx");
     UsdcEv (Approve "0xUSDC" "0xNegRiskAdapter" MaxUint256 (mkGas 36000000000 200000))
            (Ok "0xApproveTx");
     UsdcEv (Approve "0xUSDC" "0xNegRiskExchange" MaxUint256 (mkGas 36000000000 200000))
            (Ok "0xApproveTx")]
  /\ fst (approveUSDCAllowance broke (usdcAnswers 0) startOnChain)
     = Throw (Js.newError
         "Insufficient POL (MATIC) for gas fees on wallet unknown. Deposit POL and USDC.e on Polygon network to this address before running the bot.").
Proof. vm_compute. split; reflexivity. Qed.

(** X19.  updateClobBalanceAllowance makes the one client call between two log
    lines and is transparent to its outcome: it returns when the call
    returns and rethrows the very error the call threw, after logging
    it. *)
Theorem updateClobBalanceAllowance_rethrows {W : Type} (rt : Runtime W) (s : State W) :
  let out := fst (ext rt UpdateBalanceAllowance (world s)) in
  let s' := snd (updateClobBalanceAllowance rt s) in
  fst (updateClobBalanceAllowance rt s) = out
  /\ ledger s' = ledger s
  /\ trace s' =
     (trace s ++
      [EvLog Info "Updating CLOB API balance allowance for USDC...";
       EvCall UpdateBalanceAllowance out;
       match out with
       | Ok _ => EvLog Success "✅ CLOB API balance allowance updated for USDC"
       | Throw e => EvLog Error ("Failed to update CLOB balance allowance: " +:+ Js.errText e)
       end])%list.
Proof.
  cbv zeta.
  unfold updateClobBalanceAllowance, tryCatch, bind, call, log, emit, ret, throw, record.
  cbn.
  destruct (ext rt UpdateBalanceAllowance (world s)) as [[[] | e] w']; cbn;
    rewrite <- !app_assoc; cbn; repeat split; reflexivity.
Qed.

(** ** Orders per call *)

Lemma quiet_notOrdering (e : Event) : quiet e = true -> notOrdering e = true.
Proof.
  unfold quiet, notOrdering.
  destruct (isCreateOrder e), (isPostOrder e); cbn; try reflexivity;
    rewrite ?orb_true_r; intros H; discriminate H.
Qed.

Lemma ordersWithin_stable {W : Type} (n : nat) (base : list Event) :
  stable (@ordersWithin W n base) notOrdering.
Proof.
  intros s e w (evs & Htr & Hp & Hc) He. exists (evs ++ [e])%list. cbn.
  split; [rewrite Htr, app_assoc; reflexivity |].
  unfold notOrdering in He. apply negb_true_iff, orb_false_iff in He.
  destruct He as [Hcreate Hpost].
  rewrite !List.filter_app. cbn. rewrite Hcreate, Hpost, !app_nil_r. auto.
Qed.

Lemma ordersWithin_refl {W : Type} (n : nat) (s : State W) : ordersWithin n (trace s) s.
Proof. exists []. rewrite app_nil_r. cbn. repeat split; lia. Qed.

Lemma ordersWithin_app {W : Type} (n k : nat) (base : list Event) (s s' : State W) :
  ordersWithin n base s -> ordersWithin k (trace s) s' -> ordersWithin (n + k) base s'.
Proof.
  intros (evs & Htr & Hp & Hc) (evs' & Htr' & Hp' & Hc').
  exists (evs ++ evs')%list. split; [rewrite Htr', Htr, app_assoc; reflexivity |].
  rewrite !List.filter_app, !length_app. lia.
Qed.

Section OrdersPerCall.
Context {W : Type} (rt : Runtime W).

Ltac settle_calls :=
  repeat match goal with
         | |- context [ext rt ?c ?w] =>
             let r := fresh "r" in let w' := fresh "w" in
             destruct (ext rt c w) as [[r | r] w']; cbn
         | |- context [if ok ?res then _ else _] => destruct (ok res); cbn
         | |- context [includesEither ?n ?v ?a ?b] =>
             destruct (includesEither n v a b) as [[] | ?]; cbn
         end.

Lemma createSimulateAndPost_once order opts ty (s : State W) :
  ordersWithin 1 (trace s) (snd (createSimulateAndPost rt order opts ty s)).
Proof.
  unfold ordersWithin, createSimulateAndPost, simulateTx, bind, tryCatch, call, log, emit,
    ret, throw, liftResult, getSimulateTxDone, setSimulateTxDone, record.
  cbv zeta. cbn.
  destruct (ext rt (CreateMarketOrder order opts) (world s)) as [[signed | e] w1]; cbn.
  - destruct (simulateTxDone s); cbn; settle_calls;
      rewrite <- ?app_assoc; cbn; eexists; (split; [reflexivity | cbn; lia]).
  - eexists. split; [reflexivity | cbn; lia].
Qed.

Section TwoPhases.
Context (I J : State W -> Prop) (options : CopyTradeOptions).
Context (before : stable I quiet) (after : stable J notOrdering).
Context (blind : ledgerBlind J).
Context (placed : forall order opts ty s,
                    I s -> J (snd (createSimulateAndPost rt order opts ty s))).
Context (unplaced : forall s, I s -> J s).

Lemma after_quiet : stable J quiet.
Proof. apply (stable_weaken J notOrdering quiet); [apply quiet_notOrdering | exact after]. Qed.

Lemma settleSell_after (m t : string) (amt : float) order response :
  preserves J (settleSell rt m t amt order response).
Proof.
  unfold settleSell, recordSold, removeHoldings, log. keep notOrdering.
Qed.

Lemma settleBuy_after order response : preserves J (settleBuy rt options order response).
Proof.
  unfold settleBuy, recordBought, addHoldings, log. cbv zeta.
  repeat first
    [ apply approveTokensAfterBuy_preserves; exact after_quiet
    | keep_step notOrdering ].
Qed.

Lemma copyTrade_two_phases (s : State W) : I s -> J (snd (copyTrade rt options s)).
Proof.
  intros H. unfold copyTrade, tryCatch.
  assert (Hbody : J (snd ((if isSell options then copyTradeSell rt options
                           else copyTradeBuy rt options) s))).
  { destruct (isSell options).
    - unfold copyTradeSell, bind, getHoldings, emit, ret. cbv zeta.
      destruct (PrimFloat.leb _ 0); cbn.
      + apply unplaced. apply (before s _ (world s) H). reflexivity.
      + match goal with
        | |- context [createSimulateAndPost rt ?o ?opts ?ty ?s0] =>
            assert (Hp : J (snd (createSimulateAndPost rt o opts ty s0)))
              by (apply placed; apply (before s _ (world s) H); reflexivity);
            destruct (createSimulateAndPost rt o opts ty s0) as [[response | e] s2]
        end; cbn in Hp |- *; [| exact Hp].
        apply settleSell_after. exact Hp.
    - unfold copyTradeBuy, bind.
      pose proof (checkBuyBalance_preserves rt I options before s H) as H1.
      destruct (checkBuyBalance rt options s) as [[[sized report] | e] s1]; cbn in H1 |- *;
        [| apply unplaced; exact H1].
      pose proof (adjustToBalance_preserves rt I sized report before s1 H1) as H2.
      destruct (adjustToBalance rt sized report s1) as [[[res | order] | e] s2];
        cbn in H2 |- *; try (apply unplaced; exact H2).
      unfold submitBuy, bind, emit.
      match goal with
      | |- context [createSimulateAndPost rt ?o ?opts ?ty ?s0] =>
          assert (Hp : J (snd (createSimulateAndPost rt o opts ty s0)))
            by (apply placed; apply (before s2 _ (world s2) H2); reflexivity);
          destruct (createSimulateAndPost rt o opts ty s0) as [[response | e] s3]
      end; cbn in Hp |- *; [| exact Hp].
      apply settleBuy_after. exact Hp. }
  destruct ((if isSell options then copyTradeSell rt options else copyTradeBuy rt options) s)
    as [[res | e] s1]; cbn in Hbody |- *; [exact Hbody |].
  apply (copyTradeCatch_preserves rt J e after_quiet). exact Hbody.
Qed.

End TwoPhases.

Lemma copyTrade_once options (s : State W) :
  ordersWithin 1 (trace s) (snd (copyTrade rt options s)).
Proof.
  apply (copyTrade_two_phases (ordersWithin 0 (trace s)) (ordersWithin 1 (trace s)) options).
  - apply (stable_weaken _ notOrdering quiet); [apply quiet_notOrdering |].
    apply ordersWithin_stable.
  - apply ordersWithin_stable.
  - intros s0 l (evs & Htr & Hc). exists evs. auto.
  - intros order opts ty s0 H0.
    exact (ordersWithin_app 0 1 (trace s) s0 _ H0
             (createSimulateAndPost_once order opts ty s0)).
  - intros s0 (evs & Htr & Hp & Hc). exists evs. repeat split; auto.
  - apply ordersWithin_refl.
Qed.

Lemma placeMarket_once sd (tokenID : string) (amt : float) options (s : State W) :
  ordersWithin 1 (trace s) (snd (placeMarket rt sd tokenID amt options s)).
Proof.
  unfold placeMarket, tryCatch, bind. cbv zeta.
  match goal with
  | |- context [createSimulateAndPost rt ?o ?opts ?ty s] =>
      pose proof (createSimulateAndPost_once o opts ty s) as H;
      destruct (createSimulateAndPost rt o opts ty s) as [[[r |] | e] s1]
  end; exact H.
Qed.

(** X20.  No call retries: one copyTrade, placeMarketBuy or placeMarketSell
    creates at most one order and posts it at most once, so a sequence of
    calls on a builder creates at most as many orders as there are calls
    and never posts more orders than it created. *)
Theorem builder_orders_once_per_call (cs : list BuilderCall) (s : State W) :
  ordersWithin (length cs) (trace s) (runCalls rt cs s).
Proof.
  revert s. induction cs as [| c rest IH]; intros s; cbn [runCalls length].
  - apply ordersWithin_refl.
  - apply (ordersWithin_app 1 (length rest) (trace s) (snd (runCall rt c s))); [| apply IH].
    destruct c as [options | tokenID amt options | tokenID amt options]; cbn [runCall].
    + apply copyTrade_once.
    + apply placeMarket_once.
    + apply placeMarket_once.
Qed.

End OrdersPerCall.

(** ** The SELL side *)

Section SellSide.
Context {W : Type} (rt : Runtime W).

Lemma copyTrade_sell_keeps (I : State W -> Prop) options :
  stable I sellSide -> flagBlind I -> ledgerBlind I ->
  isSell options = true ->
  preserves I (copyTrade rt options).
Proof.
  intros Hst Hflag Hledger Hsell. unfold copyTrade. rewrite Hsell.
  unfold copyTradeSell, createSimulateAndPost, simulateTx, settleSell, recordSold,
    removeHoldings, copyTradeCatch, log.
  keep sellSide.
Qed.

(** X21.  A SELL stays off the chain: whatever its outcome, copyTrade on a
    SELL-side trade makes no chain call (no provider probe, no approval
    transaction, no gas-price or address lookup) and never asks for the
    USDC balance check. *)
Theorem sell_stays_off_chain options (s : State W) :
  isSell options = true ->
  extendsBy sellSide (trace s) (snd (copyTrade rt options s)).
Proof.
  intros Hsell.
  apply (copyTrade_sell_keeps (extendsBy sellSide (trace s)) options).
  - apply extendsBy_stable.
  - intros s0 b (evs & Htr & Hq). exists evs. auto.
  - intros s0 l (evs & Htr & Hq). exists evs. auto.
  - exact Hsell.
  - apply extendsBy_refl.
Qed.

End SellSide.

Lemma sell_stays_off_chain_witness :
  let rt := Fixture.runtime Fixture.env0 Fixture.calm in
  let s' := snd (copyTrade rt Fixture.sellTrade (Fixture.start (Fixture.holding 8))) in
  extendsBy sellSide [] s' /\ ledger s' = ∅.
Proof.
  intros rt s'. split.
  - apply (sell_stays_off_chain rt Fixture.sellTrade (Fixture.start (Fixture.holding 8))).
    reflexivity.
  - vm_compute. reflexivity.
Defined.
